(** * semtest: the semaphore self-test of the STM32F103 FreeRTOS demo

    A shallow embedding of [semtest.c] (vStartSemaphoreTasks,
    prvSemaphoreTest, xAreSemaphoreTasksStillRunning).  The C code is
    stateful and calls into the FreeRTOS kernel, so the embedding is a
    state-and-error monad over a [World] holding the file-scope variables,
    the heap objects the code allocates, the task list and a trace of the
    observable events.  What the kernel and the rival tasks do is supplied
    from outside: allocation outcomes as a list consumed in call order, and
    the results of xSemaphoreTake / xSemaphoreGive and the rival writes to
    the shared cell as a per-iteration environment record. *)

From stdpp Require Import gmap strings list fin_maps.
From Stdlib Require Import ZArith Lia.

Local Open Scope Z_scope.

(* ===================================================================== *)
(** ** Machine integers *)
(* ===================================================================== *)

(** [short] is a 16-bit two's complement integer; storing an [int] into a
    [short] keeps the low 16 bits. *)
Definition wrap16 (z : Z) : Z := (z + 32768) mod 65536 - 32768.

(** [unsigned long] and [TickType_t] are 32-bit unsigned integers. *)
Definition wrap32 (z : Z) : Z := z mod 4294967296.

Definition ULONG_MAX : Z := 4294967295.

(* ===================================================================== *)
(** ** Constants of semtest.c and of the FreeRTOS headers it includes *)
(* ===================================================================== *)

Definition semtstBLOCKING_EXPECTED_VALUE : Z := 0xfff.
Definition semtstNON_BLOCKING_EXPECTED_VALUE : Z := 0xff.
Definition semtstNUM_TASKS : Z := 4.
Definition semtstDELAY_FACTOR : Z := 10.

Definition pdFALSE : Z := 0.
Definition pdTRUE : Z := 1.
Definition pdPASS : Z := pdTRUE.
Definition NULL : Z := 0.
Definition tskIDLE_PRIORITY : Z := 0.

Definition CRLF : string :=
  String (Ascii.ascii_of_nat 13) (String (Ascii.ascii_of_nat 10) EmptyString).
Definition pcPollingSemaphoreTaskError : string :=
  "Guarded shared variable in unexpected state." +:+ CRLF.
Definition pcSemaphoreTaskStart : string :=
  "Guarded shared variable task started." +:+ CRLF.

(* ===================================================================== *)
(** ** Data *)
(* ===================================================================== *)

(** [struct SEMAPHORE_PARAMETERS]. Handles and pointers are addresses. *)
Record xSemaphoreParameters : Type := mkParams {
  xSemaphore : Z;
  pulSharedVariable : Z;
  xBlockTime : Z
}.

(** A task handed to the scheduler by xTaskCreate. *)
Record Task : Type := mkTask {
  pcName : string;
  usStackDepth : Z;
  pvParameters : Z;
  uxTaskPriority : Z
}.

(** What the program does that can be seen from outside. *)
Inductive Event : Type :=
| EvPrint (msg : string)
| EvStore (p v : Z)
| EvLoad (p v : Z)
| EvTake (sem ticks r : Z)
| EvGive (sem r : Z)
| EvYield
| EvDelay (ticks : Z).

(** The two kinds of object semtest.c asks pvPortMalloc for. *)
Inductive ctype : Type := TParams | TULong.

Record World : Type := mkWorld {
  (* file-scope variables of semtest.c *)
  sCheckVariables : list Z;
  sNextCheckVariable : Z;
  sLastCheckVariables : list Z;
  (* heap *)
  params : gmap Z xSemaphoreParameters;
  cells : gmap Z Z;
  sems : gmap Z bool;
  brk : Z;
  (* outcomes of the allocations still to come, in call order *)
  oracle : list bool;
  (* scheduler *)
  tasks : list Task;
  (* observable events, oldest first *)
  trace : list Event;
  (* what the memory behind an address holds before the code writes to it:
     pvPortMalloc does not initialise the block it hands out *)
  stale_params : Z -> xSemaphoreParameters;
  stale_cells : Z -> Z
}.

Definition set_sCheckVariables (v : list Z) (w : World) : World :=
  mkWorld v (sNextCheckVariable w) (sLastCheckVariables w) (params w)
          (cells w) (sems w) (brk w) (oracle w) (tasks w) (trace w)
          (stale_params w) (stale_cells w).
Definition set_sNextCheckVariable (v : Z) (w : World) : World :=
  mkWorld (sCheckVariables w) v (sLastCheckVariables w) (params w)
          (cells w) (sems w) (brk w) (oracle w) (tasks w) (trace w)
          (stale_params w) (stale_cells w).
Definition set_sLastCheckVariables (v : list Z) (w : World) : World :=
  mkWorld (sCheckVariables w) (sNextCheckVariable w) v (params w)
          (cells w) (sems w) (brk w) (oracle w) (tasks w) (trace w)
          (stale_params w) (stale_cells w).
Definition set_params (v : gmap Z xSemaphoreParameters) (w : World) : World :=
  mkWorld (sCheckVariables w) (sNextCheckVariable w) (sLastCheckVariables w) v
          (cells w) (sems w) (brk w) (oracle w) (tasks w) (trace w)
          (stale_params w) (stale_cells w).
Definition set_cells (v : gmap Z Z) (w : World) : World :=
  mkWorld (sCheckVariables w) (sNextCheckVariable w) (sLastCheckVariables w)
          (params w) v (sems w) (brk w) (oracle w) (tasks w) (trace w)
          (stale_params w) (stale_cells w).
Definition set_sems (v : gmap Z bool) (w : World) : World :=
  mkWorld (sCheckVariables w) (sNextCheckVariable w) (sLastCheckVariables w)
          (params w) (cells w) v (brk w) (oracle w) (tasks w) (trace w)
          (stale_params w) (stale_cells w).
Definition set_brk (v : Z) (w : World) : World :=
  mkWorld (sCheckVariables w) (sNextCheckVariable w) (sLastCheckVariables w)
          (params w) (cells w) (sems w) v (oracle w) (tasks w) (trace w)
          (stale_params w) (stale_cells w).
Definition set_oracle (v : list bool) (w : World) : World :=
  mkWorld (sCheckVariables w) (sNextCheckVariable w) (sLastCheckVariables w)
          (params w) (cells w) (sems w) (brk w) v (tasks w) (trace w)
          (stale_params w) (stale_cells w).
Definition set_tasks (v : list Task) (w : World) : World :=
  mkWorld (sCheckVariables w) (sNextCheckVariable w) (sLastCheckVariables w)
          (params w) (cells w) (sems w) (brk w) (oracle w) v (trace w)
          (stale_params w) (stale_cells w).
Definition emit (e : Event) (w : World) : World :=
  mkWorld (sCheckVariables w) (sNextCheckVariable w) (sLastCheckVariables w)
          (params w) (cells w) (sems w) (brk w) (oracle w) (tasks w)
          (trace w ++ [e]) (stale_params w) (stale_cells w).

(** The state the C start-up code leaves before [main]: the arrays are
    zero-initialised, nothing is allocated, nothing has happened.  The
    kernel's heap, a static array that is not part of the sources, is taken
    as zeroed with the rest of the static storage.  The allocation
    outcomes are the one thing chosen from outside. *)
Definition boot (outcomes : list bool) : World :=
  mkWorld [0; 0; 0; 0] 0 [0; 0; 0; 0] ∅ ∅ ∅ 1 outcomes [] []
          (fun _ => mkParams 0 0 0) (fun _ => 0).

(* ===================================================================== *)
(** ** The monad: state passing, with the faults C leaves undefined *)
(* ===================================================================== *)

Inductive fault : Type :=
| BadPointer (p : Z)      (* access through NULL or an unallocated address *)
| BadIndex (i : Z)        (* array access outside its bounds *)
| DivByZero
| OutOfFuel.              (* the loop did not finish within the fuel given *)

(** A fault stops the program; it keeps the world as it was when the
    fault happened, so that what was done before it can be told. *)
Inductive result (A : Type) : Type :=
| Ok (a : A) (w : World)
| Fault (f : fault) (w : World).
Arguments Ok {A} a w.
Arguments Fault {A} f w.

Definition M (A : Type) : Type := World -> result A.

Definition ret {A} (a : A) : M A := fun w => Ok a w.
Definition fail {A} (f : fault) : M A := fun w => Fault f w.
Definition bind {A B} (m : M A) (k : A -> M B) : M B :=
  fun w => match m w with
           | Ok a w' => k a w'
           | Fault f w' => Fault f w'
           end.

Notation "x <~ m ;; k" := (bind m (fun x => k))
  (at level 100, m at next level, right associativity).
Notation "m ;;; k" := (bind m (fun _ => k))
  (at level 100, right associativity).

Definition modify (f : World -> World) : M unit := fun w => Ok tt (f w).
Definition gets {A} (f : World -> A) : M A := fun w => Ok (f w) w.

(* ===================================================================== *)
(** ** The services semtest.c consumes *)
(* ===================================================================== *)

(** Modelled from the spec: the DiagnosticSink (print.c is not part of the
    sources); an append-only, fire-and-forget message facility. *)
Definition vPrintDisplayMessage (msg : string) : M unit :=
  modify (emit (EvPrint msg)).

Definition next_outcome (w : World) : bool :=
  match oracle w with
  | b :: _ => b
  | [] => false
  end.

(** Modelled from the spec: pvPortMalloc (the kernel's heap is not part of
    the sources) returns NULL when the allocation fails and a fresh address
    otherwise.  The block is not initialised: it holds whatever the memory
    held before. *)
Definition pvPortMalloc (ty : ctype) : M Z := fun w =>
  let w1 := set_oracle (tl (oracle w)) w in
  if next_outcome w then
    let a := brk w in
    let w2 := set_brk (a + 1) w1 in
    Ok a (match ty with
          | TParams => set_params (<[a := stale_params w a]> (params w2)) w2
          | TULong => set_cells (<[a := stale_cells w a]> (cells w2)) w2
          end)
  else Ok NULL w1.

Definition load_params (p : Z) : M xSemaphoreParameters := fun w =>
  match params w !! p with
  | Some s => Ok s w
  | None => Fault (BadPointer p) w
  end.

Definition store_params (p : Z) (f : xSemaphoreParameters -> xSemaphoreParameters) : M unit :=
  s <~ load_params p ;;
  modify (fun w => set_params (<[p := f s]> (params w)) w).

(** [*p = v] for an [unsigned long *]. *)
Definition store_ulong (p v : Z) : M unit := fun w =>
  match cells w !! p with
  | Some _ => Ok tt (emit (EvStore p v) (set_cells (<[p := v]> (cells w)) w))
  | None => Fault (BadPointer p) w
  end.

(** [*p] for a [volatile unsigned long *]. *)
Definition load_ulong (p : Z) : M Z := fun w =>
  match cells w !! p with
  | Some v => Ok v (emit (EvLoad p v) w)
  | None => Fault (BadPointer p) w
  end.

(** Modelled from the spec: vSemaphoreCreateBinary (semphr.h is not part of
    the sources) creates a binary semaphore in the available state and
    stores its handle, or NULL when the kernel cannot allocate it. *)
Definition vSemaphoreCreateBinary (pxParameters : Z) : M unit :=
  ok <~ gets next_outcome ;;
  modify (fun w => set_oracle (tl (oracle w)) w) ;;;
  if ok : bool then
    h <~ gets brk ;;
    modify (fun w => set_sems (<[h := true]> (sems w)) (set_brk (h + 1) w)) ;;;
    store_params pxParameters
      (fun s => mkParams h (pulSharedVariable s) (xBlockTime s))
  else
    store_params pxParameters
      (fun s => mkParams NULL (pulSharedVariable s) (xBlockTime s)).

(** Modelled from the spec: xTaskCreate (task.h is not part of the
    sources); the new task joins the scheduler's list unless the kernel
    cannot allocate it.  semtest.c ignores the return value. *)
Definition xTaskCreate (name : string) (depth pv prio : Z) : M unit :=
  ok <~ gets next_outcome ;;
  modify (fun w => set_oracle (tl (oracle w)) w) ;;;
  if ok : bool then
    modify (fun w => set_tasks (tasks w ++ [mkTask name depth pv prio]) w)
  else ret tt.

(** The kernel's answer to xSemaphoreTake and xSemaphoreGive and what the
    rival tasks do to the shared cell are not decided by semtest.c: each
    pass of the task's endless loop gets them from outside.
    [rival_write k = Some v] is a foreign store of [v] into the cell between
    the task's store of [k] and its re-read.  The results are kept as the
    BaseType_t the code compares with pdPASS and pdFALSE. *)
Record CycleEnv : Type := mkEnv {
  take_result : Z;
  rival_write : Z -> option Z;
  give_result : Z
}.

(** Modelled from the spec: the binary semaphore (semphr.h is not part of
    the sources).  A successful take leaves it held, an accepted give leaves
    it available; whether a call succeeds is the environment's. *)
Definition xSemaphoreTake (env : CycleEnv) (sem ticks : Z) : M Z :=
  let r := take_result env in
  modify (emit (EvTake sem ticks r)) ;;;
  (if r =? pdPASS
   then modify (fun w => set_sems (<[sem := false]> (sems w)) w)
   else ret tt) ;;;
  ret r.

Definition xSemaphoreGive (env : CycleEnv) (sem : Z) : M Z :=
  let r := give_result env in
  modify (emit (EvGive sem r)) ;;;
  (if r =? pdFALSE
   then ret tt
   else modify (fun w => set_sems (<[sem := true]> (sems w)) w)) ;;;
  ret r.

(** The rival's store, if any, after the task stored [k]. *)
Definition rival_step (env : CycleEnv) (p k : Z) : M unit :=
  match rival_write env k with
  | Some v => modify (fun w => set_cells (<[p := v]> (cells w)) w)
  | None => ret tt
  end.

(** Modelled from the spec: yielding the rest of the quantum and sleeping
    for a number of ticks are seen only as events. *)
Definition taskYIELD : M unit := modify (emit EvYield).
Definition vTaskDelay (ticks : Z) : M unit := modify (emit (EvDelay ticks)).

(** A [for] loop over a fixed range, carrying the locals it updates. *)
Fixpoint for_each {A S : Type} (body : A -> S -> M S) (xs : list A) (s : S) : M S :=
  match xs with
  | [] => ret s
  | x :: xs' => s' <~ body x s ;; for_each body xs' s'
  end.

(** [a[i]] for one of the two [short] arrays of semtstNUM_TASKS elements. *)
Definition read_short (a : World -> list Z) (i : Z) : M Z := fun w =>
  match (if 0 <=? i then a w !! Z.to_nat i else None) with
  | Some v => Ok v w
  | None => Fault (BadIndex i) w
  end.

(* ===================================================================== *)
(** ** vStartSemaphoreTasks *)
(* ===================================================================== *)

Section Startup.

(** Both come from FreeRTOSConfig.h / portmacro.h, which are not among
    the sources. *)
Variable portTICK_PERIOD_MS : Z.
Variable configMINIMAL_STACK_SIZE : Z.

Definition semtstSTACK_SIZE : Z := configMINIMAL_STACK_SIZE.

(** [a / b] on TickType_t. *)
Definition tick_div (a b : Z) : M Z :=
  if b =? 0 then fail DivByZero else ret (a / b).

(** The first half of vStartSemaphoreTasks: the two polling tasks. *)
Definition start_polling_pair : M unit :=
  pxFirstSemaphoreParameters <~ pvPortMalloc TParams ;;
  if negb (pxFirstSemaphoreParameters =? NULL) then
    vSemaphoreCreateBinary pxFirstSemaphoreParameters ;;;
    s <~ load_params pxFirstSemaphoreParameters ;;
    if negb (xSemaphore s =? NULL) then
      c <~ pvPortMalloc TULong ;;
      store_params pxFirstSemaphoreParameters
        (fun s => mkParams (xSemaphore s) c (xBlockTime s)) ;;;
      s <~ load_params pxFirstSemaphoreParameters ;;
      store_ulong (pulSharedVariable s) semtstNON_BLOCKING_EXPECTED_VALUE ;;;
      store_params pxFirstSemaphoreParameters
        (fun s => mkParams (xSemaphore s) (pulSharedVariable s) 0) ;;;
      xTaskCreate "PolSEM1" semtstSTACK_SIZE pxFirstSemaphoreParameters tskIDLE_PRIORITY ;;;
      xTaskCreate "PolSEM2" semtstSTACK_SIZE pxFirstSemaphoreParameters tskIDLE_PRIORITY
    else ret tt
  else ret tt.

(** The second half: the two blocking tasks.  [xBlockTime_100] is the
    local constant [xBlockTime] of the C function, renamed because the
    structure has a field of that name. *)
Definition start_blocking_pair (uxPriority : Z) : M unit :=
  let xBlockTime_100 := 100 in
  pxSecondSemaphoreParameters <~ pvPortMalloc TParams ;;
  if negb (pxSecondSemaphoreParameters =? NULL) then
    vSemaphoreCreateBinary pxSecondSemaphoreParameters ;;;
    s <~ load_params pxSecondSemaphoreParameters ;;
    if negb (xSemaphore s =? NULL) then
      c <~ pvPortMalloc TULong ;;
      store_params pxSecondSemaphoreParameters
        (fun s => mkParams (xSemaphore s) c (xBlockTime s)) ;;;
      s <~ load_params pxSecondSemaphoreParameters ;;
      store_ulong (pulSharedVariable s) semtstBLOCKING_EXPECTED_VALUE ;;;
      t <~ tick_div xBlockTime_100 portTICK_PERIOD_MS ;;
      store_params pxSecondSemaphoreParameters
        (fun s => mkParams (xSemaphore s) (pulSharedVariable s) t) ;;;
      xTaskCreate "BlkSEM1" semtstSTACK_SIZE pxSecondSemaphoreParameters uxPriority ;;;
      xTaskCreate "BlkSEM2" semtstSTACK_SIZE pxSecondSemaphoreParameters uxPriority
    else ret tt
  else ret tt.

Definition vStartSemaphoreTasks (uxPriority : Z) : M unit :=
  start_polling_pair ;;;
  start_blocking_pair uxPriority.

End Startup.

(* ===================================================================== *)
(** ** prvSemaphoreTest *)
(* ===================================================================== *)

(** The automatic variables of prvSemaphoreTest that live across passes of
    its [for( ; ; )] loop.  All of them, [sError] included, are declared
    and initialised once, before the loop. *)
Record Locals : Type := mkLocals {
  l_pxParameters : Z;
  l_pulSharedVariable : Z;
  l_ulExpectedValue : Z;
  l_sError : Z;
  l_sCheckVariableToUse : Z
}.

Definition set_sError (v : Z) (l : Locals) : Locals :=
  mkLocals (l_pxParameters l) (l_pulSharedVariable l) (l_ulExpectedValue l)
           v (l_sCheckVariableToUse l).

(** The critical section at the top of the task: read sNextCheckVariable,
    then increment it.  portENTER_CRITICAL makes the two one step. *)
Definition next_check_variable : M Z :=
  i <~ gets sNextCheckVariable ;;
  modify (set_sNextCheckVariable (wrap16 (i + 1))) ;;;
  ret i.

(** Everything before the [for( ; ; )]. *)
Definition prvSemaphoreTest_start (pv : Z) : M Locals :=
  sCheckVariableToUse <~ next_check_variable ;;
  vPrintDisplayMessage pcSemaphoreTaskStart ;;;
  s <~ load_params pv ;;
  let ulExpectedValue :=
    if xBlockTime s >? 0
    then semtstBLOCKING_EXPECTED_VALUE
    else semtstNON_BLOCKING_EXPECTED_VALUE in
  ret (mkLocals pv (pulSharedVariable s) ulExpectedValue pdFALSE sCheckVariableToUse).

(** The counting loop, [for( ulCounter = 0; ulCounter <= ulExpectedValue;
    ulCounter++ )], from a given [ulCounter] on. *)
Fixpoint count_loop (fuel : nat) (env : CycleEnv) (ulCounter : Z) (l : Locals) : M Locals :=
  match fuel with
  | O => fail OutOfFuel
  | S fuel' =>
    if ulCounter <=? l_ulExpectedValue l then
      store_ulong (l_pulSharedVariable l) ulCounter ;;;
      rival_step env (l_pulSharedVariable l) ulCounter ;;;
      v <~ load_ulong (l_pulSharedVariable l) ;;
      l' <~ (if negb (v =? ulCounter) then
               (if l_sError l =? pdFALSE
                then vPrintDisplayMessage pcPollingSemaphoreTaskError
                else ret tt) ;;;
               ret (set_sError pdTRUE l)
             else ret l) ;;
      count_loop fuel' env (wrap32 (ulCounter + 1)) l'
    else ret l
  end.

(** [( sCheckVariables[ i ] )++]. *)
Definition incr_sCheckVariables (i : Z) : M unit :=
  v <~ read_short sCheckVariables i ;;
  modify (fun w => set_sCheckVariables
                     (<[Z.to_nat i := wrap16 (v + 1)]> (sCheckVariables w)) w).

(** One pass of the [for( ; ; )] loop. *)
Definition prvSemaphoreTest_cycle (fuel : nat) (env : CycleEnv) (l : Locals) : M Locals :=
  s <~ load_params (l_pxParameters l) ;;
  r <~ xSemaphoreTake env (xSemaphore s) (xBlockTime s) ;;
  if r =? pdPASS then
    v <~ load_ulong (l_pulSharedVariable l) ;;
    l1 <~ (if negb (v =? l_ulExpectedValue l) then
             vPrintDisplayMessage pcPollingSemaphoreTaskError ;;;
             ret (set_sError pdTRUE l)
           else ret l) ;;
    l2 <~ count_loop fuel env 0 l1 ;;
    s <~ load_params (l_pxParameters l) ;;
    g <~ xSemaphoreGive env (xSemaphore s) ;;
    l3 <~ (if g =? pdFALSE then
             vPrintDisplayMessage pcPollingSemaphoreTaskError ;;;
             ret (set_sError pdTRUE l2)
           else ret l2) ;;
    (if l_sError l3 =? pdFALSE then
       if l_sCheckVariableToUse l3 <? semtstNUM_TASKS
       then incr_sCheckVariables (l_sCheckVariableToUse l3)
       else ret tt
     else ret tt) ;;;
    s <~ load_params (l_pxParameters l) ;;
    vTaskDelay (wrap32 (xBlockTime s * semtstDELAY_FACTOR)) ;;;
    ret l3
  else
    s <~ load_params (l_pxParameters l) ;;
    (if xBlockTime s =? 0 then taskYIELD else ret tt) ;;;
    ret l.

(** The task never returns; a run of it is followed for as many passes of
    the endless loop as environments are supplied. *)
Definition run_cycles (fuel : nat) (envs : list CycleEnv) (l : Locals) : M Locals :=
  for_each (prvSemaphoreTest_cycle fuel) envs l.

Definition prvSemaphoreTest (fuel : nat) (pv : Z) (envs : list CycleEnv) : M Locals :=
  l <~ prvSemaphoreTest_start pv ;;
  run_cycles fuel envs l.

(* ===================================================================== *)
(** ** xAreSemaphoreTasksStillRunning *)
(* ===================================================================== *)

Definition still_running_body (xTask : Z) (xReturn : Z) : M Z :=
  last <~ read_short sLastCheckVariables xTask ;;
  live <~ read_short sCheckVariables xTask ;;
  let xReturn' := if last =? live then pdFALSE else xReturn in
  live' <~ read_short sCheckVariables xTask ;;
  modify (fun w => set_sLastCheckVariables
                     (<[Z.to_nat xTask := live']> (sLastCheckVariables w)) w) ;;;
  ret xReturn'.

Definition xAreSemaphoreTasksStillRunning : M Z :=
  for_each still_running_body (seqZ 0 semtstNUM_TASKS) pdTRUE.

(* ===================================================================== *)
(** ** Closed forms used in the proofs *)
(* ===================================================================== *)

(** The world with the semaphore states and the cells replaced and the
    trace extended: the footprint of everything a pass of the task does
    apart from its counter increment. *)
Definition touch (sm : gmap Z bool) (cs : gmap Z Z) (evs : list Event) (w : World) : World :=
  mkWorld (sCheckVariables w) (sNextCheckVariable w) (sLastCheckVariables w)
          (params w) cs sm (brk w) (oracle w) (tasks w) (trace w ++ evs)
          (stale_params w) (stale_cells w).

(** What the task reads back after storing [k]. *)
Definition reread (env : CycleEnv) (k : Z) : Z := default k (rival_write env k).

(** The flag, the events and the cell after the loop has gone through the
    counter values [ks], as functions of the flag and the cell before. *)
Fixpoint loop_sError (env : CycleEnv) (ks : list Z) (e : Z) : Z :=
  match ks with
  | [] => e
  | k :: ks' => loop_sError env ks' (if reread env k =? k then e else pdTRUE)
  end.

Fixpoint loop_events (p : Z) (env : CycleEnv) (ks : list Z) (e : Z) : list Event :=
  match ks with
  | [] => []
  | k :: ks' =>
    [EvStore p k; EvLoad p (reread env k)] ++
    (if reread env k =? k then []
     else if e =? pdFALSE then [EvPrint pcPollingSemaphoreTaskError] else []) ++
    loop_events p env ks' (if reread env k =? k then e else pdTRUE)
  end.

Fixpoint loop_cells (p : Z) (env : CycleEnv) (ks : list Z) (cs : gmap Z Z) : gmap Z Z :=
  match ks with
  | [] => cs
  | k :: ks' => loop_cells p env ks' (<[p := reread env k]> cs)
  end.

(** Counter values the counting loop goes through. *)
Definition counts (l : Locals) : list Z := seqZ 0 (l_ulExpectedValue l + 1).

(** The flag on entering the counting loop, given the value [v0] found in
    the cell after taking the semaphore. *)
Definition sError_checked (l : Locals) (v0 : Z) : Z :=
  if v0 =? l_ulExpectedValue l then l_sError l else pdTRUE.

(** The flag at the end of a pass that took the semaphore. *)
Definition sError_after (env : CycleEnv) (l : Locals) (v0 : Z) : Z :=
  if give_result env =? pdFALSE then pdTRUE
  else loop_sError env (counts l) (sError_checked l v0).

Definition sems_after (env : CycleEnv) (s : xSemaphoreParameters) (sm : gmap Z bool) : gmap Z bool :=
  if give_result env =? pdFALSE
  then <[xSemaphore s := false]> sm
  else <[xSemaphore s := true]> (<[xSemaphore s := false]> sm).

(** Events of a pass that took the semaphore, the final vTaskDelay included. *)
Definition pass_events (env : CycleEnv) (s : xSemaphoreParameters) (l : Locals) (v0 : Z) : list Event :=
  [EvTake (xSemaphore s) (xBlockTime s) (take_result env);
   EvLoad (l_pulSharedVariable l) v0] ++
  (if v0 =? l_ulExpectedValue l then [] else [EvPrint pcPollingSemaphoreTaskError]) ++
  loop_events (l_pulSharedVariable l) env (counts l) (sError_checked l v0) ++
  [EvGive (xSemaphore s) (give_result env)] ++
  (if give_result env =? pdFALSE then [EvPrint pcPollingSemaphoreTaskError] else []) ++
  [EvDelay (wrap32 (xBlockTime s * semtstDELAY_FACTOR))].

(** The conditional increment that ends the critical section. *)
Definition progress_signal (e i : Z) : M unit :=
  if e =? pdFALSE then
    if i <? semtstNUM_TASKS then incr_sCheckVariables i else ret tt
  else ret tt.

(* ===================================================================== *)
(** ** The vocabulary of the specification *)
(* ===================================================================== *)

(** Number of messages handed to the DiagnosticSink in a stretch of trace. *)
Fixpoint emissions (t : list Event) : nat :=
  match t with
  | [] => 0%nat
  | EvPrint _ :: t' => S (emissions t')
  | _ :: t' => emissions t'
  end.

(** The three kinds of fault of a pass that took the semaphore: the cell
    found different from the expected value, a re-read different from the
    value just written, the release rejected. *)
Definition pre_mismatch (l : Locals) (v0 : Z) : bool :=
  negb (v0 =? l_ulExpectedValue l).

Definition reverify_mismatch (env : CycleEnv) (l : Locals) : bool :=
  existsb (fun k => negb (reread env k =? k)) (counts l).

Definition release_rejected (env : CycleEnv) : bool :=
  give_result env =? pdFALSE.

Definition fault_in_cycle (env : CycleEnv) (l : Locals) (v0 : Z) : bool :=
  pre_mismatch l v0 || reverify_mismatch env l || release_rejected env.

(** No rival touches the cell while the task counts. *)
Definition uninterfered (env : CycleEnv) (l : Locals) : Prop :=
  forall k, 0 <= k <= l_ulExpectedValue l -> rival_write env k = None.

(** What a pass needs to run: valid pointers in the locals, an expected
    value the counter can exceed, fuel for the counting loop, and a check
    variable index that is not negative, with the array in place. *)
Definition ready (fuel : nat) (l : Locals) (w : World) : Prop :=
  is_Some (params w !! l_pxParameters l) /\
  is_Some (cells w !! l_pulSharedVariable l) /\
  0 <= l_ulExpectedValue l < ULONG_MAX /\
  (Z.to_nat (l_ulExpectedValue l) + 1 < fuel)%nat /\
  0 <= l_sCheckVariableToUse l /\
  length (sCheckVariables w) = 4%nat.

(** A pass advances the task's counter exactly in this case. *)
Definition advances (env : CycleEnv) (l : Locals) (v0 : Z) : bool :=
  (take_result env =? pdPASS) && (l_sError l =? pdFALSE) &&
  negb (fault_in_cycle env l v0) && (l_sCheckVariableToUse l <? semtstNUM_TASKS).

(** Several tasks reaching the top of prvSemaphoreTest one after the other;
    the critical section orders them. *)
Fixpoint start_tasks (pvs : list Z) : M (list Locals) :=
  match pvs with
  | [] => ret []
  | pv :: pvs' =>
    l <~ prvSemaphoreTest_start pv ;;
    ls <~ start_tasks pvs' ;;
    ret (l :: ls)
  end.

(** The counter array after [( sCheckVariables[ i ] )++]. *)
Definition bumped (i : Z) (arr : list Z) : list Z :=
  match arr !! Z.to_nat i with
  | Some v => <[Z.to_nat i := wrap16 (v + 1)]> arr
  | None => arr
  end.

(** The verdict of the liveness check: every task moved since the snapshot. *)
Definition all_changed (w : World) : bool :=
  forallb (fun i => negb (bool_decide
             (sLastCheckVariables w !! Z.to_nat i = sCheckVariables w !! Z.to_nat i)))
          (seqZ 0 semtstNUM_TASKS).


(* ===================================================================== *)
(** ** Concrete scenarios *)
(* ===================================================================== *)

(** Start-up with every allocation granted, a 1 ms tick, a 128-word stack
    and priority 1 for the blocking pair. *)
Definition w_started : World :=
  match vStartSemaphoreTasks 1 128 1 (boot (repeat true 10)) with
  | Ok _ w => w
  | Fault _ _ => boot []
  end.

(** Environments of a pass: nothing goes wrong; a rival overwrites the cell
    with 77 right after the task stored 5; the same with the release
    rejected as well. *)
Definition clean : CycleEnv := mkEnv pdPASS (fun _ => None) pdTRUE.
Definition glitch : CycleEnv :=
  mkEnv pdPASS (fun k => if k =? 5 then Some 77 else None) pdTRUE.
Definition glitch_reject : CycleEnv :=
  mkEnv pdPASS (fun k => if k =? 5 then Some 77 else None) pdFALSE.

(** The first polling task, PolSEM1, just before its first pass. *)
Definition pol_started : Locals * World :=
  match prvSemaphoreTest_start 1 w_started with
  | Ok l w => (l, w)
  | Fault _ _ => (mkLocals 0 0 0 0 0, boot [])
  end.

(** Messages a pass that took the semaphore hands to the sink: one for a
    pre-condition mismatch, one for the re-read mismatches together if the
    flag is still clear when the counting loop starts, one for a rejected
    release. *)
Definition pass_messages (env : CycleEnv) (l : Locals) (v0 : Z) : nat :=
  (Nat.b2n (pre_mismatch l v0) +
   Nat.b2n ((l_sError l =? pdFALSE)%Z && negb (pre_mismatch l v0) &&
            reverify_mismatch env l) +
   Nat.b2n (release_rejected env))%nat.

(** A pass in which only the release is rejected. *)
Definition reject : CycleEnv := mkEnv pdPASS (fun _ => None) pdFALSE.

(** The spawn entry point called twice, every allocation granted. *)
Definition w_started_twice : World :=
  match (vStartSemaphoreTasks 1 128 1 ;;; vStartSemaphoreTasks 1 128 1)
          (boot (repeat true 20)) with
  | Ok _ w => w
  | Fault _ _ => boot []
  end.

(** The eight tasks of the two calls, started in order of creation. *)
Definition eight_started : list Locals * World :=
  match start_tasks (pvParameters <$> tasks w_started_twice) w_started_twice with
  | Ok ls w => (ls, w)
  | Fault _ _ => ([], boot [])
  end.

(** The first task of the second call. *)
Definition fifth_task : Locals :=
  default (mkLocals 0 0 0 0 0) (fst eight_started !! 4%nat).

(* ===================================================================== *)
(** ** Further vocabulary: what a pass does on the bus, tasks in turn *)
(* ===================================================================== *)

(** Stores to, and loads from, address [p] in a stretch of trace. *)
Fixpoint stores (p : Z) (t : list Event) : nat :=
  match t with
  | [] => 0%nat
  | EvStore q _ :: t' => (Nat.b2n (Z.eqb q p) + stores p t')%nat
  | _ :: t' => stores p t'
  end.

Fixpoint loads (p : Z) (t : list Event) : nat :=
  match t with
  | [] => 0%nat
  | EvLoad q _ :: t' => (Nat.b2n (Z.eqb q p) + loads p t')%nat
  | _ :: t' => loads p t'
  end.

(** A task in good standing: ready, flag clear, its cell at the expected
    value, and an index that has a check variable. *)
Definition healthy (fuel : nat) (l : Locals) (w : World) : Prop :=
  ready fuel l w /\
  l_sError l = pdFALSE /\
  cells w !! l_pulSharedVariable l = Some (l_ulExpectedValue l) /\
  l_sCheckVariableToUse l < semtstNUM_TASKS.

(** Tasks taking turns: each job is a task and the number of passes it
    makes before the next task runs, every pass in the [clean]
    environment. *)
Fixpoint run_jobs (fuel : nat) (jobs : list (Locals * nat)) : M (list Locals) :=
  match jobs with
  | [] => ret []
  | (l, n) :: jobs' =>
    l' <~ run_cycles fuel (repeat clean n) l ;;
    ls <~ run_jobs fuel jobs' ;;
    ret (l' :: ls)
  end.

(** The four tasks of one call of vStartSemaphoreTasks, started in order of
    creation. *)
Definition four_started : list Locals * World :=
  match start_tasks (pvParameters <$> tasks w_started) w_started with
  | Ok ls w => (ls, w)
  | Fault _ _ => ([], boot [])
  end.

(** Every task of the list made a number of passes that is not a multiple
    of 2^16. *)
Definition all_moved (jobs : list (Locals * nat)) : bool :=
  forallb (fun j => negb (Z.of_nat (snd j) mod 65536 =? 0)) jobs.

(** A round in which the four tasks make 3, 1, 2 and 5 passes. *)
Definition four_jobs : list (Locals * nat) :=
  zip (fst four_started) [3%nat; 1%nat; 2%nat; 5%nat].

(** Times the task gave up the rest of its quantum in a stretch of trace. *)
Fixpoint yields (t : list Event) : nat :=
  match t with
  | [] => 0%nat
  | EvYield :: t' => S (yields t')
  | _ :: t' => yields t'
  end.

(** A boot state over memory that still holds old contents. *)
Definition boot_used (outcomes : list bool) : World :=
  mkWorld [0; 0; 0; 0] 0 [0; 0; 0; 0] ∅ ∅ ∅ 1 outcomes [] []
          (fun _ => mkParams 0xdead 0xbeef 0xcafe) (fun _ => 0xa5).

(* ===================================================================== *)
(** * led.c and main.c: the blinking LED and the boot sequence *)
(* ===================================================================== *)

Module Led.

(** What led.c and main.c take from the ST peripheral library and from the
    FreeRTOS configuration, none of it among the sources: the board is a
    parameter. *)
Record Board : Type := mkBoard {
  GPIOC : Z;
  GPIO_Pin_13 : Z;
  RCC_APB2Periph_GPIOC : Z;
  GPIO_Mode_Out_PP : Z;
  GPIO_Speed_2MHz : Z;
  ENABLE : Z;
  configMINIMAL_STACK_SIZE : Z;
  configMAX_PRIORITIES : Z;
  M2T : Z -> Z
}.

(** led.h. *)
Definition LED_NUM : Z := 1.
Definition LED_GREEN : Z := 0.
Definition INTERVAL : Z := 100.
Definition LED_GPIO_PERIF (b : Board) : Z := RCC_APB2Periph_GPIOC b.
Definition LED_GPIO_GREEN_PORT (b : Board) : Z := GPIOC b.
Definition LED_GPIO_GREEN (b : Board) : Z := GPIO_Pin_13 b.

(** The register writes and library calls the two files make. *)
Inductive Call : Type :=
| WriteBSRR (port v : Z)
| WriteBRR (port v : Z)
| RCC_APB2PeriphClockCmd (periph state : Z)
| GPIO_Init (port pin mode speed : Z)
| xTaskCreate (name : string) (depth prio : Z)
| vTaskDelay (ticks : Z)
| vTaskStartScheduler.

(** [isInit] of led.c (static), [isInit] of main.c, and the calls made so
    far, oldest first. *)
Record State : Type := mkState {
  led_isInit : bool;
  system_isInit : bool;
  calls : list Call
}.

Definition reset : State := mkState false false [].

Definition call (c : Call) (st : State) : State :=
  mkState (led_isInit st) (system_isInit st) (calls st ++ [c]).

(** A [uint16_t] parameter or field. *)
Definition u16 (z : Z) : Z := z mod 65536.

Definition ledPorts (b : Board) : list Z := [LED_GPIO_GREEN_PORT b].
Definition ledPins (b : Board) : list Z := [LED_GPIO_GREEN b].

(** [a[i]]; [None] outside the array. *)
Definition at_index (a : list Z) (i : Z) : option Z :=
  if 0 <=? i then a !! Z.to_nat i else None.

(** [GPIOx->BSRR = GPIO_Pin], the parameter checks being assert_param. *)
Definition GPIO_SetBits (GPIOx GPIO_Pin : Z) (st : State) : State :=
  call (WriteBSRR GPIOx (u16 GPIO_Pin)) st.

(** [GPIOx->BRR = GPIO_Pin]. *)
Definition GPIO_ResetBits (GPIOx GPIO_Pin : Z) (st : State) : State :=
  call (WriteBRR GPIOx (u16 GPIO_Pin)) st.

(** [(int)x]: an [int] is 32 bits wide, in two's complement. *)
Definition to_int (z : Z) : Z := (z + 2147483648) mod 4294967296 - 2147483648.

(** The guard compares [(int)led]; the arrays are indexed with [led]
    itself. *)
Definition ledSet (b : Board) (led : Z) (value : bool) (st : State) : option State :=
  if LED_NUM <=? to_int led then Some st
  else
    match at_index (ledPorts b) led, at_index (ledPins b) led with
    | Some port, Some pin =>
      Some (if value then GPIO_ResetBits port pin st else GPIO_SetBits port pin st)
    | _, _ => None
    end.

(** The [for] loop of ledInit, from [i] on. *)
Fixpoint ledInit_loop (b : Board) (ixs : list Z) (st : State) : option State :=
  match ixs with
  | [] => Some st
  | i :: ixs' =>
    match at_index (ledPins b) i, at_index (ledPorts b) i with
    | Some pin, Some port =>
      ledInit_loop b ixs'
        (call (GPIO_Init port (u16 pin) (GPIO_Mode_Out_PP b) (GPIO_Speed_2MHz b)) st)
    | _, _ => None
    end
  end.

Definition ledInit (b : Board) (st : State) : option State :=
  if led_isInit st then Some st
  else
    let st1 := call (RCC_APB2PeriphClockCmd (LED_GPIO_PERIF b) (ENABLE b)) st in
    match ledInit_loop b (seqZ 0 LED_NUM) st1 with
    | Some st2 =>
      match ledSet b LED_GREEN false st2 with
      | Some st3 =>
        let st4 := call (xTaskCreate "ledBlink" (configMINIMAL_STACK_SIZE b) 1) st3 in
        Some (mkState true (system_isInit st4) (calls st4))
      | None => None
      end
    | None => None
    end.

Definition ledTest (st : State) : bool := led_isInit st.

(** One turn of the [while(1)] of a blinking task: on, wait, off, wait. *)
Definition blink (b : Board) (ms : Z) (st : State) : option State :=
  match ledSet b LED_GREEN true st with
  | Some st1 =>
    ledSet b LED_GREEN false (call (vTaskDelay (M2T b ms)) st1)
    ≫= fun st2 => Some (call (vTaskDelay (M2T b ms)) st2)
  | None => None
  end.

Fixpoint blinks (b : Board) (ms : Z) (n : nat) (st : State) : option State :=
  match n with
  | O => Some st
  | S n' => blink b ms st ≫= blinks b ms n'
  end.

(** ledTask, followed for [n] turns of its endless loop. *)
Definition ledTask (b : Board) (n : nat) (st : State) : option State :=
  blinks b INTERVAL n st.

(** main.c. *)
Definition systemInit (b : Board) (st : State) : option State :=
  if system_isInit st then Some st
  else ledInit b st ≫= fun st1 => Some (mkState (led_isInit st1) true (calls st1)).

(** systemTask, followed for [n] turns of its first endless loop. *)
Definition systemTask (b : Board) (n : nat) (st : State) : option State :=
  systemInit b st ≫= blinks b 20 n.

Definition systemLaunch (b : Board) (st : State) : State :=
  call (xTaskCreate "SYSTEM" (Z.shiftl (configMINIMAL_STACK_SIZE b) 1)
                    (configMAX_PRIORITIES b - 1)) st.

Definition main (b : Board) (st : State) : State :=
  call vTaskStartScheduler (systemLaunch b st).

(** The initialisation entry points, for sequences of calls. *)
Inductive InitCall : Type := CallLedInit | CallSystemInit.

Definition run_init (b : Board) (c : InitCall) (st : State) : option State :=
  match c with
  | CallLedInit => ledInit b st
  | CallSystemInit => systemInit b st
  end.

Fixpoint run_inits (b : Board) (cs : list InitCall) (st : State) : option State :=
  match cs with
  | [] => Some st
  | c :: cs' => run_init b c st ≫= run_inits b cs'
  end.

(** What ledInit does the one time it runs, and the calls of one blink. *)
Definition init_calls (b : Board) : list Call :=
  [RCC_APB2PeriphClockCmd (RCC_APB2Periph_GPIOC b) (ENABLE b);
   GPIO_Init (GPIOC b) (u16 (GPIO_Pin_13 b)) (GPIO_Mode_Out_PP b) (GPIO_Speed_2MHz b);
   WriteBSRR (GPIOC b) (u16 (GPIO_Pin_13 b));
   xTaskCreate "ledBlink" (configMINIMAL_STACK_SIZE b) 1].

Definition blink_calls (b : Board) (ms : Z) : list Call :=
  [WriteBRR (GPIOC b) (u16 (GPIO_Pin_13 b)); vTaskDelay (M2T b ms);
   WriteBSRR (GPIOC b) (u16 (GPIO_Pin_13 b)); vTaskDelay (M2T b ms)].

(** A register write, if the call is one, goes to pin 13 of port C. *)
Definition green_only (b : Board) (c : Call) : Prop :=
  match c with
  | WriteBSRR port v | WriteBRR port v => port = GPIOC b /\ v = u16 (GPIO_Pin_13 b)
  | _ => True
  end.

(** Creations of the blink task among the calls. *)
Fixpoint blink_tasks (cs : list Call) : nat :=
  match cs with
  | [] => 0%nat
  | xTaskCreate name _ _ :: cs' =>
    ((if String.eqb name "ledBlink" then 1 else 0) + blink_tasks cs')%nat
  | _ :: cs' => blink_tasks cs'
  end.

End Led.

(* ===================================================================== *)
(** ** The monad and the primitives *)
(* ===================================================================== *)

Lemma touch_touch sm1 cs1 e1 sm2 cs2 e2 w :
  touch sm2 cs2 e2 (touch sm1 cs1 e1 w) = touch sm2 cs2 (e1 ++ e2) w.
Proof. unfold touch; simpl. by rewrite app_assoc. Qed.

Lemma touch_id w : touch (sems w) (cells w) [] w = w.
Proof. destruct w; unfold touch; simpl. by rewrite app_nil_r. Qed.

Lemma bind_ok {A B} (m : M A) (k : A -> M B) w a w1 :
  m w = Ok a w1 -> bind m k w = k a w1.
Proof. unfold bind. by intros ->. Qed.

Lemma store_ulong_ok p v w :
  is_Some (cells w !! p) ->
  store_ulong p v w = Ok tt (touch (sems w) (<[p := v]> (cells w)) [EvStore p v] w).
Proof. intros [x Hx]. unfold store_ulong. by rewrite Hx. Qed.

Lemma load_ulong_ok p v w :
  cells w !! p = Some v ->
  load_ulong p w = Ok v (touch (sems w) (cells w) [EvLoad p v] w).
Proof. intros Hx. unfold load_ulong. by rewrite Hx. Qed.

Lemma load_params_ok p s w :
  params w !! p = Some s -> load_params p w = Ok s w.
Proof. intros Hx. unfold load_params. by rewrite Hx. Qed.

Lemma print_ok msg w :
  vPrintDisplayMessage msg w = Ok tt (touch (sems w) (cells w) [EvPrint msg] w).
Proof. reflexivity. Qed.

Lemma rival_step_ok env p k w :
  is_Some (cells w !! p) ->
  bind (store_ulong p k) (fun _ => rival_step env p k) w =
  Ok tt (touch (sems w) (<[p := reread env k]> (cells w)) [EvStore p k] w).
Proof.
  intros Hc. erewrite bind_ok by (by apply store_ulong_ok).
  unfold rival_step, reread. destruct (rival_write env k) as [v|]; simpl.
  - unfold modify, touch; simpl. by rewrite insert_insert_eq.
  - reflexivity.
Qed.

Lemma set_sError_same l : set_sError (l_sError l) l = l.
Proof. by destruct l. Qed.

Lemma count_loop_step env fuel c l w :
  c <= l_ulExpectedValue l ->
  is_Some (cells w !! l_pulSharedVariable l) ->
  count_loop (S fuel) env c l w =
  count_loop fuel env (wrap32 (c + 1))
    (set_sError (if reread env c =? c then l_sError l else pdTRUE) l)
    (touch (sems w) (<[l_pulSharedVariable l := reread env c]> (cells w))
           ([EvStore (l_pulSharedVariable l) c;
             EvLoad (l_pulSharedVariable l) (reread env c)] ++
            (if reread env c =? c then []
             else if l_sError l =? pdFALSE
                  then [EvPrint pcPollingSemaphoreTaskError] else []))
           w).
Proof.
  intros Hle Hcell. simpl count_loop.
  replace (c <=? l_ulExpectedValue l) with true by (symmetry; apply Z.leb_le; lia).
  set (p := l_pulSharedVariable l) in *.
  assert (Hw1 : bind (store_ulong p c) (fun _ => rival_step env p c) w =
                Ok tt (touch (sems w) (<[p := reread env c]> (cells w)) [EvStore p c] w))
    by (by apply rival_step_ok).
  unfold bind at 1 in Hw1. unfold bind at 1.
  destruct (store_ulong p c w) as [[] w0|f]; [|discriminate].
  unfold bind at 1. rewrite Hw1. clear Hw1.
  unfold bind at 1.
  rewrite (load_ulong_ok p (reread env c)) by (simpl; apply lookup_insert_eq).
  rewrite touch_touch. simpl sems. simpl cells.
  destruct (reread env c =? c) eqn:Hr; simpl negb; cbv iota.
  - unfold bind at 1, ret at 1. by rewrite set_sError_same.
  - unfold bind at 1. unfold bind at 1.
    destruct (l_sError l =? pdFALSE).
    + rewrite print_ok, touch_touch. reflexivity.
    + reflexivity.
Qed.

Lemma count_loop_run env (n : nat) :
  forall fuel c l w,
    (n < fuel)%nat ->
    0 <= c ->
    c + Z.of_nat n = l_ulExpectedValue l + 1 ->
    l_ulExpectedValue l < ULONG_MAX ->
    is_Some (cells w !! l_pulSharedVariable l) ->
    count_loop fuel env c l w =
    Ok (set_sError (loop_sError env (seqZ c (Z.of_nat n)) (l_sError l)) l)
       (touch (sems w)
              (loop_cells (l_pulSharedVariable l) env (seqZ c (Z.of_nat n)) (cells w))
              (loop_events (l_pulSharedVariable l) env (seqZ c (Z.of_nat n)) (l_sError l))
              w).
Proof.
  induction n as [|n IH]; intros fuel c l w Hf Hc HE Hmax Hcell.
  - destruct fuel as [|fuel]; [lia|]. simpl.
    replace (c <=? l_ulExpectedValue l) with false by (symmetry; apply Z.leb_gt; lia).
    unfold ret. by rewrite set_sError_same, touch_id.
  - destruct fuel as [|fuel]; [lia|].
    rewrite count_loop_step by (assumption || lia).
    assert (Hw : wrap32 (c + 1) = c + 1).
    { unfold wrap32, ULONG_MAX in *. apply Z.mod_small. lia. }
    rewrite Hw.
    rewrite (seqZ_cons c) by lia.
    replace (Z.pred (Z.of_nat (S n))) with (Z.of_nat n) by lia.
    replace (Z.succ c) with (c + 1) by lia.
    rewrite IH.
    + rewrite touch_touch. simpl. by destruct l.
    + lia.
    + lia.
    + simpl. lia.
    + simpl. lia.
    + simpl. by rewrite lookup_insert_eq.
Qed.

Lemma take_ok env sem t w :
  xSemaphoreTake env sem t w =
  Ok (take_result env)
     (touch (if take_result env =? pdPASS then <[sem := false]> (sems w) else sems w)
            (cells w) [EvTake sem t (take_result env)] w).
Proof. unfold xSemaphoreTake, bind, modify, ret. simpl. by destruct (_ =? _). Qed.

Lemma give_ok env sem w :
  xSemaphoreGive env sem w =
  Ok (give_result env)
     (touch (if give_result env =? pdFALSE then sems w else <[sem := true]> (sems w))
            (cells w) [EvGive sem (give_result env)] w).
Proof. unfold xSemaphoreGive, bind, modify, ret. simpl. by destruct (_ =? _). Qed.

Lemma delay_ok t w : vTaskDelay t w = Ok tt (touch (sems w) (cells w) [EvDelay t] w).
Proof. reflexivity. Qed.

Lemma yield_ok w : taskYIELD w = Ok tt (touch (sems w) (cells w) [EvYield] w).
Proof. reflexivity. Qed.

(** The two places that print and raise the flag outside the loop. *)
Lemma flag_if_ok (b : bool) l w :
  (if b then vPrintDisplayMessage pcPollingSemaphoreTaskError ;;; ret (set_sError pdTRUE l)
   else ret l) w =
  Ok (set_sError (if b then pdTRUE else l_sError l) l)
     (touch (sems w) (cells w)
            (if b then [EvPrint pcPollingSemaphoreTaskError] else []) w).
Proof.
  destruct b.
  - reflexivity.
  - unfold ret. by rewrite set_sError_same, touch_id.
Qed.

Lemma progress_signal_frame e i sm cs evs w :
  progress_signal e i (touch sm cs evs w) =
  match progress_signal e i w with
  | Ok a w' => Ok a (touch sm cs evs w')
  | Fault f w' => Fault f (touch sm cs evs w')
  end.
Proof.
  unfold progress_signal.
  destruct (e =? pdFALSE); [|reflexivity].
  destruct (i <? semtstNUM_TASKS); [|reflexivity].
  unfold incr_sCheckVariables, bind, read_short, modify. simpl.
  by destruct (if 0 <=? i then sCheckVariables w !! Z.to_nat i else None).
Qed.

Lemma set_sCheckVariables_same w : set_sCheckVariables (sCheckVariables w) w = w.
Proof. by destruct w. Qed.

Lemma progress_signal_inv e i w a w' :
  progress_signal e i w = Ok a w' ->
  w' = set_sCheckVariables (sCheckVariables w') w.
Proof.
  unfold progress_signal, incr_sCheckVariables, bind, read_short, modify, ret.
  destruct (e =? pdFALSE), (i <? semtstNUM_TASKS);
    try (intros [= <- <-]; by rewrite set_sCheckVariables_same).
  destruct (if 0 <=? i then sCheckVariables w !! Z.to_nat i else None); [|done].
  by intros [= <- <-].
Qed.

Lemma cycle_taken fuel env l w s v0 :
  params w !! l_pxParameters l = Some s ->
  cells w !! l_pulSharedVariable l = Some v0 ->
  0 <= l_ulExpectedValue l < ULONG_MAX ->
  (Z.to_nat (l_ulExpectedValue l) + 1 < fuel)%nat ->
  take_result env = pdPASS ->
  prvSemaphoreTest_cycle fuel env l w =
  match progress_signal (sError_after env l v0) (l_sCheckVariableToUse l) w with
  | Ok _ w' =>
    Ok (set_sError (sError_after env l v0) l)
       (touch (sems_after env s (sems w))
              (loop_cells (l_pulSharedVariable l) env (counts l) (cells w))
              (pass_events env s l v0) w')
  | Fault f w' =>
    Fault f
       (touch (sems_after env s (sems w))
              (loop_cells (l_pulSharedVariable l) env (counts l) (cells w))
              ([EvTake (xSemaphore s) (xBlockTime s) (take_result env);
                EvLoad (l_pulSharedVariable l) v0] ++
               (if v0 =? l_ulExpectedValue l then []
                else [EvPrint pcPollingSemaphoreTaskError]) ++
               loop_events (l_pulSharedVariable l) env (counts l) (sError_checked l v0) ++
               [EvGive (xSemaphore s) (give_result env)] ++
               (if give_result env =? pdFALSE
                then [EvPrint pcPollingSemaphoreTaskError] else [])) w')
  end.
Proof.
  intros Hp Hc HE Hfuel Htake.
  unfold prvSemaphoreTest_cycle.
  rewrite (bind_ok _ _ _ _ _ (load_params_ok _ _ _ Hp)).
  rewrite (bind_ok _ _ _ _ _ (take_ok _ _ _ _)).
  rewrite Htake. change (pdPASS =? pdPASS) with true. cbv iota.
  erewrite bind_ok by (apply load_ulong_ok; simpl; exact Hc).
  rewrite touch_touch.
  rewrite (bind_ok _ _ _ _ _ (flag_if_ok _ _ _)).
  rewrite touch_touch. simpl sems. simpl cells.
  erewrite bind_ok; cycle 1.
  { apply (count_loop_run env (Z.to_nat (l_ulExpectedValue l + 1)));
      simpl; try lia. eauto. }
  rewrite touch_touch. simpl sems. simpl cells. simpl l_pulSharedVariable.
  simpl l_ulExpectedValue. simpl l_sError.
  rewrite Z2Nat.id by lia. fold (counts l).
  erewrite bind_ok by (apply load_params_ok; simpl; exact Hp).
  rewrite (bind_ok _ _ _ _ _ (give_ok _ _ _)).
  rewrite touch_touch. simpl sems. simpl cells.
  rewrite (bind_ok _ _ _ _ _ (flag_if_ok _ _ _)).
  rewrite touch_touch. simpl sems. simpl cells. simpl l_sError. simpl l_sCheckVariableToUse.
  fold (progress_signal
          (if give_result env =? pdFALSE then pdTRUE
           else loop_sError env (counts l)
                  (if negb (v0 =? l_ulExpectedValue l) then pdTRUE else l_sError l))
          (l_sCheckVariableToUse l)).
  unfold bind at 1. rewrite progress_signal_frame.
  unfold sError_after, sems_after, pass_events, sError_checked. rewrite Htake.
  destruct (v0 =? l_ulExpectedValue l), (give_result env =? pdFALSE);
    simpl negb; cbv iota;
    (match goal with
     | |- context [progress_signal ?e ?i w] =>
       destruct (progress_signal e i w) as [[] w'|f w'] eqn:Hsig
     end;
     [|f_equal; unfold touch; simpl; f_equal; rewrite <- ?app_assoc; reflexivity]);
    apply progress_signal_inv in Hsig;
    set (arr := sCheckVariables w') in Hsig; clearbody arr; subst w';
    (erewrite bind_ok by (apply load_params_ok; simpl; exact Hp));
    rewrite (bind_ok _ _ _ _ _ (delay_ok _ _)), touch_touch;
    unfold ret; f_equal;
    unfold touch; simpl; f_equal;
    rewrite <- ?app_assoc; reflexivity.
Qed.

Lemma cycle_not_taken fuel env l w s :
  params w !! l_pxParameters l = Some s ->
  take_result env <> pdPASS ->
  prvSemaphoreTest_cycle fuel env l w =
  Ok l (touch (sems w) (cells w)
              (EvTake (xSemaphore s) (xBlockTime s) (take_result env) ::
               (if xBlockTime s =? 0 then [EvYield] else [])) w).
Proof.
  intros Hp Htake. unfold prvSemaphoreTest_cycle.
  rewrite (bind_ok _ _ _ _ _ (load_params_ok _ _ _ Hp)).
  rewrite (bind_ok _ _ _ _ _ (take_ok _ _ _ _)).
  apply Z.eqb_neq in Htake. rewrite Htake.
  erewrite bind_ok by (apply load_params_ok; simpl; exact Hp).
  destruct (xBlockTime s =? 0).
  - rewrite (bind_ok _ _ _ _ _ (yield_ok _)), touch_touch. reflexivity.
  - reflexivity.
Qed.

(* ===================================================================== *)
(** ** Facts about the closed forms *)
(* ===================================================================== *)

Lemma emissions_app t1 t2 : emissions (t1 ++ t2) = (emissions t1 + emissions t2)%nat.
Proof.
  induction t1 as [|e t1 IH]; [reflexivity|].
  destruct e; simpl; rewrite IH; reflexivity.
Qed.

Lemma loop_sError_closed env ks e :
  loop_sError env ks e =
  if existsb (fun k => negb (reread env k =? k)) ks then pdTRUE else e.
Proof.
  revert e. induction ks as [|k ks IH]; intros e; simpl; [reflexivity|].
  rewrite IH. destruct (reread env k =? k); simpl; [reflexivity|].
  by destruct (existsb _ ks).
Qed.

Lemma loop_events_emissions p env ks e :
  emissions (loop_events p env ks e) =
  if (e =? pdFALSE) && existsb (fun k => negb (reread env k =? k)) ks
  then 1%nat else 0%nat.
Proof.
  revert e. induction ks as [|k ks IH]; intros e; simpl.
  - by rewrite andb_false_r.
  - rewrite emissions_app, IH.
    destruct (reread env k =? k); simpl; [reflexivity|].
    destruct (e =? pdFALSE); reflexivity.
Qed.

Lemma loop_events_quiet p env ks e :
  (forall k, k ∈ ks -> rival_write env k = None) ->
  loop_events p env ks e = flat_map (fun k => [EvStore p k; EvLoad p k]) ks.
Proof.
  revert e. induction ks as [|k ks IH]; intros e Hq; simpl; [reflexivity|].
  assert (Hk : reread env k = k).
  { unfold reread. rewrite Hq by set_solver. reflexivity. }
  rewrite Hk, Z.eqb_refl. simpl. f_equal. f_equal.
  apply IH. intros k' Hk'. apply Hq. set_solver.
Qed.

Lemma existsb_quiet env ks :
  (forall k, k ∈ ks -> rival_write env k = None) ->
  existsb (fun k => negb (reread env k =? k)) ks = false.
Proof.
  induction ks as [|k ks IH]; intros Hq; simpl; [reflexivity|].
  unfold reread at 1. rewrite Hq by set_solver. simpl.
  rewrite Z.eqb_refl. simpl. apply IH. intros k' Hk'. apply Hq. set_solver.
Qed.

Lemma loop_cells_snoc p env ks k cs :
  loop_cells p env (ks ++ [k]) cs = <[p := reread env k]> (loop_cells p env ks cs).
Proof.
  revert cs. induction ks as [|k' ks IH]; intros cs; simpl; [reflexivity|].
  apply IH.
Qed.

Lemma loop_cells_some p env ks cs :
  is_Some (cs !! p) -> is_Some (loop_cells p env ks cs !! p).
Proof.
  revert cs. induction ks as [|k ks IH]; intros cs Hs; simpl; [exact Hs|].
  apply IH. rewrite lookup_insert_eq. eauto.
Qed.

Lemma counts_snoc l :
  0 <= l_ulExpectedValue l ->
  counts l = seqZ 0 (l_ulExpectedValue l) ++ [l_ulExpectedValue l].
Proof.
  intros HE. unfold counts.
  rewrite seqZ_app by lia. f_equal.
Qed.

Lemma counts_elem l k : k ∈ counts l <-> 0 <= k <= l_ulExpectedValue l.
Proof. unfold counts. rewrite elem_of_seqZ. lia. Qed.

(** After the loop the cell holds what the last re-read returned. *)
Lemma loop_cells_final env l cs :
  0 <= l_ulExpectedValue l ->
  loop_cells (l_pulSharedVariable l) env (counts l) cs !! l_pulSharedVariable l =
  Some (reread env (l_ulExpectedValue l)).
Proof.
  intros HE. rewrite counts_snoc by done.
  rewrite loop_cells_snoc. apply lookup_insert_eq.
Qed.

Lemma wrap16_small v : -32768 <= v < 32767 -> wrap16 (v + 1) = v + 1.
Proof. intros Hv. unfold wrap16. rewrite Z.mod_small by lia. lia. Qed.

Lemma wrap16_top : wrap16 (32767 + 1) = -32768.
Proof. reflexivity. Qed.

Lemma wrap16_add v n : wrap16 (wrap16 v + n) = wrap16 (v + n).
Proof.
  unfold wrap16.
  replace ((v + 32768) mod 65536 - 32768 + n + 32768)
    with ((v + 32768) mod 65536 + n) by lia.
  rewrite Zplus_mod_idemp_l. f_equal. f_equal. lia.
Qed.

Lemma wrap16_idem v : wrap16 (wrap16 v) = wrap16 v.
Proof.
  pose proof (wrap16_add v 0) as H. by rewrite !Z.add_0_r in H.
Qed.

(* ===================================================================== *)
(** ** One pass, for a task that is ready *)
(* ===================================================================== *)

Lemma sError_after_clear env l v0 :
  (sError_after env l v0 =? pdFALSE) =
  (l_sError l =? pdFALSE) && negb (fault_in_cycle env l v0).
Proof.
  unfold sError_after, fault_in_cycle, release_rejected, reverify_mismatch,
    pre_mismatch, sError_checked.
  rewrite loop_sError_closed.
  destruct (give_result env =? pdFALSE); simpl.
  - by rewrite !orb_true_r, andb_false_r.
  - rewrite orb_false_r.
    destruct (existsb _ (counts l)); simpl.
    + by rewrite orb_true_r, andb_false_r.
    + rewrite orb_false_r.
      destruct (v0 =? l_ulExpectedValue l); simpl.
      * by rewrite andb_true_r.
      * by rewrite andb_false_r.
Qed.

Lemma progress_signal_ok e i w :
  0 <= i ->
  length (sCheckVariables w) = 4%nat ->
  progress_signal e i w =
  Ok tt (if (e =? pdFALSE) && (i <? semtstNUM_TASKS)
         then set_sCheckVariables (bumped i (sCheckVariables w)) w
         else w).
Proof.
  intros Hi Hlen. unfold progress_signal.
  destruct (e =? pdFALSE); simpl; [|reflexivity].
  destruct (i <? semtstNUM_TASKS) eqn:Hlt; [|reflexivity].
  apply Z.ltb_lt in Hlt. unfold semtstNUM_TASKS in Hlt.
  unfold incr_sCheckVariables, bind, read_short, modify, bumped.
  replace (0 <=? i) with true by (symmetry; apply Z.leb_le; lia).
  destruct (lookup_lt_is_Some_2 (sCheckVariables w) (Z.to_nat i)) as [v Hv]; [lia|].
  by rewrite Hv.
Qed.

(** A task whose index is semtstNUM_TASKS or more never reaches the array. *)
Lemma progress_signal_high e i w :
  semtstNUM_TASKS <= i -> progress_signal e i w = Ok tt w.
Proof.
  intros Hi. unfold progress_signal.
  replace (i <? semtstNUM_TASKS) with false by (symmetry; apply Z.ltb_ge; lia).
  by destruct (e =? pdFALSE).
Qed.

Lemma cycle_pass fuel env l w :
  ready fuel l w ->
  take_result env = pdPASS ->
  exists s v0,
    params w !! l_pxParameters l = Some s /\
    cells w !! l_pulSharedVariable l = Some v0 /\
    prvSemaphoreTest_cycle fuel env l w =
    Ok (set_sError (sError_after env l v0) l)
       (touch (sems_after env s (sems w))
              (loop_cells (l_pulSharedVariable l) env (counts l) (cells w))
              (pass_events env s l v0)
              (if advances env l v0
               then set_sCheckVariables
                      (bumped (l_sCheckVariableToUse l) (sCheckVariables w)) w
               else w)).
Proof.
  intros ([s Hs] & [v0 Hv0] & HE & Hfuel & Hidx & Hlen) Htake.
  exists s, v0. split; [done|]. split; [done|].
  rewrite (cycle_taken fuel env l w s v0) by done.
  rewrite progress_signal_ok by done.
  unfold advances. rewrite Htake, sError_after_clear.
  change (pdPASS =? pdPASS) with true. simpl andb. reflexivity.
Qed.

Lemma cycle_skip fuel env l w :
  ready fuel l w ->
  take_result env <> pdPASS ->
  exists s,
    params w !! l_pxParameters l = Some s /\
    prvSemaphoreTest_cycle fuel env l w =
    Ok l (touch (sems w) (cells w)
                (EvTake (xSemaphore s) (xBlockTime s) (take_result env) ::
                 (if xBlockTime s =? 0 then [EvYield] else [])) w).
Proof.
  intros ([s Hs] & _) Htake. exists s. split; [done|].
  by apply cycle_not_taken.
Qed.

Lemma length_bumped i arr : length (bumped i arr) = length arr.
Proof. unfold bumped. destruct (arr !! Z.to_nat i); [apply length_insert|done]. Qed.

(** A pass leaves the task ready for the next one. *)
Lemma cycle_ready fuel env l w :
  ready fuel l w ->
  exists l' w',
    prvSemaphoreTest_cycle fuel env l w = Ok l' w' /\ ready fuel l' w'.
Proof.
  intros Hr. destruct (Z.eq_dec (take_result env) pdPASS) as [Ht|Ht].
  - destruct (cycle_pass fuel env l w Hr Ht) as (s & v0 & Hs & Hv0 & ->).
    destruct Hr as (_ & Hc & HE & Hfuel & Hidx & Hlen).
    eexists _, _. split; [reflexivity|].
    unfold ready; simpl.
    split; [destruct (advances env l v0); simpl; eauto|].
    split; [by apply loop_cells_some|].
    split; [done|]. split; [done|]. split; [done|].
    destruct (advances env l v0); simpl; [by rewrite length_bumped|done].
  - destruct (cycle_skip fuel env l w Hr Ht) as (s & Hs & ->).
    eexists _, _. split; [reflexivity|]. exact Hr.
Qed.

(* ===================================================================== *)
(** ** xAreSemaphoreTasksStillRunning *)
(* ===================================================================== *)

Lemma four_elements (a : list Z) :
  length a = 4%nat -> exists a0 a1 a2 a3, a = [a0; a1; a2; a3].
Proof.
  destruct a as [|a0 [|a1 [|a2 [|a3 [|]]]]]; try discriminate. eauto.
Qed.

(** The call in closed form: the verdict is the conjunction of the four
    comparisons and the snapshot becomes the live array. *)
Lemma still_running_closed w :
  length (sCheckVariables w) = 4%nat ->
  length (sLastCheckVariables w) = 4%nat ->
  xAreSemaphoreTasksStillRunning w =
  Ok (if all_changed w then pdTRUE else pdFALSE)
     (set_sLastCheckVariables (sCheckVariables w) w).
Proof.
  intros Hlive Hlast.
  destruct (four_elements _ Hlive) as (a0 & a1 & a2 & a3 & Ha).
  destruct (four_elements _ Hlast) as (b0 & b1 & b2 & b3 & Hb).
  destruct w as [live nxt last pr cs sm bk orc tk tr sp sc]. simpl in *. subst.
  unfold xAreSemaphoreTasksStillRunning, set_sLastCheckVariables, all_changed. simpl.
  unfold still_running_body, bind, read_short, modify, ret. simpl.
  repeat match goal with
         | |- context [bool_decide (Some ?x = Some ?y)] =>
           destruct (Z.eqb_spec x y);
           [rewrite (bool_decide_eq_true_2 (Some x = Some y)) by congruence
           |rewrite (bool_decide_eq_false_2 (Some x = Some y)) by congruence]
         end; reflexivity.
Qed.

Lemma all_changed_true w :
  all_changed w = true <->
  forall i, 0 <= i < semtstNUM_TASKS ->
    sCheckVariables w !! Z.to_nat i <> sLastCheckVariables w !! Z.to_nat i.
Proof.
  unfold all_changed. rewrite forallb_forall. split.
  - intros Hall i Hi. specialize (Hall i).
    rewrite <- list_elem_of_In, elem_of_seqZ in Hall.
    specialize (Hall ltac:(lia)).
    apply negb_true_iff, bool_decide_eq_false in Hall. congruence.
  - intros Hne i Hi. rewrite <- list_elem_of_In, elem_of_seqZ in Hi.
    apply negb_true_iff, bool_decide_eq_false.
    intros Heq. apply (Hne i); [lia|]. congruence.
Qed.

(** C3.  xAreSemaphoreTasksStillRunning returns pdTRUE if and only if every
    one of the four live check variables differs from its snapshot of the
    previous call, and returns pdFALSE otherwise.  In both cases the
    snapshot it leaves is the live array as it was found, element for
    element, and nothing else is changed: not the live array, not the heap,
    the task list or the trace. *)
Theorem still_running_iff_all_changed (w : World) :
  length (sCheckVariables w) = 4%nat ->
  length (sLastCheckVariables w) = 4%nat ->
  exists r w',
    xAreSemaphoreTasksStillRunning w = Ok r w' /\
    (r = pdTRUE \/ r = pdFALSE) /\
    (r = pdTRUE <->
     forall i, 0 <= i < semtstNUM_TASKS ->
       sCheckVariables w !! Z.to_nat i <> sLastCheckVariables w !! Z.to_nat i) /\
    sLastCheckVariables w' = sCheckVariables w /\
    sCheckVariables w' = sCheckVariables w /\
    sNextCheckVariable w' = sNextCheckVariable w /\
    params w' = params w /\ cells w' = cells w /\ sems w' = sems w /\
    brk w' = brk w /\ oracle w' = oracle w /\
    tasks w' = tasks w /\ trace w' = trace w.
Proof.
  intros Hlive Hlast. rewrite still_running_closed by done.
  eexists _, _. split; [reflexivity|].
  rewrite <- all_changed_true.
  split; [destruct (all_changed w); [by left|by right]|].
  split; [destruct (all_changed w); [done|split; discriminate]|].
  split; [reflexivity|]. split; [reflexivity|].
  split; [reflexivity|]. split; [reflexivity|].
  split; [reflexivity|]. split; [reflexivity|].
  split; [reflexivity|]. split; [reflexivity|]. split; reflexivity.
Qed.

(** C4, as the code has it.  When some task's check variable is the same at
    two consecutive calls, the second call returns pdFALSE whatever the other
    tasks did in between; the function has one result for all four tasks. *)
Theorem stalled_task_fails_whole_check (w : World) (live' : list Z) (i : Z) :
  length (sCheckVariables w) = 4%nat ->
  length (sLastCheckVariables w) = 4%nat ->
  length live' = 4%nat ->
  0 <= i < semtstNUM_TASKS ->
  live' !! Z.to_nat i = sCheckVariables w !! Z.to_nat i ->
  exists r1 w1 w2,
    xAreSemaphoreTasksStillRunning w = Ok r1 w1 /\
    xAreSemaphoreTasksStillRunning (set_sCheckVariables live' w1) = Ok pdFALSE w2 /\
    sLastCheckVariables w2 = live'.
Proof.
  intros Hlive Hlast Hlen Hi Hsame.
  rewrite still_running_closed by done.
  eexists _, _, _. split; [reflexivity|].
  rewrite still_running_closed by done.
  fold (all_changed (set_sCheckVariables live'
                       (set_sLastCheckVariables (sCheckVariables w) w))).
  destruct (all_changed _) eqn:Hall.
  - exfalso. rewrite all_changed_true in Hall.
    apply (Hall i Hi). simpl. exact Hsame.
  - split; reflexivity.
Qed.

(** The check at a state in which every task has moved since the last
    snapshot: the verdict is pdTRUE and the snapshot, all zeros before,
    becomes the live array. *)
Lemma still_running_iff_all_changed_witness :
  sLastCheckVariables (set_sCheckVariables [3; 5; 2; 2] (boot [])) = [0; 0; 0; 0] /\
  exists r w',
    xAreSemaphoreTasksStillRunning (set_sCheckVariables [3; 5; 2; 2] (boot [])) = Ok r w' /\
    r = pdTRUE /\
    sLastCheckVariables w' = [3; 5; 2; 2] /\
    sCheckVariables w' = [3; 5; 2; 2].
Proof.
  split; [reflexivity|].
  destruct (still_running_iff_all_changed (set_sCheckVariables [3; 5; 2; 2] (boot []))
              eq_refl eq_refl)
    as (r & w' & Hrun & _ & Hiff & Hsnap & Hlive & _).
  exists r, w'. split; [exact Hrun|].
  split; [|split; [exact Hsnap|exact Hlive]].
  apply Hiff. intros i Hi. unfold semtstNUM_TASKS in Hi.
  assert (Hcases : i = 0 \/ i = 1 \/ i = 2 \/ i = 3) by lia.
  destruct Hcases as [-> | [-> | [-> | ->]]]; discriminate.
Defined.

Lemma stalled_task_fails_whole_check_witness :
  exists r1 w1 w2,
    xAreSemaphoreTasksStillRunning (set_sCheckVariables [3; 5; 2; 2] (boot [])) = Ok r1 w1 /\
    xAreSemaphoreTasksStillRunning (set_sCheckVariables [3; 6; 3; 3] w1) = Ok pdFALSE w2 /\
    sLastCheckVariables w2 = [3; 6; 3; 3].
Proof.
  apply (stalled_task_fails_whole_check
           (set_sCheckVariables [3; 5; 2; 2] (boot [])) [3; 6; 3; 3] 0);
    try reflexivity. unfold semtstNUM_TASKS. lia.
Defined.

(** C4 as the specification words it fails: task 0 stalls between two
    consecutive calls while tasks 2 and 3, the other pair, both advance; the
    second call has a single result, pdFALSE, so the pair that advanced is
    not reported as running. *)
Lemma unaffected_group_not_reported_true :
  exists r1 w1 r2 w2,
    xAreSemaphoreTasksStillRunning (set_sCheckVariables [3; 5; 2; 2] (boot [])) = Ok r1 w1 /\
    sCheckVariables (set_sCheckVariables [3; 6; 3; 3] w1) !! 2%nat <>
      sLastCheckVariables (set_sCheckVariables [3; 6; 3; 3] w1) !! 2%nat /\
    sCheckVariables (set_sCheckVariables [3; 6; 3; 3] w1) !! 3%nat <>
      sLastCheckVariables (set_sCheckVariables [3; 6; 3; 3] w1) !! 3%nat /\
    xAreSemaphoreTasksStillRunning (set_sCheckVariables [3; 6; 3; 3] w1) = Ok r2 w2 /\
    r2 = pdFALSE /\ r2 <> pdTRUE.
Proof.
  eexists _, _, _, _. split; [vm_compute; reflexivity|].
  split; [vm_compute; discriminate|]. split; [vm_compute; discriminate|].
  split; [vm_compute; reflexivity|]. split; [reflexivity|discriminate].
Qed.

(* ===================================================================== *)
(** ** The index allocator *)
(* ===================================================================== *)

Lemma start_ok pv w s :
  params w !! pv = Some s ->
  prvSemaphoreTest_start pv w =
  Ok (mkLocals pv (pulSharedVariable s)
               (if xBlockTime s >? 0 then semtstBLOCKING_EXPECTED_VALUE
                else semtstNON_BLOCKING_EXPECTED_VALUE)
               pdFALSE (sNextCheckVariable w))
     (emit (EvPrint pcSemaphoreTaskStart)
           (set_sNextCheckVariable (wrap16 (sNextCheckVariable w + 1)) w)).
Proof.
  intros Hs. unfold prvSemaphoreTest_start, next_check_variable, bind, gets,
    modify, ret, vPrintDisplayMessage, load_params. simpl. by rewrite Hs.
Qed.

Lemma start_tasks_indices (pvs : list Z) :
  forall w c,
    (pvs <> [] -> sNextCheckVariable w = c) ->
    0 <= c ->
    c + Z.of_nat (length pvs) <= 32768 ->
    (forall pv, pv ∈ pvs -> is_Some (params w !! pv)) ->
    exists ls w',
      start_tasks pvs w = Ok ls w' /\
      l_sCheckVariableToUse <$> ls = seqZ c (Z.of_nat (length pvs)).
Proof.
  induction pvs as [|pv pvs IH]; intros w c Hc H0 Hlen Hp.
  - eexists [], w. split; reflexivity.
  - destruct (Hp pv ltac:(set_solver)) as [s Hs].
    simpl start_tasks. rewrite (bind_ok _ _ _ _ _ (start_ok _ _ _ Hs)).
    simpl length in *.
    destruct (IH (emit (EvPrint pcSemaphoreTaskStart)
                    (set_sNextCheckVariable (wrap16 (sNextCheckVariable w + 1)) w))
                 (c + 1)) as (ls & w' & Hrun & Hidx).
    + intros Hne. simpl. rewrite Hc by done.
      destruct pvs; [done|]. simpl length in Hlen.
      apply wrap16_small. lia.
    + lia.
    + lia.
    + intros pv' Hpv'. simpl. apply Hp. set_solver.
    + exists (mkLocals pv (pulSharedVariable s)
               (if xBlockTime s >? 0 then semtstBLOCKING_EXPECTED_VALUE
                else semtstNON_BLOCKING_EXPECTED_VALUE)
               pdFALSE (sNextCheckVariable w) :: ls), w'.
      rewrite (bind_ok _ _ _ _ _ Hrun). split; [reflexivity|].
      rewrite fmap_cons, Hidx. simpl l_sCheckVariableToUse.
      rewrite Hc by done.
      rewrite (seqZ_cons c) by lia. f_equal. f_equal; lia.
Qed.

(** C8, as the code has it.  Up to 32768 tasks that reach the critical
    section one after the other, from sNextCheckVariable = 0, get the indices
    0, 1, ..., N-1 in that order, all different; 32768 is the number of
    non-negative values of the 16-bit [short] that holds the next index. *)
Theorem index_allocator_distinct (pvs : list Z) (w : World) :
  sNextCheckVariable w = 0 ->
  Z.of_nat (length pvs) <= 32768 ->
  Forall (fun pv => is_Some (params w !! pv)) pvs ->
  exists ls w',
    start_tasks pvs w = Ok ls w' /\
    length ls = length pvs /\
    l_sCheckVariableToUse <$> ls = seqZ 0 (Z.of_nat (length pvs)) /\
    NoDup (l_sCheckVariableToUse <$> ls).
Proof.
  intros Hnext Hlen Hp. rewrite Forall_forall in Hp.
  destruct (start_tasks_indices pvs w 0) as (ls & w' & Hrun & Hidx); try done; try lia.
  exists ls, w'. split; [done|].
  split.
  - apply (f_equal length) in Hidx.
    rewrite length_fmap, length_seqZ in Hidx. lia.
  - split; [done|]. rewrite Hidx. apply NoDup_seqZ.
Qed.

Lemma index_allocator_distinct_witness :
  exists ls w',
    start_tasks [1; 1; 4; 4] w_started = Ok ls w' /\
    length ls = 4%nat /\
    l_sCheckVariableToUse <$> ls = seqZ 0 4 /\
    NoDup (l_sCheckVariableToUse <$> ls).
Proof.
  apply (index_allocator_distinct [1; 1; 4; 4] w_started).
  - reflexivity.
  - simpl. lia.
  - repeat constructor; vm_compute; eauto.
Defined.

(** Without a bound on their number, the tasks get the successive values
    of a 16-bit counter. *)
Lemma start_tasks_wrapped (pvs : list Z) :
  forall w,
    wrap16 (sNextCheckVariable w) = sNextCheckVariable w ->
    Forall (fun pv => is_Some (params w !! pv)) pvs ->
    exists ls w',
      start_tasks pvs w = Ok ls w' /\
      l_sCheckVariableToUse <$> ls =
        (fun k => wrap16 (sNextCheckVariable w + k)) <$> seqZ 0 (Z.of_nat (length pvs)).
Proof.
  induction pvs as [|pv pvs IH]; intros w Hshort Hp.
  - eexists [], w. split; reflexivity.
  - apply Forall_cons in Hp as [[s Hs] Hp].
    simpl start_tasks. rewrite (bind_ok _ _ _ _ _ (start_ok _ _ _ Hs)).
    destruct (IH (emit (EvPrint pcSemaphoreTaskStart)
                    (set_sNextCheckVariable (wrap16 (sNextCheckVariable w + 1)) w)))
      as (ls & w' & Hrun & Hidx).
    + apply wrap16_idem.
    + exact Hp.
    + rewrite (bind_ok _ _ _ _ _ Hrun). eexists _, w'. split; [reflexivity|].
      rewrite fmap_cons, Hidx. cbn [l_sCheckVariableToUse length sNextCheckVariable
                                     emit set_sNextCheckVariable].
      rewrite (seqZ_cons 0 (Z.of_nat (S (length pvs)))) by lia. rewrite fmap_cons.
      rewrite Z.add_0_r. f_equal; [by symmetry|].
      replace (Z.pred (Z.of_nat (S (length pvs)))) with (Z.of_nat (length pvs)) by lia.
      change (Z.succ 0) with (1 + 0).
      rewrite <- (fmap_add_seqZ 1 0), <- list_fmap_compose.
      apply list_fmap_ext. intros i k _. simpl.
      rewrite wrap16_add. f_equal. lia.
Qed.

(** C8 as the specification words it fails.  65537 tasks are started on the
    parameter block of the polling pair: the 32769th gets the index -32768,
    which is not among 0 .. N-1, and the first and the last both get 0. *)
Lemma index_wraps_and_repeats :
  exists ls w',
    start_tasks (replicate (Z.to_nat 65537) 1) w_started = Ok ls w' /\
    (l_sCheckVariableToUse <$> ls) !! Z.to_nat 32768 = Some (-32768) /\
    (l_sCheckVariableToUse <$> ls) !! Z.to_nat 0 = Some 0 /\
    (l_sCheckVariableToUse <$> ls) !! Z.to_nat 65536 = Some 0.
Proof.
  remember (Z.to_nat 65537) as n eqn:Hn.
  assert (Hn' : Z.of_nat n = 65537) by (subst n; apply Z2Nat.id; lia).
  clear Hn.
  assert (Hnext : sNextCheckVariable w_started = 0) by (vm_compute; reflexivity).
  destruct (start_tasks_wrapped (replicate n 1) w_started) as (ls & w' & Hrun & Hidx).
  - rewrite Hnext. reflexivity.
  - apply Forall_replicate. vm_compute. eauto.
  - exists ls, w'. split; [exact Hrun|].
    rewrite Hidx, Hnext, length_replicate, Hn'.
    assert (Hat : forall i, 0 <= i < 65537 ->
               ((fun k => wrap16 (0 + k)) <$> seqZ 0 65537) !! Z.to_nat i
               = Some (wrap16 i)).
    { intros i Hi. rewrite list_lookup_fmap.
      rewrite lookup_seqZ_lt by lia. simpl. f_equal. f_equal. lia. }
    split; [rewrite Hat by lia; reflexivity|].
    split; rewrite Hat by lia; reflexivity.
Qed.

(* ===================================================================== *)
(** ** What a pass does to the counters, the flag and the sink *)
(* ===================================================================== *)

Lemma cycle_effect fuel env l w v0 :
  ready fuel l w ->
  cells w !! l_pulSharedVariable l = Some v0 ->
  exists l' w',
    prvSemaphoreTest_cycle fuel env l w = Ok l' w' /\
    ready fuel l' w' /\
    sCheckVariables w' =
      (if advances env l v0
       then bumped (l_sCheckVariableToUse l) (sCheckVariables w)
       else sCheckVariables w) /\
    l_sError l' =
      (if take_result env =? pdPASS then sError_after env l v0 else l_sError l) /\
    set_sError (l_sError l) l' = l /\
    cells w' !! l_pulSharedVariable l =
      (if take_result env =? pdPASS
       then Some (reread env (l_ulExpectedValue l)) else Some v0).
Proof.
  intros Hr Hv0.
  destruct (cycle_ready fuel env l w Hr) as (l' & w' & Hrun & Hr').
  exists l', w'. split; [done|]. split; [done|].
  destruct (Z.eq_dec (take_result env) pdPASS) as [Ht|Ht].
  - destruct (cycle_pass fuel env l w Hr Ht) as (s & v0' & Hs & Hv0' & Hrun').
    rewrite Hv0 in Hv0'. injection Hv0' as <-.
    rewrite Hrun in Hrun'. injection Hrun' as -> ->.
    rewrite Ht. change (pdPASS =? pdPASS) with true. cbv iota.
    split; [by destruct (advances env l v0)|].
    split; [reflexivity|]. split; [by destruct l|].
    simpl. apply loop_cells_final. destruct Hr as (_ & _ & HE & _). lia.
  - destruct (cycle_skip fuel env l w Hr Ht) as (s & Hs & Hrun').
    rewrite Hrun in Hrun'. injection Hrun' as -> ->.
    unfold advances. apply Z.eqb_neq in Ht. rewrite Ht. simpl.
    split; [reflexivity|]. split; [reflexivity|].
    split; [by rewrite set_sError_same|done].
Qed.

(** Nothing in the loop ever clears the flag. *)
Lemma sError_after_set env l v0 :
  l_sError l <> pdFALSE -> sError_after env l v0 <> pdFALSE.
Proof.
  intros Hset Hclr. apply Z.eqb_eq in Hclr.
  rewrite sError_after_clear in Hclr.
  apply andb_true_iff in Hclr as [Hc _]. apply Z.eqb_eq in Hc. done.
Qed.

Lemma advances_needs_clear env l v0 :
  l_sError l <> pdFALSE -> advances env l v0 = false.
Proof.
  intros Hset. unfold advances. apply Z.eqb_neq in Hset. rewrite Hset.
  by rewrite andb_false_r.
Qed.

(** Once the flag is set, no pass moves the counters, however many follow. *)
Lemma latched_run fuel (envs : list CycleEnv) :
  forall l w,
    ready fuel l w ->
    l_sError l <> pdFALSE ->
    exists l' w',
      run_cycles fuel envs l w = Ok l' w' /\
      sCheckVariables w' = sCheckVariables w /\
      l_sError l' <> pdFALSE.
Proof.
  induction envs as [|env envs IH]; intros l w Hr Hset.
  - exists l, w. split; [reflexivity|]. done.
  - destruct Hr as (Hp & [v0 Hv0] & Hrest).
    destruct (cycle_effect fuel env l w v0) as (l1 & w1 & Hrun & Hr1 & Hcnt & Herr & _);
      [by (split; [|split]; eauto)|done|].
    assert (Hset1 : l_sError l1 <> pdFALSE).
    { rewrite Herr. destruct (take_result env =? pdPASS); [|done].
      by apply sError_after_set. }
    destruct (IH l1 w1 Hr1 Hset1) as (l' & w' & Hrun' & Hcnt' & Herr').
    exists l', w'. unfold run_cycles in *. simpl.
    rewrite (bind_ok _ _ _ _ _ Hrun). split; [done|].
    split; [|done]. rewrite Hcnt', Hcnt.
    by rewrite advances_needs_clear.
Qed.

(** C1, as the code has it.  A fault suppresses the increment in the pass in
    which it occurs and in every later pass of the task: the flag is set and
    never cleared, so after a faulted pass the task's check variable stays
    where it was, whatever the later passes are like. *)
Theorem fault_suppresses_all_later_increments
        (fuel : nat) (env : CycleEnv) (envs : list CycleEnv)
        (l : Locals) (w : World) (v0 : Z) :
  ready fuel l w ->
  cells w !! l_pulSharedVariable l = Some v0 ->
  take_result env = pdPASS ->
  fault_in_cycle env l v0 = true ->
  exists l' w',
    run_cycles fuel (env :: envs) l w = Ok l' w' /\
    sCheckVariables w' = sCheckVariables w /\
    l_sError l' <> pdFALSE.
Proof.
  intros Hr Hv0 Ht Hfault.
  destruct (cycle_effect fuel env l w v0 Hr Hv0)
    as (l1 & w1 & Hrun & Hr1 & Hcnt & Herr & _).
  assert (Hset1 : l_sError l1 <> pdFALSE).
  { rewrite Herr, Ht. change (pdPASS =? pdPASS) with true. cbv iota.
    intros Hclr. apply Z.eqb_eq in Hclr.
    rewrite sError_after_clear, Hfault in Hclr.
    by rewrite andb_false_r in Hclr. }
  destruct (latched_run fuel envs l1 w1 Hr1 Hset1) as (l' & w' & Hrun' & Hcnt' & Herr').
  exists l', w'. unfold run_cycles in *. simpl.
  rewrite (bind_ok _ _ _ _ _ Hrun). split; [done|]. split; [|done].
  rewrite Hcnt', Hcnt. unfold advances. rewrite Hfault. simpl.
  by rewrite andb_false_r.
Qed.

Lemma pol_started_ready : ready 300 (fst pol_started) (snd pol_started).
Proof.
  unfold ready. split; [|split; [|split; [|split; [|split]]]].
  - vm_compute. eauto.
  - vm_compute. eauto.
  - vm_compute. split; [discriminate|reflexivity].
  - vm_compute. lia.
  - vm_compute. discriminate.
  - reflexivity.
Qed.

Lemma fault_suppresses_all_later_increments_witness :
  exists l' w',
    run_cycles 300 [glitch; clean] (fst pol_started) (snd pol_started) = Ok l' w' /\
    sCheckVariables w' = sCheckVariables (snd pol_started) /\
    l_sError l' <> pdFALSE.
Proof.
  apply (fault_suppresses_all_later_increments
           300 glitch [clean] (fst pol_started) (snd pol_started) 255).
  - apply pol_started_ready.
  - vm_compute. reflexivity.
  - reflexivity.
  - vm_compute. reflexivity.
Defined.

(** C1 as the specification words it fails.  PolSEM1 runs two passes: in the
    first a rival overwrites the cell once, in the second nothing goes
    wrong (the cell holds 0xFF when the semaphore is taken, every re-read
    matches, the release is accepted).  The second pass leaves the task's
    check variable at 0. *)
Lemma later_clean_pass_does_not_increment :
  exists l1 w1 l2 w2,
    prvSemaphoreTest_cycle 300 glitch (fst pol_started) (snd pol_started) = Ok l1 w1 /\
    cells w1 !! l_pulSharedVariable l1 = Some 255 /\
    take_result clean = pdPASS /\
    fault_in_cycle clean l1 255 = false /\
    prvSemaphoreTest_cycle 300 clean l1 w1 = Ok l2 w2 /\
    l_sCheckVariableToUse l1 = 0 /\
    sCheckVariables w1 = [0; 0; 0; 0] /\
    sCheckVariables w2 = [0; 0; 0; 0].
Proof.
  eexists _, _, _, _.
  split; [vm_compute; reflexivity|].
  split; [vm_compute; reflexivity|].
  split; [reflexivity|].
  split; [vm_compute; reflexivity|].
  split; [vm_compute; reflexivity|].
  split; [reflexivity|]. split; reflexivity.
Qed.

Lemma pass_events_emissions env s l v0 :
  emissions (pass_events env s l v0) = pass_messages env l v0.
Proof.
  unfold pass_events, pass_messages. rewrite !emissions_app, loop_events_emissions.
  unfold pre_mismatch, reverify_mismatch, release_rejected, sError_checked.
  destruct (v0 =? l_ulExpectedValue l), (give_result env =? pdFALSE),
    (l_sError l =? pdFALSE), (existsb _ (counts l)); reflexivity.
Qed.

(** C5, as the code has it.  A pass that takes the semaphore hands the sink
    one message for a pre-condition mismatch, one for the re-read mismatches
    together and only if the flag is still clear when the counting loop is
    entered, and one for a rejected release.  So the re-read mismatches of
    one pass never emit more than one message, a pass without fault emits
    none, and a faulted pass entered with the flag clear emits one or two. *)
Theorem sink_emissions_per_pass
        (fuel : nat) (env : CycleEnv) (l : Locals) (w : World) (v0 : Z) :
  ready fuel l w ->
  cells w !! l_pulSharedVariable l = Some v0 ->
  take_result env = pdPASS ->
  exists l' w',
    prvSemaphoreTest_cycle fuel env l w = Ok l' w' /\
    emissions (trace w') = (emissions (trace w) + pass_messages env l v0)%nat /\
    (fault_in_cycle env l v0 = false -> emissions (trace w') = emissions (trace w)) /\
    (fault_in_cycle env l v0 = true -> l_sError l = pdFALSE ->
     (emissions (trace w) + 1 <= emissions (trace w') <= emissions (trace w) + 2)%nat).
Proof.
  intros Hr Hv0 Ht.
  destruct (cycle_pass fuel env l w Hr Ht) as (s & v0' & Hs & Hv0' & Hrun).
  rewrite Hv0 in Hv0'. injection Hv0' as <-.
  eexists _, _. split; [exact Hrun|].
  assert (Htr : forall b arr,
             trace (touch (sems_after env s (sems w))
                          (loop_cells (l_pulSharedVariable l) env (counts l) (cells w))
                          (pass_events env s l v0)
                          (if b : bool then set_sCheckVariables arr w else w)) =
             trace w ++ pass_events env s l v0) by (by intros []).
  rewrite Htr, emissions_app, pass_events_emissions.
  split; [reflexivity|].
  unfold fault_in_cycle, pass_messages.
  destruct (l_sError l =? pdFALSE) eqn:Hclr;
    destruct (pre_mismatch l v0), (reverify_mismatch env l), (release_rejected env);
    simpl; split; intros; try discriminate; try lia;
    apply Z.eqb_neq in Hclr; contradiction.
Qed.

Lemma sink_emissions_per_pass_witness :
  exists l' w',
    prvSemaphoreTest_cycle 300 glitch_reject (fst pol_started) (snd pol_started) = Ok l' w' /\
    emissions (trace w') =
      (emissions (trace (snd pol_started)) +
       pass_messages glitch_reject (fst pol_started) 255)%nat /\
    (fault_in_cycle glitch_reject (fst pol_started) 255 = false ->
     emissions (trace w') = emissions (trace (snd pol_started))) /\
    (fault_in_cycle glitch_reject (fst pol_started) 255 = true ->
     l_sError (fst pol_started) = pdFALSE ->
     (emissions (trace (snd pol_started)) + 1 <= emissions (trace w')
      <= emissions (trace (snd pol_started)) + 2)%nat).
Proof.
  apply (sink_emissions_per_pass 300 glitch_reject (fst pol_started) (snd pol_started) 255).
  - apply pol_started_ready.
  - vm_compute. reflexivity.
  - reflexivity.
Defined.

(** C5 as the specification words it fails, in both directions.  In the
    first pass of PolSEM1 a re-read mismatches and the release is rejected:
    the sink gets two messages in that one pass.  In the pass after, a
    re-read mismatches again and nothing else goes wrong: the flag is
    already set and the sink gets nothing. *)
Lemma two_messages_then_none :
  exists l1 w1 l2 w2,
    prvSemaphoreTest_cycle 300 glitch_reject (fst pol_started) (snd pol_started) = Ok l1 w1 /\
    fault_in_cycle glitch_reject (fst pol_started) 255 = true /\
    emissions (trace w1) = (emissions (trace (snd pol_started)) + 2)%nat /\
    prvSemaphoreTest_cycle 300 glitch l1 w1 = Ok l2 w2 /\
    cells w1 !! l_pulSharedVariable l1 = Some 255 /\
    fault_in_cycle glitch l1 255 = true /\
    emissions (trace w2) = emissions (trace w1).
Proof.
  eexists _, _, _, _.
  split; [vm_compute; reflexivity|].
  split; [vm_compute; reflexivity|].
  split; [vm_compute; reflexivity|].
  split; [vm_compute; reflexivity|].
  split; [vm_compute; reflexivity|].
  split; vm_compute; reflexivity.
Qed.

(** C6.  A pass that takes the semaphore and is not interfered with stores
    0, 1, ..., E into the cell, one unit at a time, reads each value back
    right after storing it, and touches the cell no more before it gives the
    semaphore back: the cell holds the expected value E from then on. *)
Theorem uninterfered_pass_restores_cell
        (fuel : nat) (env : CycleEnv) (l : Locals) (w : World)
        (s : xSemaphoreParameters) (v0 : Z) :
  ready fuel l w ->
  params w !! l_pxParameters l = Some s ->
  cells w !! l_pulSharedVariable l = Some v0 ->
  take_result env = pdPASS ->
  uninterfered env l ->
  exists l' w',
    prvSemaphoreTest_cycle fuel env l w = Ok l' w' /\
    trace w' =
      trace w ++
      [EvTake (xSemaphore s) (xBlockTime s) pdPASS;
       EvLoad (l_pulSharedVariable l) v0] ++
      (if v0 =? l_ulExpectedValue l then []
       else [EvPrint pcPollingSemaphoreTaskError]) ++
      flat_map (fun k => [EvStore (l_pulSharedVariable l) k;
                          EvLoad (l_pulSharedVariable l) k])
               (seqZ 0 (l_ulExpectedValue l + 1)) ++
      [EvGive (xSemaphore s) (give_result env)] ++
      (if give_result env =? pdFALSE
       then [EvPrint pcPollingSemaphoreTaskError] else []) ++
      [EvDelay (wrap32 (xBlockTime s * semtstDELAY_FACTOR))] /\
    cells w' !! l_pulSharedVariable l = Some (l_ulExpectedValue l).
Proof.
  intros Hr Hs Hv0 Ht Hq.
  destruct (cycle_pass fuel env l w Hr Ht) as (s' & v0' & Hs' & Hv0' & Hrun).
  rewrite Hs in Hs'. injection Hs' as <-.
  rewrite Hv0 in Hv0'. injection Hv0' as <-.
  destruct Hr as (_ & _ & HE & _).
  eexists _, _. split; [exact Hrun|].
  assert (Hquiet : forall k, k ∈ counts l -> rival_write env k = None).
  { intros k Hk. apply Hq. by apply counts_elem. }
  split.
  - transitivity (trace w ++ pass_events env s l v0);
      [by destruct (advances env l v0)|].
    unfold pass_events. rewrite Ht, loop_events_quiet by done. reflexivity.
  - simpl. rewrite loop_cells_final by lia.
    unfold reread. rewrite Hq by lia. reflexivity.
Qed.

Lemma clean_uninterfered l : uninterfered clean l.
Proof. intros k _. reflexivity. Qed.

Lemma uninterfered_pass_restores_cell_witness :
  exists l' w',
    prvSemaphoreTest_cycle 300 clean (fst pol_started) (snd pol_started) = Ok l' w' /\
    trace w' =
      trace (snd pol_started) ++
      [EvTake 2 0 pdPASS; EvLoad 3 255] ++
      [] ++
      flat_map (fun k => [EvStore 3 k; EvLoad 3 k]) (seqZ 0 (255 + 1)) ++
      [EvGive 2 pdTRUE] ++ [] ++ [EvDelay 0] /\
    cells w' !! 3 = Some 255.
Proof.
  apply (uninterfered_pass_restores_cell
           300 clean (fst pol_started) (snd pol_started) (mkParams 2 3 0) 255).
  - apply pol_started_ready.
  - vm_compute. reflexivity.
  - vm_compute. reflexivity.
  - reflexivity.
  - apply clean_uninterfered.
Defined.

(* ===================================================================== *)
(** ** The check variables over time *)
(* ===================================================================== *)

Lemma bumped_lookup i arr j v :
  arr !! j = Some v ->
  bumped i arr !! j = Some (if decide (j = Z.to_nat i) then wrap16 (v + 1) else v).
Proof.
  intros Hj. unfold bumped.
  destruct (decide (j = Z.to_nat i)) as [->|Hne].
  - rewrite Hj. apply list_lookup_insert_eq. by eapply lookup_lt_Some.
  - destruct (arr !! Z.to_nat i); [|done].
    by rewrite list_lookup_insert_ne.
Qed.

(** C7, as the code has it.  A pass changes the check variables in one way
    only: when it takes the semaphore with the task's flag still clear, meets
    no fault and the task's index is below semtstNUM_TASKS, it adds one,
    modulo 2^16, to the task's own entry; in every other case the array is
    left as it is.  So an entry never goes down as long as it is below
    32767, where the next increment wraps to -32768. *)
Theorem check_variable_steps
        (fuel : nat) (env : CycleEnv) (l : Locals) (w : World) (v0 : Z) :
  ready fuel l w ->
  cells w !! l_pulSharedVariable l = Some v0 ->
  exists l' w',
    prvSemaphoreTest_cycle fuel env l w = Ok l' w' /\
    sCheckVariables w' =
      (if advances env l v0
       then bumped (l_sCheckVariableToUse l) (sCheckVariables w)
       else sCheckVariables w) /\
    forall (i : nat) (v : Z),
      sCheckVariables w !! i = Some v ->
      exists v',
        sCheckVariables w' !! i = Some v' /\
        v' = (if advances env l v0 && bool_decide (i = Z.to_nat (l_sCheckVariableToUse l))
              then wrap16 (v + 1) else v) /\
        (-32768 <= v < 32767 -> v <= v' <= v + 1).
Proof.
  intros Hr Hv0.
  destruct (cycle_effect fuel env l w v0 Hr Hv0)
    as (l' & w' & Hrun & _ & Hcnt & _).
  exists l', w'. split; [done|]. split; [done|].
  intros i v Hi. rewrite Hcnt.
  destruct (advances env l v0); simpl.
  - rewrite (bumped_lookup _ _ _ _ Hi).
    eexists. split; [reflexivity|].
    destruct (decide (i = Z.to_nat (l_sCheckVariableToUse l))) as [Heq|Hne].
    + rewrite bool_decide_eq_true_2 by done. split; [done|].
      intros Hv. rewrite wrap16_small by done. lia.
    + rewrite bool_decide_eq_false_2 by done. split; [done|]. lia.
  - exists v. split; [done|]. split; [done|]. lia.
Qed.

Lemma check_variable_steps_witness :
  exists l' w',
    prvSemaphoreTest_cycle 300 clean (fst pol_started) (snd pol_started) = Ok l' w' /\
    sCheckVariables w' =
      (if advances clean (fst pol_started) 255
       then bumped (l_sCheckVariableToUse (fst pol_started))
                   (sCheckVariables (snd pol_started))
       else sCheckVariables (snd pol_started)) /\
    forall (i : nat) (v : Z),
      sCheckVariables (snd pol_started) !! i = Some v ->
      exists v',
        sCheckVariables w' !! i = Some v' /\
        v' = (if advances clean (fst pol_started) 255 &&
                 bool_decide (i = Z.to_nat (l_sCheckVariableToUse (fst pol_started)))
              then wrap16 (v + 1) else v) /\
        (-32768 <= v < 32767 -> v <= v' <= v + 1).
Proof.
  apply (check_variable_steps 300 clean (fst pol_started) (snd pol_started) 255).
  - apply pol_started_ready.
  - vm_compute. reflexivity.
Defined.

(** A pass in which nothing goes wrong, for a task whose flag is clear. *)
Lemma clean_pass fuel env l w v :
  ready fuel l w ->
  l_sError l = pdFALSE ->
  cells w !! l_pulSharedVariable l = Some (l_ulExpectedValue l) ->
  take_result env = pdPASS ->
  uninterfered env l ->
  give_result env <> pdFALSE ->
  l_sCheckVariableToUse l < semtstNUM_TASKS ->
  sCheckVariables w !! Z.to_nat (l_sCheckVariableToUse l) = Some v ->
  exists w',
    prvSemaphoreTest_cycle fuel env l w = Ok l w' /\
    ready fuel l w' /\
    cells w' !! l_pulSharedVariable l = Some (l_ulExpectedValue l) /\
    sCheckVariables w' =
      <[Z.to_nat (l_sCheckVariableToUse l) := wrap16 (v + 1)]> (sCheckVariables w).
Proof.
  intros Hr Hclr Hcell Ht Hq Hg Hidx Hv.
  destruct (cycle_effect fuel env l w _ Hr Hcell)
    as (l' & w' & Hrun & Hr' & Hcnt & Herr & Hl' & Hcell').
  assert (HE : 0 <= l_ulExpectedValue l) by (destruct Hr as (_ & _ & HE & _); lia).
  assert (Hadv : advances env l (l_ulExpectedValue l) = true).
  { unfold advances, fault_in_cycle, pre_mismatch, reverify_mismatch, release_rejected.
    rewrite Ht, Hclr, !Z.eqb_refl.
    rewrite existsb_quiet by (intros k Hk; apply Hq; by apply counts_elem).
    apply Z.eqb_neq in Hg. rewrite Hg.
    apply Z.ltb_lt in Hidx. rewrite Hidx. reflexivity. }
  assert (Hsame : l' = l).
  { rewrite <- Hl'. rewrite <- (set_sError_same l') at 1. f_equal.
    rewrite Herr, Ht, Hclr. change (pdPASS =? pdPASS) with true. cbv iota.
    apply Z.eqb_eq. rewrite sError_after_clear.
    unfold advances in Hadv. rewrite Ht in Hadv.
    change (pdPASS =? pdPASS) with true in Hadv. simpl in Hadv.
    apply andb_true_iff in Hadv as [Hadv _]. exact Hadv. }
  subst l'. exists w'. split; [done|]. split; [done|].
  split.
  - rewrite Hcell', Ht. change (pdPASS =? pdPASS) with true. cbv iota.
    unfold reread. rewrite Hq by lia. reflexivity.
  - rewrite Hcnt, Hadv. unfold bumped. by rewrite Hv.
Qed.

(** [n] such passes in a row add [n], modulo 2^16. *)
Lemma clean_passes fuel env (n : nat) :
  forall l w v,
    ready fuel l w ->
    l_sError l = pdFALSE ->
    cells w !! l_pulSharedVariable l = Some (l_ulExpectedValue l) ->
    take_result env = pdPASS ->
    uninterfered env l ->
    give_result env <> pdFALSE ->
    l_sCheckVariableToUse l < semtstNUM_TASKS ->
    sCheckVariables w !! Z.to_nat (l_sCheckVariableToUse l) = Some v ->
    wrap16 v = v ->
    exists w',
      run_cycles fuel (repeat env n) l w = Ok l w' /\
      ready fuel l w' /\
      cells w' !! l_pulSharedVariable l = Some (l_ulExpectedValue l) /\
      sCheckVariables w' !! Z.to_nat (l_sCheckVariableToUse l) =
        Some (wrap16 (v + Z.of_nat n)).
Proof.
  induction n as [|n IH]; intros l w v Hr Hclr Hcell Ht Hq Hg Hidx Hv Hshort.
  - exists w. split; [reflexivity|]. split; [done|]. split; [done|].
    rewrite Hv. f_equal. rewrite Z.add_0_r. by symmetry.
  - destruct (clean_pass fuel env l w v) as (w1 & Hrun1 & Hr1 & Hcell1 & Hcnt1); try done.
    destruct (IH l w1 (wrap16 (v + 1))) as (w' & Hrun & Hr' & Hcell' & Hcnt'); try done.
    + rewrite Hcnt1. apply list_lookup_insert_eq. by eapply lookup_lt_Some.
    + apply wrap16_idem.
    + exists w'. split.
      * unfold run_cycles in *. simpl. by rewrite (bind_ok _ _ _ _ _ Hrun1).
      * split; [done|]. split; [done|].
        rewrite Hcnt', wrap16_add. do 2 f_equal. lia.
Qed.

Lemma pol_started_facts :
  prvSemaphoreTest_start 1 w_started = Ok (fst pol_started) (snd pol_started) /\
  l_sError (fst pol_started) = pdFALSE /\
  l_sCheckVariableToUse (fst pol_started) = 0 /\
  l_ulExpectedValue (fst pol_started) = 255 /\
  cells (snd pol_started) !! l_pulSharedVariable (fst pol_started) = Some 255 /\
  sCheckVariables (snd pol_started) = [0; 0; 0; 0].
Proof.
  split; [vm_compute; reflexivity|].
  split; [vm_compute; reflexivity|].
  split; [vm_compute; reflexivity|].
  split; [vm_compute; reflexivity|].
  split; vm_compute; reflexivity.
Qed.

(** C7 as the specification words it fails, twice over.  First, PolSEM1
    has its release rejected in one pass and then runs a pass in which
    nothing goes wrong: the second pass leaves its check variable at 0.
    Second, after 32767 passes without fault its check variable is 32767, and
    one more pass without fault takes it to -32768. *)
Lemma check_variable_stalls_and_wraps :
  (exists l1 w1 l2 w2,
     prvSemaphoreTest_cycle 300 reject (fst pol_started) (snd pol_started) = Ok l1 w1 /\
     cells w1 !! l_pulSharedVariable l1 = Some 255 /\
     fault_in_cycle clean l1 255 = false /\
     prvSemaphoreTest_cycle 300 clean l1 w1 = Ok l2 w2 /\
     sCheckVariables w1 !! 0%nat = Some 0 /\
     sCheckVariables w2 !! 0%nat = Some 0) /\
  (exists l w1 w2,
     prvSemaphoreTest 300 1 (repeat clean (Z.to_nat 32767)) w_started = Ok l w1 /\
     cells w1 !! l_pulSharedVariable l = Some (l_ulExpectedValue l) /\
     fault_in_cycle clean l (l_ulExpectedValue l) = false /\
     prvSemaphoreTest_cycle 300 clean l w1 = Ok l w2 /\
     sCheckVariables w1 !! 0%nat = Some 32767 /\
     sCheckVariables w2 !! 0%nat = Some (-32768)).
Proof.
  split.
  - eexists _, _, _, _.
    split; [vm_compute; reflexivity|].
    split; [vm_compute; reflexivity|].
    split; [vm_compute; reflexivity|].
    split; [vm_compute; reflexivity|].
    split; vm_compute; reflexivity.
  - remember (Z.to_nat 32767) as n eqn:Hn.
    assert (Hn' : Z.of_nat n = 32767) by (subst n; apply Z2Nat.id; lia).
    clear Hn.
    destruct pol_started_facts as (Hstart & Hclr & Hidx & HE & Hcell & Harr).
    remember (fst pol_started) as l0 eqn:Hl0.
    remember (snd pol_started) as w0 eqn:Hw0.
    assert (Hr0 : ready 300 l0 w0) by (subst; apply pol_started_ready).
    clear Hl0 Hw0.
    assert (Hcell0 : cells w0 !! l_pulSharedVariable l0 = Some (l_ulExpectedValue l0))
      by (rewrite HE; exact Hcell).
    assert (Hlt : l_sCheckVariableToUse l0 < semtstNUM_TASKS)
      by (rewrite Hidx; reflexivity).
    assert (Hg : give_result clean <> pdFALSE) by discriminate.
    assert (Hv0 : sCheckVariables w0 !! Z.to_nat (l_sCheckVariableToUse l0) = Some 0)
      by (rewrite Hidx, Harr; reflexivity).
    destruct (clean_passes 300 clean n l0 w0 0 Hr0 Hclr Hcell0 eq_refl
                (clean_uninterfered l0) Hg Hlt Hv0 eq_refl)
      as (w1 & Hrun & Hr1 & Hcell1 & Hcnt1).
    rewrite Hn' in Hcnt1. change (wrap16 (0 + 32767)) with 32767 in Hcnt1.
    destruct (clean_pass 300 clean l0 w1 32767 Hr1 Hclr Hcell1 eq_refl
                (clean_uninterfered l0) Hg Hlt Hcnt1)
      as (w2 & Hrun2 & _ & _ & Hcnt2).
    exists l0, w1, w2.
    split; [unfold prvSemaphoreTest; rewrite (bind_ok _ _ _ _ _ Hstart); exact Hrun|].
    split; [exact Hcell1|].
    split.
    { unfold fault_in_cycle, pre_mismatch, reverify_mismatch, release_rejected.
      rewrite Z.eqb_refl.
      rewrite existsb_quiet by (intros k _; reflexivity). reflexivity. }
    split; [exact Hrun2|].
    rewrite Hidx in Hcnt1, Hcnt2. change (Z.to_nat 0) with 0%nat in *.
    split; [exact Hcnt1|].
    rewrite Hcnt2.
    rewrite list_lookup_insert_eq by (by eapply lookup_lt_Some).
    reflexivity.
Qed.

(* ===================================================================== *)
(** ** Tasks beyond the fourth *)
(* ===================================================================== *)

(** The tasks of a second call to vStartSemaphoreTasks get the indices 4
    to 7. *)
Lemma second_call_indices :
  length (tasks w_started_twice) = 8%nat /\
  l_sCheckVariableToUse <$> fst eight_started = [0; 1; 2; 3; 4; 5; 6; 7].
Proof. split; vm_compute; reflexivity. Qed.

(** C10.  A pass of a task whose index is semtstNUM_TASKS or more runs to
    its end, taken or not, faulted or not, without reading or writing
    sCheckVariables: the array is the same afterwards.  Put the other way
    round, a pass that changes the array belongs to a task whose index is
    below semtstNUM_TASKS. *)
Theorem high_index_never_counts
        (fuel : nat) (env : CycleEnv) (l : Locals) (w : World) :
  is_Some (params w !! l_pxParameters l) ->
  is_Some (cells w !! l_pulSharedVariable l) ->
  0 <= l_ulExpectedValue l < ULONG_MAX ->
  (Z.to_nat (l_ulExpectedValue l) + 1 < fuel)%nat ->
  (semtstNUM_TASKS <= l_sCheckVariableToUse l ->
   exists l' w',
     prvSemaphoreTest_cycle fuel env l w = Ok l' w' /\
     sCheckVariables w' = sCheckVariables w) /\
  (forall l' w',
     prvSemaphoreTest_cycle fuel env l w = Ok l' w' ->
     sCheckVariables w' <> sCheckVariables w ->
     l_sCheckVariableToUse l < semtstNUM_TASKS).
Proof.
  intros [s Hs] [v0 Hv0] HE Hfuel.
  assert (Hhigh : semtstNUM_TASKS <= l_sCheckVariableToUse l ->
                  exists l' w',
                    prvSemaphoreTest_cycle fuel env l w = Ok l' w' /\
                    sCheckVariables w' = sCheckVariables w).
  { intros Hidx. destruct (Z.eq_dec (take_result env) pdPASS) as [Ht|Ht].
    - rewrite (cycle_taken fuel env l w s v0) by done.
      rewrite progress_signal_high by done.
      eexists _, _. split; reflexivity.
    - rewrite (cycle_not_taken fuel env l w s) by done.
      eexists _, _. split; reflexivity. }
  split; [exact Hhigh|].
  intros l' w' Hrun Hchg.
  destruct (Z.lt_ge_cases (l_sCheckVariableToUse l) semtstNUM_TASKS) as [Hlt|Hge];
    [exact Hlt|].
  destruct (Hhigh Hge) as (l2 & w2 & Hrun2 & Hsame).
  rewrite Hrun in Hrun2. injection Hrun2 as <- <-. contradiction.
Qed.

Lemma high_index_never_counts_witness :
  semtstNUM_TASKS <= l_sCheckVariableToUse fifth_task /\
  exists l' w',
    prvSemaphoreTest_cycle 300 clean fifth_task (snd eight_started) = Ok l' w' /\
    sCheckVariables w' = sCheckVariables (snd eight_started).
Proof.
  assert (Hidx : semtstNUM_TASKS <= l_sCheckVariableToUse fifth_task)
    by (vm_compute; discriminate).
  split; [exact Hidx|].
  apply (high_index_never_counts 300 clean fifth_task (snd eight_started)).
  - vm_compute. eauto.
  - vm_compute. eauto.
  - vm_compute. split; [discriminate|reflexivity].
  - vm_compute. lia.
  - exact Hidx.
Defined.

(* ===================================================================== *)
(** ** vStartSemaphoreTasks *)
(* ===================================================================== *)

Lemma nonnull p : 0 < p -> negb (p =? NULL) = true.
Proof. intros Hp. apply negb_true_iff, Z.eqb_neq. unfold NULL. lia. Qed.

Lemma pvPortMalloc_granted ty w o :
  oracle w = true :: o ->
  pvPortMalloc ty w =
  Ok (brk w)
     (match ty with
      | TParams => set_params (<[brk w := stale_params w (brk w)]> (params w))
                     (set_brk (brk w + 1) (set_oracle o w))
      | TULong => set_cells (<[brk w := stale_cells w (brk w)]> (cells w))
                    (set_brk (brk w + 1) (set_oracle o w))
      end).
Proof.
  intros Horc. unfold pvPortMalloc, next_outcome. rewrite Horc.
  by destruct ty.
Qed.

Lemma pvPortMalloc_refused ty w o :
  oracle w = false :: o -> pvPortMalloc ty w = Ok NULL (set_oracle o w).
Proof. intros Horc. unfold pvPortMalloc, next_outcome. by rewrite Horc. Qed.

Lemma store_params_ok p f w s :
  params w !! p = Some s ->
  store_params p f w = Ok tt (set_params (<[p := f s]> (params w)) w).
Proof.
  intros Hs. unfold store_params.
  by rewrite (bind_ok _ _ _ _ _ (load_params_ok _ _ _ Hs)).
Qed.

Lemma vSemaphoreCreateBinary_granted p w s o :
  oracle w = true :: o ->
  params w !! p = Some s ->
  vSemaphoreCreateBinary p w =
  Ok tt (set_params (<[p := mkParams (brk w) (pulSharedVariable s) (xBlockTime s)]> (params w))
           (set_sems (<[brk w := true]> (sems w))
              (set_brk (brk w + 1) (set_oracle o w)))).
Proof.
  intros Horc Hs. unfold vSemaphoreCreateBinary, bind, gets, modify, next_outcome.
  rewrite Horc. simpl oracle. simpl tl. simpl brk.
  by rewrite (store_params_ok p _ _ s) by exact Hs.
Qed.

Lemma vSemaphoreCreateBinary_refused p w s o :
  oracle w = false :: o ->
  params w !! p = Some s ->
  vSemaphoreCreateBinary p w =
  Ok tt (set_params (<[p := mkParams NULL (pulSharedVariable s) (xBlockTime s)]> (params w))
           (set_oracle o w)).
Proof.
  intros Horc Hs. unfold vSemaphoreCreateBinary, bind, gets, modify, next_outcome.
  rewrite Horc. simpl oracle. simpl tl.
  by rewrite (store_params_ok p _ _ s) by exact Hs.
Qed.

Lemma xTaskCreate_granted name depth pv prio w o :
  oracle w = true :: o ->
  xTaskCreate name depth pv prio w =
  Ok tt (set_tasks (tasks w ++ [mkTask name depth pv prio]) (set_oracle o w)).
Proof.
  intros Horc. unfold xTaskCreate, bind, gets, modify, next_outcome.
  by rewrite Horc.
Qed.

Lemma store_ulong_plain p v w :
  is_Some (cells w !! p) ->
  store_ulong p v w = Ok tt (emit (EvStore p v) (set_cells (<[p := v]> (cells w)) w)).
Proof. intros [x Hx]. unfold store_ulong. by rewrite Hx. Qed.

(** Projections of worlds built with the setters. *)
Ltac wsimpl :=
  cbn [sCheckVariables sNextCheckVariable sLastCheckVariables params cells sems brk
       oracle tasks trace stale_params stale_cells
       xSemaphore pulSharedVariable xBlockTime
       set_sCheckVariables set_sNextCheckVariable set_sLastCheckVariables
       set_params set_cells set_sems set_brk set_oracle set_tasks emit].

(** The polling pair when the next five allocations are granted. *)
Lemma start_polling_pair_granted (stack : Z) (w : World) (o : list bool) :
  0 < brk w ->
  oracle w = true :: true :: true :: true :: true :: o ->
  start_polling_pair stack w =
  Ok tt (mkWorld (sCheckVariables w) (sNextCheckVariable w) (sLastCheckVariables w)
           (<[brk w := mkParams (brk w + 1) (brk w + 2) 0]> (params w))
           (<[brk w + 2 := semtstNON_BLOCKING_EXPECTED_VALUE]> (cells w))
           (<[brk w + 1 := true]> (sems w))
           (brk w + 3) o
           (tasks w ++ [mkTask "PolSEM1" stack (brk w) tskIDLE_PRIORITY;
                        mkTask "PolSEM2" stack (brk w) tskIDLE_PRIORITY])
           (trace w ++ [EvStore (brk w + 2) semtstNON_BLOCKING_EXPECTED_VALUE])
           (stale_params w) (stale_cells w)).
Proof.
  intros Hbrk Horc. unfold start_polling_pair.
  rewrite (bind_ok _ _ _ _ _ (pvPortMalloc_granted TParams w _ Horc)).
  rewrite nonnull by done.
  erewrite bind_ok
    by (eapply vSemaphoreCreateBinary_granted; [reflexivity|apply lookup_insert_eq]).
  erewrite bind_ok by (apply load_params_ok; apply lookup_insert_eq).
  wsimpl. rewrite nonnull by lia.
  erewrite bind_ok by (eapply pvPortMalloc_granted; reflexivity).
  erewrite bind_ok by (eapply store_params_ok; apply lookup_insert_eq).
  erewrite bind_ok by (apply load_params_ok; apply lookup_insert_eq).
  wsimpl.
  erewrite bind_ok by (apply store_ulong_plain; wsimpl; rewrite lookup_insert_eq; eauto).
  erewrite bind_ok by (eapply store_params_ok; apply lookup_insert_eq).
  erewrite bind_ok by (eapply xTaskCreate_granted; reflexivity).
  erewrite xTaskCreate_granted by reflexivity.
  f_equal. unfold semtstSTACK_SIZE. wsimpl.
  rewrite !insert_insert_eq, <- app_assoc.
  replace (brk w + 1 + 1) with (brk w + 2) by lia.
  replace (brk w + 2 + 1) with (brk w + 3) by lia.
  reflexivity.
Qed.

(** The blocking pair when the next five allocations are granted. *)
Lemma start_blocking_pair_granted (tick stack prio : Z) (w : World) (o : list bool) :
  0 < brk w ->
  tick <> 0 ->
  oracle w = true :: true :: true :: true :: true :: o ->
  start_blocking_pair tick stack prio w =
  Ok tt (mkWorld (sCheckVariables w) (sNextCheckVariable w) (sLastCheckVariables w)
           (<[brk w := mkParams (brk w + 1) (brk w + 2) (100 / tick)]> (params w))
           (<[brk w + 2 := semtstBLOCKING_EXPECTED_VALUE]> (cells w))
           (<[brk w + 1 := true]> (sems w))
           (brk w + 3) o
           (tasks w ++ [mkTask "BlkSEM1" stack (brk w) prio;
                        mkTask "BlkSEM2" stack (brk w) prio])
           (trace w ++ [EvStore (brk w + 2) semtstBLOCKING_EXPECTED_VALUE])
           (stale_params w) (stale_cells w)).
Proof.
  intros Hbrk Htick Horc. unfold start_blocking_pair.
  rewrite (bind_ok _ _ _ _ _ (pvPortMalloc_granted TParams w _ Horc)).
  rewrite nonnull by done.
  erewrite bind_ok
    by (eapply vSemaphoreCreateBinary_granted; [reflexivity|apply lookup_insert_eq]).
  erewrite bind_ok by (apply load_params_ok; apply lookup_insert_eq).
  wsimpl. rewrite nonnull by lia.
  erewrite bind_ok by (eapply pvPortMalloc_granted; reflexivity).
  erewrite bind_ok by (eapply store_params_ok; apply lookup_insert_eq).
  erewrite bind_ok by (apply load_params_ok; apply lookup_insert_eq).
  wsimpl.
  erewrite bind_ok by (apply store_ulong_plain; wsimpl; rewrite lookup_insert_eq; eauto).
  unfold tick_div. apply Z.eqb_neq in Htick. rewrite Htick.
  unfold bind at 1, ret at 1.
  erewrite bind_ok by (eapply store_params_ok; apply lookup_insert_eq).
  erewrite bind_ok by (eapply xTaskCreate_granted; reflexivity).
  erewrite xTaskCreate_granted by reflexivity.
  f_equal. unfold semtstSTACK_SIZE. wsimpl.
  rewrite !insert_insert_eq, <- app_assoc.
  replace (brk w + 1 + 1) with (brk w + 2) by lia.
  replace (brk w + 2 + 1) with (brk w + 3) by lia.
  reflexivity.
Qed.

(** A pair whose parameter block cannot be allocated is not started. *)
Lemma start_polling_pair_no_block (stack : Z) (w : World) (o : list bool) :
  oracle w = false :: o ->
  start_polling_pair stack w = Ok tt (set_oracle o w).
Proof.
  intros Horc. unfold start_polling_pair.
  by rewrite (bind_ok _ _ _ _ _ (pvPortMalloc_refused TParams w _ Horc)).
Qed.

(** Nor is a pair whose semaphore cannot be created. *)
Lemma start_polling_pair_no_semaphore (stack : Z) (w : World) (o : list bool) :
  0 < brk w ->
  oracle w = true :: false :: o ->
  exists w',
    start_polling_pair stack w = Ok tt w' /\
    tasks w' = tasks w /\ cells w' = cells w /\ trace w' = trace w.
Proof.
  intros Hbrk Horc. unfold start_polling_pair.
  rewrite (bind_ok _ _ _ _ _ (pvPortMalloc_granted TParams w _ Horc)).
  rewrite nonnull by done.
  erewrite bind_ok
    by (eapply vSemaphoreCreateBinary_refused; [reflexivity|apply lookup_insert_eq]).
  erewrite bind_ok by (apply load_params_ok; apply lookup_insert_eq).
  eexists. split; [reflexivity|]. auto.
Qed.

(** C2 at the input on which it fails.  The parameter block and the
    semaphore of the polling pair are allocated and the allocation of the
    shared variable returns NULL: nothing tests that pointer, and the
    initialising store goes through it.  At the fault the block holds the
    semaphore's handle and the NULL pointer, and no task has been
    spawned. *)
Theorem null_shared_variable_is_written
        (portTICK_PERIOD_MS configMINIMAL_STACK_SIZE uxPriority : Z) :
  exists w' s,
    vStartSemaphoreTasks portTICK_PERIOD_MS configMINIMAL_STACK_SIZE uxPriority
      (boot [true; true; false]) = Fault (BadPointer NULL) w' /\
    params w' !! 1 = Some s /\
    xSemaphore s = 2 /\
    sems w' !! 2 = Some true /\
    pulSharedVariable s = NULL /\
    cells w' !! NULL = None /\
    tasks w' = [] /\
    oracle w' = [].
Proof.
  eexists _, _. split; [vm_compute; reflexivity|].
  split; [vm_compute; reflexivity|].
  split; [reflexivity|]. split; [vm_compute; reflexivity|].
  split; [reflexivity|]. split; [reflexivity|]. split; reflexivity.
Qed.


(** C9.  With every allocation granted and a tick period between 1 and
    100 ms, vStartSemaphoreTasks creates four tasks: PolSEM1 and PolSEM2 at
    the idle priority on one parameter block with block time 0, and BlkSEM1
    and BlkSEM2 at the caller's priority on another with block time
    100 / portTICK_PERIOD_MS, which is positive.  Each block has its own
    semaphore, created available, and its own cell, initialised to 0xFF for
    the polling pair and 0xFFF for the blocking pair, the values the tasks
    of the pair then take as their expected value. *)
Theorem start_configures_both_pairs
        (portTICK_PERIOD_MS configMINIMAL_STACK_SIZE uxPriority : Z)
        (w : World) (rest : list bool) :
  0 < brk w ->
  oracle w = repeat true 10 ++ rest ->
  1 <= portTICK_PERIOD_MS <= 100 ->
  exists w',
    vStartSemaphoreTasks portTICK_PERIOD_MS configMINIMAL_STACK_SIZE uxPriority w
      = Ok tt w' /\
    tasks w' =
      tasks w ++
      [mkTask "PolSEM1" configMINIMAL_STACK_SIZE (brk w) tskIDLE_PRIORITY;
       mkTask "PolSEM2" configMINIMAL_STACK_SIZE (brk w) tskIDLE_PRIORITY;
       mkTask "BlkSEM1" configMINIMAL_STACK_SIZE (brk w + 3) uxPriority;
       mkTask "BlkSEM2" configMINIMAL_STACK_SIZE (brk w + 3) uxPriority] /\
    params w' !! brk w = Some (mkParams (brk w + 1) (brk w + 2) 0) /\
    params w' !! (brk w + 3) =
      Some (mkParams (brk w + 4) (brk w + 5) (100 / portTICK_PERIOD_MS)) /\
    0 < 100 / portTICK_PERIOD_MS /\
    cells w' !! (brk w + 2) = Some 0xff /\
    cells w' !! (brk w + 5) = Some 0xfff /\
    sems w' !! (brk w + 1) = Some true /\
    sems w' !! (brk w + 4) = Some true /\
    (exists l1 w1,
       prvSemaphoreTest_start (brk w) w' = Ok l1 w1 /\
       l_pulSharedVariable l1 = brk w + 2 /\
       l_ulExpectedValue l1 = 0xff) /\
    (exists l2 w2,
       prvSemaphoreTest_start (brk w + 3) w' = Ok l2 w2 /\
       l_pulSharedVariable l2 = brk w + 5 /\
       l_ulExpectedValue l2 = 0xfff).
Proof.
  intros Hbrk Horc Htick. simpl in Horc.
  assert (Hpos : 0 < 100 / portTICK_PERIOD_MS) by (apply Z.div_str_pos; lia).
  unfold vStartSemaphoreTasks.
  rewrite (bind_ok _ _ _ _ _ (start_polling_pair_granted _ w _ Hbrk Horc)).
  rewrite start_blocking_pair_granted with (o := rest);
    [|wsimpl; lia|lia|reflexivity].
  wsimpl.
  replace (brk w + 3 + 1) with (brk w + 4) by lia.
  replace (brk w + 3 + 2) with (brk w + 5) by lia.
  eexists. split; [reflexivity|]. wsimpl.
  assert (Hp1 : <[brk w + 3 := mkParams (brk w + 4) (brk w + 5) (100 / portTICK_PERIOD_MS)]>
                  (<[brk w := mkParams (brk w + 1) (brk w + 2) 0]> (params w))
                !! brk w = Some (mkParams (brk w + 1) (brk w + 2) 0)).
  { rewrite lookup_insert_ne by lia. apply lookup_insert_eq. }
  assert (Hp2 : <[brk w + 3 := mkParams (brk w + 4) (brk w + 5) (100 / portTICK_PERIOD_MS)]>
                  (<[brk w := mkParams (brk w + 1) (brk w + 2) 0]> (params w))
                !! (brk w + 3)
                = Some (mkParams (brk w + 4) (brk w + 5) (100 / portTICK_PERIOD_MS)))
    by apply lookup_insert_eq.
  split; [by rewrite <- app_assoc|].
  split; [exact Hp1|]. split; [exact Hp2|]. split; [exact Hpos|].
  split; [rewrite lookup_insert_ne by lia; apply lookup_insert_eq|].
  split; [apply lookup_insert_eq|].
  split; [rewrite lookup_insert_ne by lia; apply lookup_insert_eq|].
  split; [apply lookup_insert_eq|].
  split.
  - eexists _, _. split; [apply start_ok; wsimpl; exact Hp1|]. wsimpl. auto.
  - eexists _, _. split; [apply start_ok; wsimpl; exact Hp2|]. wsimpl.
    split; [reflexivity|].
    replace (100 / portTICK_PERIOD_MS >? 0) with true
      by (symmetry; apply Z.gtb_lt; lia).
    reflexivity.
Qed.

Lemma start_configures_both_pairs_witness :
  exists w',
    vStartSemaphoreTasks 1 128 1 (boot (repeat true 10 ++ [])) = Ok tt w' /\
    tasks w' =
      [] ++
      [mkTask "PolSEM1" 128 1 tskIDLE_PRIORITY;
       mkTask "PolSEM2" 128 1 tskIDLE_PRIORITY;
       mkTask "BlkSEM1" 128 (1 + 3) 1;
       mkTask "BlkSEM2" 128 (1 + 3) 1] /\
    params w' !! 1 = Some (mkParams (1 + 1) (1 + 2) 0) /\
    params w' !! (1 + 3) = Some (mkParams (1 + 4) (1 + 5) (100 / 1)) /\
    0 < 100 / 1 /\
    cells w' !! (1 + 2) = Some 0xff /\
    cells w' !! (1 + 5) = Some 0xfff /\
    sems w' !! (1 + 1) = Some true /\
    sems w' !! (1 + 4) = Some true /\
    (exists l1 w1,
       prvSemaphoreTest_start 1 w' = Ok l1 w1 /\
       l_pulSharedVariable l1 = 1 + 2 /\
       l_ulExpectedValue l1 = 0xff) /\
    (exists l2 w2,
       prvSemaphoreTest_start (1 + 3) w' = Ok l2 w2 /\
       l_pulSharedVariable l2 = 1 + 5 /\
       l_ulExpectedValue l2 = 0xfff).
Proof.
  apply (start_configures_both_pairs 1 128 1 (boot (repeat true 10 ++ [])) []).
  - reflexivity.
  - reflexivity.
  - lia.
Defined.

(* ===================================================================== *)
(** ** More about one pass *)
(* ===================================================================== *)

Lemma bind_fault {A B} (m : M A) (k : A -> M B) w f w' :
  m w = Fault f w' -> bind m k w = Fault f w'.
Proof. unfold bind. by intros ->. Qed.

(** X1.  A pass that does not get the semaphore accesses neither the cell
    nor the check variables and leaves the locals as they were; it yields
    once if the task polls (block time 0) and not at all if it blocks.  It
    needs nothing but a valid parameter block: not even a valid cell
    pointer. *)
Theorem failed_take_touches_nothing
        (fuel : nat) (env : CycleEnv) (l : Locals) (w : World)
        (s : xSemaphoreParameters) :
  params w !! l_pxParameters l = Some s ->
  take_result env <> pdPASS ->
  exists w',
    prvSemaphoreTest_cycle fuel env l w = Ok l w' /\
    cells w' = cells w /\
    sCheckVariables w' = sCheckVariables w /\
    sems w' = sems w /\
    trace w' =
      trace w ++
      EvTake (xSemaphore s) (xBlockTime s) (take_result env) ::
      (if xBlockTime s =? 0 then [EvYield] else []).
Proof.
  intros Hs Ht. rewrite (cycle_not_taken fuel env l w s Hs Ht).
  eexists. split; [reflexivity|]. auto.
Qed.

Lemma failed_take_touches_nothing_witness :
  exists w',
    prvSemaphoreTest_cycle 0 (mkEnv pdFALSE (fun _ => None) pdTRUE)
                           (fst pol_started) (snd pol_started)
      = Ok (fst pol_started) w' /\
    cells w' = cells (snd pol_started) /\
    sCheckVariables w' = sCheckVariables (snd pol_started) /\
    sems w' = sems (snd pol_started) /\
    trace w' =
      trace (snd pol_started) ++
      EvTake (xSemaphore (mkParams 2 3 0)) (xBlockTime (mkParams 2 3 0)) pdFALSE ::
      (if xBlockTime (mkParams 2 3 0) =? 0 then [EvYield] else []).
Proof.
  apply (failed_take_touches_nothing
           0 (mkEnv pdFALSE (fun _ => None) pdTRUE)
           (fst pol_started) (snd pol_started) (mkParams 2 3 0)).
  - vm_compute. reflexivity.
  - discriminate.
Defined.

(** X2.  The flag after a pass that took the semaphore is clear exactly when
    it was clear before and the pass met no fault; it is either what it was
    or pdTRUE. *)
Theorem flag_clear_iff_no_fault_so_far
        (fuel : nat) (env : CycleEnv) (l : Locals) (w : World) (v0 : Z) :
  ready fuel l w ->
  cells w !! l_pulSharedVariable l = Some v0 ->
  take_result env = pdPASS ->
  exists l' w',
    prvSemaphoreTest_cycle fuel env l w = Ok l' w' /\
    (l_sError l' = pdFALSE <->
     l_sError l = pdFALSE /\ fault_in_cycle env l v0 = false) /\
    (l_sError l' = l_sError l \/ l_sError l' = pdTRUE).
Proof.
  intros Hr Hv0 Ht.
  destruct (cycle_effect fuel env l w v0 Hr Hv0)
    as (l' & w' & Hrun & _ & _ & Herr & _).
  exists l', w'. split; [exact Hrun|].
  rewrite Ht in Herr. change (pdPASS =? pdPASS) with true in Herr. cbv iota in Herr.
  rewrite Herr. split.
  - rewrite <- Z.eqb_eq, sError_after_clear, andb_true_iff, Z.eqb_eq, negb_true_iff.
    reflexivity.
  - unfold sError_after, sError_checked. rewrite loop_sError_closed.
    destruct (give_result env =? pdFALSE); [by right|].
    destruct (existsb _ _); [by right|].
    destruct (v0 =? l_ulExpectedValue l); [by left|by right].
Qed.

Lemma flag_clear_iff_no_fault_so_far_witness :
  exists l' w',
    prvSemaphoreTest_cycle 300 glitch (fst pol_started) (snd pol_started) = Ok l' w' /\
    (l_sError l' = pdFALSE <->
     l_sError (fst pol_started) = pdFALSE /\
     fault_in_cycle glitch (fst pol_started) 255 = false) /\
    (l_sError l' = l_sError (fst pol_started) \/ l_sError l' = pdTRUE).
Proof.
  apply (flag_clear_iff_no_fault_so_far 300 glitch (fst pol_started) (snd pol_started) 255).
  - apply pol_started_ready.
  - vm_compute. reflexivity.
  - reflexivity.
Defined.

Lemma loop_cells_other p env ks cs q :
  q <> p -> loop_cells p env ks cs !! q = cs !! q.
Proof.
  intros Hq. revert cs. induction ks as [|k ks IH]; intros cs; simpl; [done|].
  rewrite IH. by apply lookup_insert_ne.
Qed.

Lemma bumped_other i arr j :
  j <> Z.to_nat i -> bumped i arr !! j = arr !! j.
Proof.
  intros Hj. unfold bumped. destruct (arr !! Z.to_nat i); [|done].
  by apply list_lookup_insert_ne.
Qed.

(** X3.  A pass, whatever its environment, stays within its own footprint:
    it leaves alone every parameter block, every cell but the task's own,
    every check variable but the task's own, the snapshot of the liveness
    check, the next-index counter, the heap and the task list, and in the
    locals it changes nothing but the flag. *)
Theorem pass_footprint
        (fuel : nat) (env : CycleEnv) (l : Locals) (w : World) :
  ready fuel l w ->
  exists l' w',
    prvSemaphoreTest_cycle fuel env l w = Ok l' w' /\
    set_sError (l_sError l) l' = l /\
    params w' = params w /\
    sLastCheckVariables w' = sLastCheckVariables w /\
    sNextCheckVariable w' = sNextCheckVariable w /\
    brk w' = brk w /\ oracle w' = oracle w /\ tasks w' = tasks w /\
    length (sCheckVariables w') = length (sCheckVariables w) /\
    (forall q, q <> l_pulSharedVariable l -> cells w' !! q = cells w !! q) /\
    (forall i : nat, i <> Z.to_nat (l_sCheckVariableToUse l) ->
                     sCheckVariables w' !! i = sCheckVariables w !! i).
Proof.
  intros Hr. destruct (Z.eq_dec (take_result env) pdPASS) as [Ht|Ht].
  - destruct (cycle_pass fuel env l w Hr Ht) as (s & v0 & Hs & Hv0 & ->).
    eexists _, _. split; [reflexivity|].
    split; [by destruct l|].
    destruct (advances env l v0); simpl;
      (repeat (split; [try rewrite length_bumped; reflexivity|]));
      (split; [intros q Hq; by apply loop_cells_other|]);
      intros i Hi; [by apply bumped_other|reflexivity].
  - destruct (cycle_skip fuel env l w Hr Ht) as (s & Hs & ->).
    eexists _, _. split; [reflexivity|].
    split; [apply set_sError_same|]. simpl. auto 12.
Qed.

Lemma pass_footprint_witness :
  exists l' w',
    prvSemaphoreTest_cycle 300 glitch_reject (fst pol_started) (snd pol_started)
      = Ok l' w' /\
    set_sError (l_sError (fst pol_started)) l' = fst pol_started /\
    params w' = params (snd pol_started) /\
    sLastCheckVariables w' = sLastCheckVariables (snd pol_started) /\
    sNextCheckVariable w' = sNextCheckVariable (snd pol_started) /\
    brk w' = brk (snd pol_started) /\
    oracle w' = oracle (snd pol_started) /\
    tasks w' = tasks (snd pol_started) /\
    length (sCheckVariables w') = length (sCheckVariables (snd pol_started)) /\
    (forall q, q <> l_pulSharedVariable (fst pol_started) ->
               cells w' !! q = cells (snd pol_started) !! q) /\
    (forall i : nat, i <> Z.to_nat (l_sCheckVariableToUse (fst pol_started)) ->
                     sCheckVariables w' !! i = sCheckVariables (snd pol_started) !! i).
Proof.
  apply (pass_footprint 300 glitch_reject (fst pol_started) (snd pol_started)).
  apply pol_started_ready.
Defined.

(** X4.  After any pass that took the semaphore the cell holds what the last
    re-read returned: the expected value, unless a rival overwrote the very
    last store.  This is so whatever the pass found in the cell and whatever
    faults it met on the way, so a pass repairs a corrupted cell. *)
Theorem pass_leaves_last_reread
        (fuel : nat) (env : CycleEnv) (l : Locals) (w : World) :
  ready fuel l w ->
  take_result env = pdPASS ->
  exists l' w',
    prvSemaphoreTest_cycle fuel env l w = Ok l' w' /\
    cells w' !! l_pulSharedVariable l =
      Some (default (l_ulExpectedValue l) (rival_write env (l_ulExpectedValue l))) /\
    (rival_write env (l_ulExpectedValue l) = None ->
     cells w' !! l_pulSharedVariable l = Some (l_ulExpectedValue l)).
Proof.
  intros Hr Ht. pose proof Hr as (_ & [v0 Hv0] & _).
  destruct (cycle_effect fuel env l w v0 Hr Hv0)
    as (l' & w' & Hrun & _ & _ & _ & _ & Hcell).
  exists l', w'. split; [exact Hrun|].
  rewrite Ht in Hcell. change (pdPASS =? pdPASS) with true in Hcell. cbv iota in Hcell.
  split; [exact Hcell|].
  intros Hnone. rewrite Hcell. unfold reread. by rewrite Hnone.
Qed.

Lemma pass_leaves_last_reread_witness :
  exists l' w',
    prvSemaphoreTest_cycle 300 glitch_reject (fst pol_started) (snd pol_started)
      = Ok l' w' /\
    cells w' !! l_pulSharedVariable (fst pol_started) =
      Some (default (l_ulExpectedValue (fst pol_started))
                    (rival_write glitch_reject (l_ulExpectedValue (fst pol_started)))) /\
    (rival_write glitch_reject (l_ulExpectedValue (fst pol_started)) = None ->
     cells w' !! l_pulSharedVariable (fst pol_started)
     = Some (l_ulExpectedValue (fst pol_started))).
Proof.
  apply (pass_leaves_last_reread 300 glitch_reject (fst pol_started) (snd pol_started)).
  - apply pol_started_ready.
  - reflexivity.
Defined.

Lemma stores_app p t1 t2 : stores p (t1 ++ t2) = (stores p t1 + stores p t2)%nat.
Proof.
  induction t1 as [|e t1 IH]; [reflexivity|].
  destruct e; simpl; rewrite IH; lia.
Qed.

Lemma loads_app p t1 t2 : loads p (t1 ++ t2) = (loads p t1 + loads p t2)%nat.
Proof.
  induction t1 as [|e t1 IH]; [reflexivity|].
  destruct e; simpl; rewrite IH; lia.
Qed.

Lemma loop_events_accesses p env ks e :
  stores p (loop_events p env ks e) = length ks /\
  loads p (loop_events p env ks e) = length ks.
Proof.
  revert e. induction ks as [|k ks IH]; intros e; [done|].
  simpl loop_events.
  destruct (IH (if reread env k =? k then e else pdTRUE)) as [IHs IHl].
  cbn [app stores loads]. rewrite Z.eqb_refl, stores_app, loads_app, IHs, IHl.
  destruct (reread env k =? k); [done|].
  by destruct (e =? pdFALSE).
Qed.

(** X5.  A pass that took the semaphore always counts to the end: it makes
    E + 1 stores to its cell and E + 2 loads from it (the pre-condition read
    and one re-read per store), whether or not a mismatch shows up on the
    way.  A fault never cuts the counting loop short. *)
Theorem pass_counts_to_the_end
        (fuel : nat) (env : CycleEnv) (l : Locals) (w : World) :
  ready fuel l w ->
  take_result env = pdPASS ->
  exists l' w',
    prvSemaphoreTest_cycle fuel env l w = Ok l' w' /\
    stores (l_pulSharedVariable l) (trace w') =
      (stores (l_pulSharedVariable l) (trace w) + Z.to_nat (l_ulExpectedValue l + 1))%nat /\
    loads (l_pulSharedVariable l) (trace w') =
      (loads (l_pulSharedVariable l) (trace w) + Z.to_nat (l_ulExpectedValue l + 2))%nat.
Proof.
  intros Hr Ht.
  destruct (cycle_pass fuel env l w Hr Ht) as (s & v0 & Hs & Hv0 & Hrun).
  destruct Hr as (_ & _ & HE & _).
  eexists _, _. split; [exact Hrun|].
  assert (Htr : forall b arr,
             trace (touch (sems_after env s (sems w))
                          (loop_cells (l_pulSharedVariable l) env (counts l) (cells w))
                          (pass_events env s l v0)
                          (if b : bool then set_sCheckVariables arr w else w)) =
             trace w ++ pass_events env s l v0) by (by intros []).
  rewrite Htr, stores_app, loads_app.
  unfold pass_events. rewrite !stores_app, !loads_app.
  destruct (loop_events_accesses (l_pulSharedVariable l) env (counts l)
              (sError_checked l v0)) as [-> ->].
  unfold counts. rewrite length_seqZ.
  cbn [stores loads app]. rewrite Z.eqb_refl.
  destruct (v0 =? l_ulExpectedValue l), (give_result env =? pdFALSE);
    cbn [stores loads Nat.b2n]; lia.
Qed.

Lemma pass_counts_to_the_end_witness :
  exists l' w',
    prvSemaphoreTest_cycle 300 glitch (fst pol_started) (snd pol_started) = Ok l' w' /\
    stores (l_pulSharedVariable (fst pol_started)) (trace w') =
      (stores (l_pulSharedVariable (fst pol_started)) (trace (snd pol_started)) +
       Z.to_nat (l_ulExpectedValue (fst pol_started) + 1))%nat /\
    loads (l_pulSharedVariable (fst pol_started)) (trace w') =
      (loads (l_pulSharedVariable (fst pol_started)) (trace (snd pol_started)) +
       Z.to_nat (l_ulExpectedValue (fst pol_started) + 2))%nat.
Proof.
  apply (pass_counts_to_the_end 300 glitch (fst pol_started) (snd pol_started)).
  - apply pol_started_ready.
  - reflexivity.
Defined.

(* ===================================================================== *)
(** ** Tasks in turn, and the liveness check after them *)
(* ===================================================================== *)

Lemma cycle_frame fuel env l w :
  ready fuel l w ->
  exists l' w',
    prvSemaphoreTest_cycle fuel env l w = Ok l' w' /\
    set_sError (l_sError l) l' = l /\
    params w' = params w /\
    sLastCheckVariables w' = sLastCheckVariables w /\
    sNextCheckVariable w' = sNextCheckVariable w /\
    brk w' = brk w /\ oracle w' = oracle w /\ tasks w' = tasks w /\
    length (sCheckVariables w') = length (sCheckVariables w) /\
    (forall q, q <> l_pulSharedVariable l -> cells w' !! q = cells w !! q) /\
    (forall i : nat, i <> Z.to_nat (l_sCheckVariableToUse l) ->
                     sCheckVariables w' !! i = sCheckVariables w !! i).
Proof.
  intros Hr. destruct (Z.eq_dec (take_result env) pdPASS) as [Ht|Ht].
  - destruct (cycle_pass fuel env l w Hr Ht) as (s & v0 & Hs & Hv0 & ->).
    eexists _, _. split; [reflexivity|].
    split; [by destruct l|].
    destruct (advances env l v0); simpl;
      (repeat (split; [try rewrite length_bumped; reflexivity|]));
      (split; [intros q Hq; by apply loop_cells_other|]);
      intros i Hi; [by apply bumped_other|reflexivity].
  - destruct (cycle_skip fuel env l w Hr Ht) as (s & Hs & ->).
    eexists _, _. split; [reflexivity|].
    split; [apply set_sError_same|]. simpl. auto 12.
Qed.

Lemma healthy_ready fuel l w : healthy fuel l w -> ready fuel l w.
Proof. by intros [? _]. Qed.

(** [n] clean passes of a healthy task, with everything they leave alone. *)
Lemma clean_passes_frame fuel (n : nat) :
  forall l w v,
    healthy fuel l w ->
    sCheckVariables w !! Z.to_nat (l_sCheckVariableToUse l) = Some v ->
    wrap16 v = v ->
    exists w',
      run_cycles fuel (repeat clean n) l w = Ok l w' /\
      healthy fuel l w' /\
      sCheckVariables w' =
        <[Z.to_nat (l_sCheckVariableToUse l) := wrap16 (v + Z.of_nat n)]>
          (sCheckVariables w) /\
      params w' = params w /\
      sLastCheckVariables w' = sLastCheckVariables w /\
      (forall q, q <> l_pulSharedVariable l -> cells w' !! q = cells w !! q).
Proof.
  induction n as [|n IH]; intros l w v Hh Hv Hshort.
  - exists w. split; [reflexivity|]. split; [done|].
    split; [|done]. rewrite Z.add_0_r, Hshort. symmetry. by apply list_insert_id.
  - destruct Hh as (Hr & Hclr & Hcell & Hidx).
    destruct (clean_pass fuel clean l w v Hr Hclr Hcell eq_refl
                (clean_uninterfered l) ltac:(discriminate) Hidx Hv)
      as (w1 & Hrun1 & Hr1 & Hcell1 & Hcnt1).
    destruct (cycle_frame fuel clean l w Hr)
      as (l2 & w2 & Hrun2 & _ & Hpar & Hlast & _ & _ & _ & _ & _ & Hoth & _).
    rewrite Hrun1 in Hrun2. injection Hrun2 as <- <-.
    destruct (IH l w1 (wrap16 (v + 1))) as (w' & Hrun & Hh' & Hcnt' & Hpar' & Hlast' & Hoth').
    + split; [exact Hr1|]. split; [exact Hclr|]. split; [exact Hcell1|exact Hidx].
    + rewrite Hcnt1. apply list_lookup_insert_eq. by eapply lookup_lt_Some.
    + apply wrap16_idem.
    + exists w'. split.
      * unfold run_cycles in *. simpl. by rewrite (bind_ok _ _ _ _ _ Hrun1).
      * split; [done|]. split.
        -- rewrite Hcnt', Hcnt1, list_insert_insert_eq, wrap16_add. do 2 f_equal. lia.
        -- split; [congruence|]. split; [congruence|].
           intros q Hq. rewrite Hoth' by done. by apply Hoth.
Qed.

Lemma wrap16_shift_iff v n :
  wrap16 v = v -> (wrap16 (v + n) = v <-> n mod 65536 = 0).
Proof.
  unfold wrap16. intros Hv.
  assert (Hs : 0 <= v + 32768 < 65536).
  { pose proof (Z.mod_pos_bound (v + 32768) 65536 ltac:(lia)). lia. }
  replace (v + n + 32768) with (v + 32768 + n) by lia.
  split.
  - intros H.
    assert (H1 : (v + 32768 + n) mod 65536 = v + 32768) by lia.
    rewrite Z.add_mod in H1 by lia.
    rewrite (Z.mod_small (v + 32768)) in H1 by lia.
    pose proof (Z.mod_pos_bound n 65536 ltac:(lia)) as Hn.
    destruct (Z.lt_ge_cases (v + 32768 + n mod 65536) 65536) as [Hlt|Hge].
    + rewrite Z.mod_small in H1 by lia. lia.
    + replace (v + 32768 + n mod 65536)
        with ((v + 32768 + n mod 65536 - 65536) + 1 * 65536) in H1 by lia.
      rewrite Z.mod_add in H1 by lia.
      rewrite Z.mod_small in H1 by lia. lia.
  - intros H. rewrite Z.add_mod by lia. rewrite H, Z.add_0_r.
    rewrite Z.mod_mod by lia. rewrite Z.mod_small by lia. lia.
Qed.

Lemma healthy_after_other fuel l l2 w w1 :
  healthy fuel l w ->
  healthy fuel l2 w ->
  healthy fuel l w1 ->
  params w1 = params w ->
  length (sCheckVariables w1) = length (sCheckVariables w) ->
  (forall q, q <> l_pulSharedVariable l -> cells w1 !! q = cells w !! q) ->
  healthy fuel l2 w1.
Proof.
  intros (Hr & _ & Hcell & _) ((Hp2 & Hc2 & HE2 & Hf2 & Hi2 & Hlen2) & Hclr2 & Hcell2 & Hidx2)
         (_ & _ & Hcell1 & _) Hpar Hlen Hoth.
  assert (Hcell2' : cells w1 !! l_pulSharedVariable l2 = Some (l_ulExpectedValue l2)).
  { destruct (Z.eq_dec (l_pulSharedVariable l2) (l_pulSharedVariable l)) as [Heq|Hne].
    - rewrite Heq in *. congruence.
    - by rewrite Hoth. }
  split; [|by repeat split].
  split; [by rewrite Hpar|]. split; [by rewrite Hcell2'|].
  split; [done|]. split; [done|]. split; [done|]. congruence.
Qed.

(** Jobs of healthy tasks with different indices, one after the other. *)
Lemma run_jobs_spec fuel (jobs : list (Locals * nat)) :
  forall w,
    Forall (fun j => healthy fuel (fst j) w) jobs ->
    NoDup ((fun j => l_sCheckVariableToUse (fst j)) <$> jobs) ->
    Forall (fun v => wrap16 v = v) (sCheckVariables w) ->
    exists w',
      run_jobs fuel jobs w = Ok (fst <$> jobs) w' /\
      sLastCheckVariables w' = sLastCheckVariables w /\
      length (sCheckVariables w') = length (sCheckVariables w) /\
      (forall l n v,
          (l, n) ∈ jobs ->
          sCheckVariables w !! Z.to_nat (l_sCheckVariableToUse l) = Some v ->
          sCheckVariables w' !! Z.to_nat (l_sCheckVariableToUse l)
          = Some (wrap16 (v + Z.of_nat n))) /\
      (forall i : nat,
          (forall j, j ∈ jobs -> i <> Z.to_nat (l_sCheckVariableToUse (fst j))) ->
          sCheckVariables w' !! i = sCheckVariables w !! i).
Proof.
  induction jobs as [|[l n] jobs IH]; intros w Hh Hnd Hshort.
  - exists w. split; [reflexivity|]. split; [done|]. split; [done|].
    split; [|done]. intros l n v Hin. by apply elem_of_nil in Hin.
  - apply Forall_cons in Hh as [Hl Hjs]. simpl in Hl.
    rewrite fmap_cons in Hnd. apply NoDup_cons in Hnd as [Hnotin Hnd].
    simpl in Hnotin.
    pose proof Hl as ((_ & _ & _ & _ & Hidx0 & Hlen) & _ & _ & Hidx4).
    unfold semtstNUM_TASKS in Hidx4.
    destruct (lookup_lt_is_Some_2 (sCheckVariables w)
                (Z.to_nat (l_sCheckVariableToUse l))) as [v Hv]; [lia|].
    destruct (clean_passes_frame fuel n l w v Hl Hv)
      as (w1 & Hrun1 & Hl1 & Hcnt1 & Hpar1 & Hlast1 & Hoth1).
    { by eapply (proj1 (Forall_lookup _ _) Hshort). }
    assert (Hlen1 : length (sCheckVariables w1) = length (sCheckVariables w))
      by (by rewrite Hcnt1, length_insert).
    destruct (IH w1) as (w' & Hrun & Hlast & Hlen' & Hin & Hout).
    { eapply Forall_impl; [exact Hjs|]. intros j Hj.
      by eapply (healthy_after_other fuel l (fst j) w w1). }
    { exact Hnd. }
    { rewrite Hcnt1. apply Forall_insert; [done|]. apply wrap16_idem. }
    assert (Hfresh : forall j, j ∈ jobs ->
              Z.to_nat (l_sCheckVariableToUse l) <> Z.to_nat (l_sCheckVariableToUse (fst j))).
    { intros j Hj Heq. apply Hnotin.
      apply list_elem_of_fmap. exists j. split; [|done].
      rewrite Forall_forall in Hjs.
      destruct (Hjs j Hj) as ((_ & _ & _ & _ & Hj0 & _) & _). lia. }
    exists w'. split.
    { simpl. rewrite (bind_ok _ _ _ _ _ Hrun1), (bind_ok _ _ _ _ _ Hrun). reflexivity. }
    split; [congruence|]. split; [congruence|]. split.
    + intros l' n' v' Hin' Hv'. apply elem_of_cons in Hin' as [Heq|Hin'].
      * injection Heq as -> ->.
        rewrite (Hout _ Hfresh), Hcnt1.
        rewrite list_lookup_insert_eq by (by eapply lookup_lt_Some).
        congruence.
      * apply (Hin l' n' v' Hin').
        rewrite Hcnt1, list_lookup_insert_ne; [done|].
        apply (Hfresh (l', n') Hin').
    + intros i Hi. rewrite Hout.
      * rewrite Hcnt1. apply list_lookup_insert_ne.
        intros Heq. apply (Hi (l, n)); [by left|]. by simpl.
      * intros j Hj. apply Hi. by right.
Qed.

(** X6.  Healthy tasks holding the indices 0 to 3 take turns, each for some
    number of passes in which nothing goes wrong, starting right after a
    liveness check.  The next check then returns pdTRUE if no task's number
    of passes is a multiple of 2^16 (zero included) and pdFALSE otherwise: a
    task that made exactly 65536 passes is taken for a stalled one. *)
Theorem check_after_turns
        (fuel : nat) (jobs : list (Locals * nat)) (w : World) :
  Forall (fun j => healthy fuel (fst j) w) jobs ->
  (fun j => l_sCheckVariableToUse (fst j)) <$> jobs ≡ₚ seqZ 0 semtstNUM_TASKS ->
  sLastCheckVariables w = sCheckVariables w ->
  Forall (fun v => wrap16 v = v) (sCheckVariables w) ->
  exists w1 w2,
    run_jobs fuel jobs w = Ok (fst <$> jobs) w1 /\
    xAreSemaphoreTasksStillRunning w1 =
      Ok (if all_moved jobs then pdTRUE else pdFALSE) w2.
Proof.
  intros Hh Hperm Hsnap Hshort.
  assert (Hnd : NoDup ((fun j => l_sCheckVariableToUse (fst j)) <$> jobs)).
  { rewrite Hperm. apply NoDup_seqZ. }
  destruct (run_jobs_spec fuel jobs w Hh Hnd Hshort)
    as (w1 & Hrun & Hlast & Hlen & Hin & _).
  assert (Hlen4 : length (sCheckVariables w) = 4%nat).
  { destruct jobs as [|j jobs].
    - apply Permutation_length in Hperm. discriminate.
    - apply Forall_cons in Hh as [((_ & _ & _ & _ & _ & H4) & _) _]. exact H4. }
  exists w1. rewrite still_running_closed by congruence.
  eexists. split; [exact Hrun|]. f_equal.
  assert (Hiff : all_changed w1 = all_moved jobs).
  { apply eq_true_iff_eq. rewrite all_changed_true. unfold all_moved.
    rewrite forallb_forall. split.
    - intros Hall j Hj. apply list_elem_of_In in Hj.
      destruct j as [l n]. simpl.
      rewrite Forall_forall in Hh.
      pose proof (Hh _ Hj) as ((_ & _ & _ & _ & Hi0 & _) & _ & _ & Hi4).
      simpl in Hi0, Hi4.
      destruct (lookup_lt_is_Some_2 (sCheckVariables w)
                  (Z.to_nat (l_sCheckVariableToUse l))) as [v Hv];
        [unfold semtstNUM_TASKS in Hi4; lia|].
      specialize (Hall (l_sCheckVariableToUse l) ltac:(lia)).
      rewrite (Hin l n v Hj Hv), Hlast, Hsnap, Hv in Hall.
      apply negb_true_iff, Z.eqb_neq. intros Hz.
      apply Hall. f_equal. apply wrap16_shift_iff; [|done].
      by eapply (proj1 (Forall_lookup _ _) Hshort).
    - intros Hall i Hi.
      assert (Hi' : i ∈ (fun j => l_sCheckVariableToUse (fst j)) <$> jobs).
      { rewrite Hperm. apply elem_of_seqZ. lia. }
      apply list_elem_of_fmap in Hi' as ([l n] & -> & Hj). simpl in *.
      destruct (lookup_lt_is_Some_2 (sCheckVariables w)
                  (Z.to_nat (l_sCheckVariableToUse l))) as [v Hv];
        [unfold semtstNUM_TASKS in Hi; lia|].
      rewrite (Hin l n v Hj Hv), Hlast, Hsnap, Hv.
      intros [= Heq].
      apply list_elem_of_In in Hj. specialize (Hall _ Hj). simpl in Hall.
      apply negb_true_iff, Z.eqb_neq in Hall. apply Hall.
      apply (wrap16_shift_iff v); [|done].
      by eapply (proj1 (Forall_lookup _ _) Hshort). }
  by rewrite Hiff.
Qed.

Lemma four_jobs_healthy :
  Forall (fun j => healthy 5000 (fst j) (snd four_started)) four_jobs.
Proof.
  assert (Hj : four_jobs =
               [(mkLocals 1 3 255 0 0, 3%nat); (mkLocals 1 3 255 0 1, 1%nat);
                (mkLocals 4 6 4095 0 2, 2%nat); (mkLocals 4 6 4095 0 3, 5%nat)])
    by (vm_compute; reflexivity).
  rewrite Hj.
  repeat apply Forall_cons_2; try apply Forall_nil_2;
    (split; [split; [|split; [|split; [|split; [|split]]]]|split; [|split]]);
    cbn [fst l_pxParameters l_pulSharedVariable l_ulExpectedValue l_sError
         l_sCheckVariableToUse];
    first [ apply Nat.ltb_lt; vm_compute; reflexivity
          | vm_compute; eauto; fail
          | vm_compute; reflexivity
          | vm_compute; split; [discriminate|reflexivity]
          | vm_compute; discriminate ].
Qed.

Lemma check_after_turns_witness :
  exists w1 w2,
    run_jobs 5000 four_jobs (snd four_started) = Ok (fst <$> four_jobs) w1 /\
    xAreSemaphoreTasksStillRunning w1 =
      Ok (if all_moved four_jobs then pdTRUE else pdFALSE) w2.
Proof.
  apply (check_after_turns 5000 four_jobs (snd four_started)).
  - apply four_jobs_healthy.
  - vm_compute. reflexivity.
  - vm_compute. reflexivity.
  - replace (sCheckVariables (snd four_started)) with [0; 0; 0; 0]
      by (vm_compute; reflexivity).
    repeat apply Forall_cons_2; try apply Forall_nil_2; reflexivity.
Defined.

(* ===================================================================== *)
(** ** vStartSemaphoreTasks when allocations fail *)
(* ===================================================================== *)

Lemma xTaskCreate_outcome name depth pv prio w (b : bool) o :
  oracle w = b :: o ->
  xTaskCreate name depth pv prio w =
  Ok tt (if b then set_tasks (tasks w ++ [mkTask name depth pv prio]) (set_oracle o w)
         else set_oracle o w).
Proof.
  intros Horc. unfold xTaskCreate, bind, gets, modify, ret, next_outcome.
  rewrite Horc. by destruct b.
Qed.

(** The polling pair with its three objects allocated, whatever becomes of
    the two task creations. *)
Lemma start_polling_pair_outcomes (stack : Z) (w : World) (b1 b2 : bool) (o : list bool) :
  0 < brk w ->
  oracle w = true :: true :: true :: b1 :: b2 :: o ->
  start_polling_pair stack w =
  Ok tt (mkWorld (sCheckVariables w) (sNextCheckVariable w) (sLastCheckVariables w)
           (<[brk w := mkParams (brk w + 1) (brk w + 2) 0]> (params w))
           (<[brk w + 2 := semtstNON_BLOCKING_EXPECTED_VALUE]> (cells w))
           (<[brk w + 1 := true]> (sems w))
           (brk w + 3) o
           (tasks w ++
            (if b1 then [mkTask "PolSEM1" stack (brk w) tskIDLE_PRIORITY] else []) ++
            (if b2 then [mkTask "PolSEM2" stack (brk w) tskIDLE_PRIORITY] else []))
           (trace w ++ [EvStore (brk w + 2) semtstNON_BLOCKING_EXPECTED_VALUE])
           (stale_params w) (stale_cells w)).
Proof.
  intros Hbrk Horc. unfold start_polling_pair.
  rewrite (bind_ok _ _ _ _ _ (pvPortMalloc_granted TParams w _ Horc)).
  rewrite nonnull by done.
  erewrite bind_ok
    by (eapply vSemaphoreCreateBinary_granted; [reflexivity|apply lookup_insert_eq]).
  erewrite bind_ok by (apply load_params_ok; apply lookup_insert_eq).
  wsimpl. rewrite nonnull by lia.
  erewrite bind_ok by (eapply pvPortMalloc_granted; reflexivity).
  erewrite bind_ok by (eapply store_params_ok; apply lookup_insert_eq).
  erewrite bind_ok by (apply load_params_ok; apply lookup_insert_eq).
  wsimpl.
  erewrite bind_ok by (apply store_ulong_plain; wsimpl; rewrite lookup_insert_eq; eauto).
  erewrite bind_ok by (eapply store_params_ok; apply lookup_insert_eq).
  erewrite bind_ok by (eapply xTaskCreate_outcome; reflexivity).
  erewrite xTaskCreate_outcome by (destruct b1; reflexivity).
  f_equal. unfold semtstSTACK_SIZE.
  destruct b1, b2; wsimpl;
    rewrite !insert_insert_eq, <- ?app_assoc, ?app_nil_r;
    replace (brk w + 1 + 1) with (brk w + 2) by lia;
    replace (brk w + 2 + 1) with (brk w + 3) by lia;
    reflexivity.
Qed.

Lemma start_blocking_pair_outcomes (tick stack prio : Z) (w : World)
      (b1 b2 : bool) (o : list bool) :
  0 < brk w ->
  tick <> 0 ->
  oracle w = true :: true :: true :: b1 :: b2 :: o ->
  start_blocking_pair tick stack prio w =
  Ok tt (mkWorld (sCheckVariables w) (sNextCheckVariable w) (sLastCheckVariables w)
           (<[brk w := mkParams (brk w + 1) (brk w + 2) (100 / tick)]> (params w))
           (<[brk w + 2 := semtstBLOCKING_EXPECTED_VALUE]> (cells w))
           (<[brk w + 1 := true]> (sems w))
           (brk w + 3) o
           (tasks w ++
            (if b1 then [mkTask "BlkSEM1" stack (brk w) prio] else []) ++
            (if b2 then [mkTask "BlkSEM2" stack (brk w) prio] else []))
           (trace w ++ [EvStore (brk w + 2) semtstBLOCKING_EXPECTED_VALUE])
           (stale_params w) (stale_cells w)).
Proof.
  intros Hbrk Htick Horc. unfold start_blocking_pair.
  rewrite (bind_ok _ _ _ _ _ (pvPortMalloc_granted TParams w _ Horc)).
  rewrite nonnull by done.
  erewrite bind_ok
    by (eapply vSemaphoreCreateBinary_granted; [reflexivity|apply lookup_insert_eq]).
  erewrite bind_ok by (apply load_params_ok; apply lookup_insert_eq).
  wsimpl. rewrite nonnull by lia.
  erewrite bind_ok by (eapply pvPortMalloc_granted; reflexivity).
  erewrite bind_ok by (eapply store_params_ok; apply lookup_insert_eq).
  erewrite bind_ok by (apply load_params_ok; apply lookup_insert_eq).
  wsimpl.
  erewrite bind_ok by (apply store_ulong_plain; wsimpl; rewrite lookup_insert_eq; eauto).
  unfold tick_div. apply Z.eqb_neq in Htick. rewrite Htick.
  unfold bind at 1, ret at 1.
  erewrite bind_ok by (eapply store_params_ok; apply lookup_insert_eq).
  erewrite bind_ok by (eapply xTaskCreate_outcome; reflexivity).
  erewrite xTaskCreate_outcome by (destruct b1; reflexivity).
  f_equal. unfold semtstSTACK_SIZE.
  destruct b1, b2; wsimpl;
    rewrite !insert_insert_eq, <- ?app_assoc, ?app_nil_r;
    replace (brk w + 1 + 1) with (brk w + 2) by lia;
    replace (brk w + 2 + 1) with (brk w + 3) by lia;
    reflexivity.
Qed.

Lemma start_blocking_pair_no_block (tick stack prio : Z) (w : World) (o : list bool) :
  oracle w = false :: o ->
  start_blocking_pair tick stack prio w = Ok tt (set_oracle o w).
Proof.
  intros Horc. unfold start_blocking_pair.
  by rewrite (bind_ok _ _ _ _ _ (pvPortMalloc_refused TParams w _ Horc)).
Qed.

(** X7.  The two pairs are started independently.  When the parameter block
    of one pair cannot be allocated, that pair is skipped without a fault
    and the other pair is started as usual, on the addresses the skipped
    pair would have got. *)
Theorem one_pair_refused_other_started
        (portTICK_PERIOD_MS configMINIMAL_STACK_SIZE uxPriority : Z)
        (w : World) (polling_refused : bool) (rest : list bool) :
  0 < brk w ->
  portTICK_PERIOD_MS <> 0 ->
  oracle w = (if polling_refused then false :: repeat true 5
              else repeat true 5 ++ [false]) ++ rest ->
  exists w',
    vStartSemaphoreTasks portTICK_PERIOD_MS configMINIMAL_STACK_SIZE uxPriority w
      = Ok tt w' /\
    tasks w' =
      tasks w ++
      (if polling_refused
       then [mkTask "BlkSEM1" configMINIMAL_STACK_SIZE (brk w) uxPriority;
             mkTask "BlkSEM2" configMINIMAL_STACK_SIZE (brk w) uxPriority]
       else [mkTask "PolSEM1" configMINIMAL_STACK_SIZE (brk w) tskIDLE_PRIORITY;
             mkTask "PolSEM2" configMINIMAL_STACK_SIZE (brk w) tskIDLE_PRIORITY]) /\
    params w' !! brk w =
      Some (mkParams (brk w + 1) (brk w + 2)
                     (if polling_refused then 100 / portTICK_PERIOD_MS else 0)) /\
    cells w' !! (brk w + 2) =
      Some (if polling_refused then semtstBLOCKING_EXPECTED_VALUE
            else semtstNON_BLOCKING_EXPECTED_VALUE) /\
    sems w' !! (brk w + 1) = Some true /\
    oracle w' = rest.
Proof.
  intros Hbrk Htick Horc. unfold vStartSemaphoreTasks.
  destruct polling_refused; simpl in Horc.
  - rewrite (bind_ok _ _ _ _ _ (start_polling_pair_no_block _ w _ Horc)).
    rewrite (start_blocking_pair_outcomes _ _ _ _ true true rest);
      [|exact Hbrk|exact Htick|reflexivity].
    eexists. split; [reflexivity|]. wsimpl.
    split; [reflexivity|]. split; [apply lookup_insert_eq|].
    split; [apply lookup_insert_eq|]. split; [apply lookup_insert_eq|reflexivity].
  - rewrite (bind_ok _ _ _ _ _ (start_polling_pair_outcomes _ w true true _ Hbrk Horc)).
    rewrite (start_blocking_pair_no_block _ _ _ _ rest) by reflexivity.
    eexists. split; [reflexivity|]. wsimpl.
    split; [reflexivity|]. split; [apply lookup_insert_eq|].
    split; [apply lookup_insert_eq|]. split; [apply lookup_insert_eq|reflexivity].
Qed.

Lemma one_pair_refused_other_started_witness :
  exists w',
    vStartSemaphoreTasks 1 128 2 (boot (false :: repeat true 5 ++ [])) = Ok tt w' /\
    tasks w' = [] ++ [mkTask "BlkSEM1" 128 1 2; mkTask "BlkSEM2" 128 1 2] /\
    params w' !! 1 = Some (mkParams (1 + 1) (1 + 2) (100 / 1)) /\
    cells w' !! (1 + 2) = Some semtstBLOCKING_EXPECTED_VALUE /\
    sems w' !! (1 + 1) = Some true /\
    oracle w' = [].
Proof.
  apply (one_pair_refused_other_started 1 128 2
           (boot (false :: repeat true 5 ++ [])) true []).
  - reflexivity.
  - discriminate.
  - reflexivity.
Defined.

Lemma start_polling_pair_semaphore_refused (stack : Z) (w : World) (o : list bool) :
  0 < brk w ->
  oracle w = true :: false :: o ->
  start_polling_pair stack w =
  Ok tt (set_params (<[brk w := mkParams NULL
                                  (pulSharedVariable (stale_params w (brk w)))
                                  (xBlockTime (stale_params w (brk w)))]> (params w))
           (set_brk (brk w + 1) (set_oracle o w))).
Proof.
  intros Hbrk Horc. unfold start_polling_pair.
  rewrite (bind_ok _ _ _ _ _ (pvPortMalloc_granted TParams w _ Horc)).
  rewrite nonnull by done.
  erewrite bind_ok
    by (eapply vSemaphoreCreateBinary_refused; [reflexivity|apply lookup_insert_eq]).
  erewrite bind_ok by (apply load_params_ok; apply lookup_insert_eq).
  wsimpl. change (negb (NULL =? NULL)) with false. cbv iota.
  unfold ret. f_equal. wsimpl. by rewrite insert_insert_eq.
Qed.

(** X8.  When the semaphore of the polling pair cannot be created, the pair
    is skipped without a fault, but its parameter block is never given back:
    it stays on the heap with a NULL semaphore handle, its other two fields
    never written and holding what the memory held before, and the blocking
    pair is started behind it. *)
Theorem refused_semaphore_leaves_block
        (portTICK_PERIOD_MS configMINIMAL_STACK_SIZE uxPriority : Z)
        (w : World) (rest : list bool) :
  0 < brk w ->
  portTICK_PERIOD_MS <> 0 ->
  oracle w = true :: false :: repeat true 5 ++ rest ->
  exists w' s,
    vStartSemaphoreTasks portTICK_PERIOD_MS configMINIMAL_STACK_SIZE uxPriority w
      = Ok tt w' /\
    params w' !! brk w = Some s /\
    xSemaphore s = NULL /\
    pulSharedVariable s = pulSharedVariable (stale_params w (brk w)) /\
    xBlockTime s = xBlockTime (stale_params w (brk w)) /\
    tasks w' =
      tasks w ++
      [mkTask "BlkSEM1" configMINIMAL_STACK_SIZE (brk w + 1) uxPriority;
       mkTask "BlkSEM2" configMINIMAL_STACK_SIZE (brk w + 1) uxPriority] /\
    brk w' = brk w + 4.
Proof.
  intros Hbrk Htick Horc. unfold vStartSemaphoreTasks. simpl in Horc.
  rewrite (bind_ok _ _ _ _ _ (start_polling_pair_semaphore_refused _ w _ Hbrk Horc)).
  rewrite (start_blocking_pair_outcomes _ _ _ _ true true rest);
    [|wsimpl; lia|exact Htick|reflexivity].
  eexists _, _. split; [reflexivity|]. wsimpl.
  split; [rewrite lookup_insert_ne by lia; apply lookup_insert_eq|].
  split; [reflexivity|]. split; [reflexivity|]. split; [reflexivity|].
  split; [reflexivity|]. lia.
Qed.

Lemma refused_semaphore_leaves_block_witness :
  exists w' s,
    vStartSemaphoreTasks 1 128 2 (boot_used (true :: false :: repeat true 5 ++ []))
      = Ok tt w' /\
    params w' !! 1 = Some s /\
    xSemaphore s = NULL /\
    pulSharedVariable s = 0xbeef /\
    xBlockTime s = 0xcafe /\
    tasks w' = [] ++ [mkTask "BlkSEM1" 128 (1 + 1) 2; mkTask "BlkSEM2" 128 (1 + 1) 2] /\
    brk w' = 1 + 4.
Proof.
  apply (refused_semaphore_leaves_block 1 128 2
           (boot_used (true :: false :: repeat true 5 ++ [])) []).
  - reflexivity.
  - discriminate.
  - reflexivity.
Defined.

(** X9.  The result of xTaskCreate is never looked at.  With the three
    objects of each pair allocated, vStartSemaphoreTasks returns normally
    whichever of the four task creations fail, and the scheduler gets
    exactly the tasks whose creation succeeded: a pair can be left with one
    task, or with none and its cell and semaphore allocated for nothing. *)
Theorem task_creation_failures_ignored
        (portTICK_PERIOD_MS configMINIMAL_STACK_SIZE uxPriority : Z)
        (w : World) (b1 b2 b3 b4 : bool) (rest : list bool) :
  0 < brk w ->
  portTICK_PERIOD_MS <> 0 ->
  oracle w = [true; true; true; b1; b2; true; true; true; b3; b4] ++ rest ->
  exists w',
    vStartSemaphoreTasks portTICK_PERIOD_MS configMINIMAL_STACK_SIZE uxPriority w
      = Ok tt w' /\
    tasks w' =
      tasks w ++
      (if b1 then [mkTask "PolSEM1" configMINIMAL_STACK_SIZE (brk w) tskIDLE_PRIORITY]
       else []) ++
      (if b2 then [mkTask "PolSEM2" configMINIMAL_STACK_SIZE (brk w) tskIDLE_PRIORITY]
       else []) ++
      (if b3 then [mkTask "BlkSEM1" configMINIMAL_STACK_SIZE (brk w + 3) uxPriority]
       else []) ++
      (if b4 then [mkTask "BlkSEM2" configMINIMAL_STACK_SIZE (brk w + 3) uxPriority]
       else []) /\
    cells w' !! (brk w + 2) = Some semtstNON_BLOCKING_EXPECTED_VALUE /\
    cells w' !! (brk w + 5) = Some semtstBLOCKING_EXPECTED_VALUE /\
    sems w' !! (brk w + 1) = Some true /\
    sems w' !! (brk w + 4) = Some true.
Proof.
  intros Hbrk Htick Horc. unfold vStartSemaphoreTasks. simpl in Horc.
  rewrite (bind_ok _ _ _ _ _ (start_polling_pair_outcomes _ w b1 b2 _ Hbrk Horc)).
  rewrite (start_blocking_pair_outcomes _ _ _ _ b3 b4 rest);
    [|wsimpl; lia|exact Htick|reflexivity].
  eexists. split; [reflexivity|]. wsimpl.
  replace (brk w + 3 + 1) with (brk w + 4) by lia.
  replace (brk w + 3 + 2) with (brk w + 5) by lia.
  split; [by rewrite <- !app_assoc|].
  split; [rewrite lookup_insert_ne by lia; apply lookup_insert_eq|].
  split; [apply lookup_insert_eq|].
  split; [rewrite lookup_insert_ne by lia; apply lookup_insert_eq|].
  apply lookup_insert_eq.
Qed.

Lemma task_creation_failures_ignored_witness :
  exists w',
    vStartSemaphoreTasks 1 128 2
      (boot ([true; true; true; false; true; true; true; true; false; false] ++ []))
      = Ok tt w' /\
    tasks w' =
      [] ++ [] ++ [mkTask "PolSEM2" 128 1 tskIDLE_PRIORITY] ++ [] ++ [] /\
    cells w' !! (1 + 2) = Some semtstNON_BLOCKING_EXPECTED_VALUE /\
    cells w' !! (1 + 5) = Some semtstBLOCKING_EXPECTED_VALUE /\
    sems w' !! (1 + 1) = Some true /\
    sems w' !! (1 + 4) = Some true.
Proof.
  apply (task_creation_failures_ignored 1 128 2
           (boot ([true; true; true; false; true; true; true; true; false; false] ++ []))
           false true false false []).
  - reflexivity.
  - discriminate.
  - reflexivity.
Defined.

Lemma start_polling_pair_null_cell (stack : Z) (w : World) (o : list bool) :
  0 < brk w ->
  cells w !! NULL = None ->
  oracle w = true :: true :: false :: o ->
  start_polling_pair stack w =
  Fault (BadPointer NULL)
        (mkWorld (sCheckVariables w) (sNextCheckVariable w) (sLastCheckVariables w)
           (<[brk w := mkParams (brk w + 1) NULL
                         (xBlockTime (stale_params w (brk w)))]> (params w))
           (cells w)
           (<[brk w + 1 := true]> (sems w))
           (brk w + 2) o (tasks w) (trace w)
           (stale_params w) (stale_cells w)).
Proof.
  intros Hbrk Hnull Horc. unfold start_polling_pair.
  rewrite (bind_ok _ _ _ _ _ (pvPortMalloc_granted TParams w _ Horc)).
  rewrite nonnull by done.
  erewrite bind_ok
    by (eapply vSemaphoreCreateBinary_granted; [reflexivity|apply lookup_insert_eq]).
  erewrite bind_ok by (apply load_params_ok; apply lookup_insert_eq).
  wsimpl. rewrite nonnull by lia.
  erewrite bind_ok by (eapply pvPortMalloc_refused; reflexivity).
  erewrite bind_ok by (eapply store_params_ok; apply lookup_insert_eq).
  erewrite bind_ok by (apply load_params_ok; apply lookup_insert_eq).
  wsimpl. apply bind_fault. unfold store_ulong. wsimpl. rewrite Hnull.
  f_equal. wsimpl. rewrite !insert_insert_eq.
  replace (brk w + 1 + 1) with (brk w + 2) by lia. reflexivity.
Qed.

Lemma start_blocking_pair_null_cell (tick stack prio : Z) (w : World) (o : list bool) :
  0 < brk w ->
  cells w !! NULL = None ->
  oracle w = true :: true :: false :: o ->
  start_blocking_pair tick stack prio w =
  Fault (BadPointer NULL)
        (mkWorld (sCheckVariables w) (sNextCheckVariable w) (sLastCheckVariables w)
           (<[brk w := mkParams (brk w + 1) NULL
                         (xBlockTime (stale_params w (brk w)))]> (params w))
           (cells w)
           (<[brk w + 1 := true]> (sems w))
           (brk w + 2) o (tasks w) (trace w)
           (stale_params w) (stale_cells w)).
Proof.
  intros Hbrk Hnull Horc. unfold start_blocking_pair.
  rewrite (bind_ok _ _ _ _ _ (pvPortMalloc_granted TParams w _ Horc)).
  rewrite nonnull by done.
  erewrite bind_ok
    by (eapply vSemaphoreCreateBinary_granted; [reflexivity|apply lookup_insert_eq]).
  erewrite bind_ok by (apply load_params_ok; apply lookup_insert_eq).
  wsimpl. rewrite nonnull by lia.
  erewrite bind_ok by (eapply pvPortMalloc_refused; reflexivity).
  erewrite bind_ok by (eapply store_params_ok; apply lookup_insert_eq).
  erewrite bind_ok by (apply load_params_ok; apply lookup_insert_eq).
  wsimpl. apply bind_fault. unfold store_ulong. wsimpl. rewrite Hnull.
  f_equal. wsimpl. rewrite !insert_insert_eq.
  replace (brk w + 1 + 1) with (brk w + 2) by lia. reflexivity.
Qed.

(** X10.  In either half of vStartSemaphoreTasks, a shared variable that
    cannot be allocated after its parameter block and semaphore were is
    written through NULL: from any state with nothing mapped at address 0,
    the call faults there.  At the fault the half's parameter block holds
    the handle of its semaphore and the NULL pointer, and no task of that
    half exists; in the blocking half the polling pair has by then been
    created in full, its two tasks included. *)
Theorem unchecked_cell_allocation_faults
        (portTICK_PERIOD_MS configMINIMAL_STACK_SIZE uxPriority : Z)
        (w : World) (in_blocking_half : bool) (rest : list bool) :
  0 < brk w ->
  cells w !! NULL = None ->
  oracle w = (if in_blocking_half then repeat true 5 else []) ++
             [true; true; false] ++ rest ->
  exists w' s,
    vStartSemaphoreTasks portTICK_PERIOD_MS configMINIMAL_STACK_SIZE uxPriority w
      = Fault (BadPointer NULL) w' /\
    params w' !! (if in_blocking_half then brk w + 3 else brk w) = Some s /\
    xSemaphore s = (if in_blocking_half then brk w + 4 else brk w + 1) /\
    sems w' !! xSemaphore s = Some true /\
    pulSharedVariable s = NULL /\
    cells w' !! NULL = None /\
    oracle w' = rest /\
    tasks w' =
      tasks w ++
      (if in_blocking_half
       then [mkTask "PolSEM1" configMINIMAL_STACK_SIZE (brk w) tskIDLE_PRIORITY;
             mkTask "PolSEM2" configMINIMAL_STACK_SIZE (brk w) tskIDLE_PRIORITY]
       else []) /\
    trace w' =
      trace w ++
      (if in_blocking_half
       then [EvStore (brk w + 2) semtstNON_BLOCKING_EXPECTED_VALUE]
       else []) /\
    (in_blocking_half = true ->
     params w' !! brk w = Some (mkParams (brk w + 1) (brk w + 2) 0) /\
     cells w' !! (brk w + 2) = Some semtstNON_BLOCKING_EXPECTED_VALUE /\
     sems w' !! (brk w + 1) = Some true).
Proof.
  intros Hbrk Hnull Horc. unfold vStartSemaphoreTasks.
  destruct in_blocking_half; simpl in Horc.
  - rewrite (bind_ok _ _ _ _ _
               (start_polling_pair_outcomes _ w true true _ Hbrk Horc)).
    rewrite (start_blocking_pair_null_cell _ _ _ _ rest);
      [|wsimpl; lia
       |wsimpl; rewrite lookup_insert_ne by (unfold NULL; lia); exact Hnull
       |reflexivity].
    eexists _, _. split; [reflexivity|]. wsimpl.
    replace (brk w + 3 + 1) with (brk w + 4) by lia.
    split; [apply lookup_insert_eq|]. wsimpl.
    split; [reflexivity|].
    split; [apply lookup_insert_eq|].
    split; [reflexivity|].
    split; [rewrite lookup_insert_ne by (unfold NULL; lia); exact Hnull|].
    split; [reflexivity|].
    split; [reflexivity|].
    split; [reflexivity|].
    intros _.
    split; [rewrite lookup_insert_ne by lia; apply lookup_insert_eq|].
    split; [apply lookup_insert_eq|].
    rewrite lookup_insert_ne by lia. apply lookup_insert_eq.
  - rewrite (bind_fault _ _ _ _ _ (start_polling_pair_null_cell _ _ rest Hbrk Hnull Horc)).
    eexists _, _. split; [reflexivity|]. wsimpl.
    split; [apply lookup_insert_eq|]. wsimpl.
    split; [reflexivity|].
    split; [apply lookup_insert_eq|].
    split; [reflexivity|].
    split; [exact Hnull|].
    split; [reflexivity|].
    split; [by rewrite app_nil_r|].
    split; [by rewrite app_nil_r|].
    discriminate.
Qed.

Lemma unchecked_cell_allocation_faults_witness :
  exists w' s,
    vStartSemaphoreTasks 1 128 2
      (boot (repeat true 5 ++ [true; true; false] ++ [])) = Fault (BadPointer NULL) w' /\
    params w' !! (1 + 3) = Some s /\
    xSemaphore s = 1 + 4 /\
    sems w' !! xSemaphore s = Some true /\
    pulSharedVariable s = NULL /\
    cells w' !! NULL = None /\
    oracle w' = [] /\
    tasks w' =
      [] ++ [mkTask "PolSEM1" 128 1 tskIDLE_PRIORITY;
             mkTask "PolSEM2" 128 1 tskIDLE_PRIORITY] /\
    trace w' = [] ++ [EvStore (1 + 2) semtstNON_BLOCKING_EXPECTED_VALUE] /\
    (true = true ->
     params w' !! 1 = Some (mkParams (1 + 1) (1 + 2) 0) /\
     cells w' !! (1 + 2) = Some semtstNON_BLOCKING_EXPECTED_VALUE /\
     sems w' !! (1 + 1) = Some true).
Proof.
  apply (unchecked_cell_allocation_faults 1 128 2
           (boot (repeat true 5 ++ [true; true; false] ++ [])) true []).
  - reflexivity.
  - reflexivity.
  - reflexivity.
Defined.

(** X11.  The block time of the blocking pair is 100 / portTICK_PERIOD_MS.
    With a tick period of 0 the call creates the polling pair, allocates
    the three objects of the blocking pair, initialises its shared variable
    and then divides by zero: at the fault the two polling tasks exist, the
    blocking pair's block, semaphore and cell are in place, and no blocking
    task has been created. *)
Theorem zero_tick_period_divides_by_zero
        (configMINIMAL_STACK_SIZE uxPriority : Z) (w : World) (rest : list bool) :
  0 < brk w ->
  oracle w = repeat true 8 ++ rest ->
  exists w' s,
    vStartSemaphoreTasks 0 configMINIMAL_STACK_SIZE uxPriority w = Fault DivByZero w' /\
    tasks w' =
      tasks w ++
      [mkTask "PolSEM1" configMINIMAL_STACK_SIZE (brk w) tskIDLE_PRIORITY;
       mkTask "PolSEM2" configMINIMAL_STACK_SIZE (brk w) tskIDLE_PRIORITY] /\
    params w' !! brk w = Some (mkParams (brk w + 1) (brk w + 2) 0) /\
    params w' !! (brk w + 3) = Some s /\
    xSemaphore s = brk w + 4 /\
    pulSharedVariable s = brk w + 5 /\
    sems w' !! (brk w + 4) = Some true /\
    cells w' !! (brk w + 5) = Some semtstBLOCKING_EXPECTED_VALUE /\
    trace w' =
      trace w ++ [EvStore (brk w + 2) semtstNON_BLOCKING_EXPECTED_VALUE;
                  EvStore (brk w + 5) semtstBLOCKING_EXPECTED_VALUE] /\
    oracle w' = rest.
Proof.
  intros Hbrk Horc. unfold vStartSemaphoreTasks. simpl in Horc.
  rewrite (bind_ok _ _ _ _ _
             (start_polling_pair_outcomes _ w true true _ Hbrk Horc)).
  unfold start_blocking_pair.
  erewrite bind_ok by (eapply pvPortMalloc_granted; reflexivity).
  wsimpl. rewrite nonnull by lia.
  erewrite bind_ok
    by (eapply vSemaphoreCreateBinary_granted; [reflexivity|apply lookup_insert_eq]).
  erewrite bind_ok by (apply load_params_ok; apply lookup_insert_eq).
  wsimpl. rewrite nonnull by lia.
  erewrite bind_ok by (eapply pvPortMalloc_granted; reflexivity).
  erewrite bind_ok by (eapply store_params_ok; apply lookup_insert_eq).
  erewrite bind_ok by (apply load_params_ok; apply lookup_insert_eq).
  wsimpl.
  erewrite bind_ok by (apply store_ulong_plain; wsimpl; rewrite lookup_insert_eq; eauto).
  eexists _, _. split; [reflexivity|]. wsimpl.
  replace (brk w + 3 + 1) with (brk w + 4) by lia.
  replace (brk w + 4 + 1) with (brk w + 5) by lia.
  split; [reflexivity|].
  split; [rewrite !lookup_insert_ne by lia; apply lookup_insert_eq|].
  split; [apply lookup_insert_eq|]. wsimpl.
  split; [reflexivity|]. split; [lia|].
  split; [apply lookup_insert_eq|].
  split; [apply lookup_insert_eq|].
  split; [by rewrite <- app_assoc|].
  reflexivity.
Qed.

Lemma zero_tick_period_divides_by_zero_witness :
  exists w' s,
    vStartSemaphoreTasks 0 128 2 (boot (repeat true 8 ++ [])) = Fault DivByZero w' /\
    tasks w' =
      [] ++ [mkTask "PolSEM1" 128 1 tskIDLE_PRIORITY;
             mkTask "PolSEM2" 128 1 tskIDLE_PRIORITY] /\
    params w' !! 1 = Some (mkParams (1 + 1) (1 + 2) 0) /\
    params w' !! (1 + 3) = Some s /\
    xSemaphore s = 1 + 4 /\
    pulSharedVariable s = 1 + 5 /\
    sems w' !! (1 + 4) = Some true /\
    cells w' !! (1 + 5) = Some semtstBLOCKING_EXPECTED_VALUE /\
    trace w' =
      [] ++ [EvStore (1 + 2) semtstNON_BLOCKING_EXPECTED_VALUE;
             EvStore (1 + 5) semtstBLOCKING_EXPECTED_VALUE] /\
    oracle w' = [].
Proof.
  apply (zero_tick_period_divides_by_zero 128 2 (boot (repeat true 8 ++ [])) []).
  - reflexivity.
  - reflexivity.
Defined.

(** X12.  With a tick period above 100 ms the block time 100 /
    portTICK_PERIOD_MS is 0, and the blocking pair is started like a polling
    one: its tasks take 0xFF as their expected value while their cell was
    initialised to 0xFFF.  The first pass in which such a task gets the
    semaphore finds the mismatch, and the task never advances its check
    variable. *)
Theorem slow_tick_blocking_pair_never_counts
        (portTICK_PERIOD_MS configMINIMAL_STACK_SIZE uxPriority : Z)
        (w : World) (rest : list bool)
        (fuel : nat) (env : CycleEnv) (envs : list CycleEnv) :
  0 < brk w ->
  oracle w = repeat true 10 ++ rest ->
  100 < portTICK_PERIOD_MS ->
  length (sCheckVariables w) = 4%nat ->
  0 <= sNextCheckVariable w ->
  (257 < fuel)%nat ->
  take_result env = pdPASS ->
  exists w1 l w2 l' w',
    vStartSemaphoreTasks portTICK_PERIOD_MS configMINIMAL_STACK_SIZE uxPriority w
      = Ok tt w1 /\
    params w1 !! (brk w + 3) = Some (mkParams (brk w + 4) (brk w + 5) 0) /\
    prvSemaphoreTest_start (brk w + 3) w1 = Ok l w2 /\
    l_ulExpectedValue l = semtstNON_BLOCKING_EXPECTED_VALUE /\
    cells w2 !! l_pulSharedVariable l = Some semtstBLOCKING_EXPECTED_VALUE /\
    run_cycles fuel (env :: envs) l w2 = Ok l' w' /\
    sCheckVariables w' = sCheckVariables w2 /\
    l_sError l' <> pdFALSE.
Proof.
  intros Hbrk Horc Htick Hlen Hnext Hfuel Htake. simpl in Horc.
  assert (Hdiv : 100 / portTICK_PERIOD_MS = 0) by (apply Z.div_small; lia).
  pose (w1 := mkWorld (sCheckVariables w) (sNextCheckVariable w) (sLastCheckVariables w)
                (<[brk w + 3 := mkParams (brk w + 4) (brk w + 5) 0]>
                   (<[brk w := mkParams (brk w + 1) (brk w + 2) 0]> (params w)))
                (<[brk w + 5 := semtstBLOCKING_EXPECTED_VALUE]>
                   (<[brk w + 2 := semtstNON_BLOCKING_EXPECTED_VALUE]> (cells w)))
                (<[brk w + 4 := true]> (<[brk w + 1 := true]> (sems w)))
                (brk w + 6) rest
                ((tasks w ++
                  [mkTask "PolSEM1" configMINIMAL_STACK_SIZE (brk w) tskIDLE_PRIORITY] ++
                  [mkTask "PolSEM2" configMINIMAL_STACK_SIZE (brk w) tskIDLE_PRIORITY]) ++
                 [mkTask "BlkSEM1" configMINIMAL_STACK_SIZE (brk w + 3) uxPriority] ++
                 [mkTask "BlkSEM2" configMINIMAL_STACK_SIZE (brk w + 3) uxPriority])
                ((trace w ++ [EvStore (brk w + 2) semtstNON_BLOCKING_EXPECTED_VALUE]) ++
                 [EvStore (brk w + 5) semtstBLOCKING_EXPECTED_VALUE])
                (stale_params w) (stale_cells w)).
  assert (Hstart : vStartSemaphoreTasks portTICK_PERIOD_MS configMINIMAL_STACK_SIZE
                     uxPriority w = Ok tt w1).
  { unfold vStartSemaphoreTasks.
    rewrite (bind_ok _ _ _ _ _
               (start_polling_pair_outcomes _ w true true _ Hbrk Horc)).
    rewrite (start_blocking_pair_outcomes _ _ _ _ true true rest);
      [|wsimpl; lia|lia|reflexivity].
    wsimpl. rewrite Hdiv. unfold w1.
    replace (brk w + 3 + 1) with (brk w + 4) by lia.
    replace (brk w + 3 + 2) with (brk w + 5) by lia.
    replace (brk w + 3 + 3) with (brk w + 6) by lia.
    reflexivity. }
  assert (Hp2 : params w1 !! (brk w + 3) = Some (mkParams (brk w + 4) (brk w + 5) 0))
    by apply lookup_insert_eq.
  pose (l0 := mkLocals (brk w + 3) (brk w + 5) semtstNON_BLOCKING_EXPECTED_VALUE
                       pdFALSE (sNextCheckVariable w)).
  pose (w2 := emit (EvPrint pcSemaphoreTaskStart)
                (set_sNextCheckVariable (wrap16 (sNextCheckVariable w1 + 1)) w1)).
  assert (Hl0 : prvSemaphoreTest_start (brk w + 3) w1 = Ok l0 w2)
    by (rewrite (start_ok _ _ _ Hp2); reflexivity).
  assert (Hc : cells w2 !! l_pulSharedVariable l0 = Some semtstBLOCKING_EXPECTED_VALUE)
    by apply lookup_insert_eq.
  assert (Hr : ready fuel l0 w2).
  { unfold ready.
    split; [eexists; exact Hp2|].
    split; [eexists; exact Hc|].
    split; [vm_compute; split; [discriminate|reflexivity]|].
    split; [change (Z.to_nat (l_ulExpectedValue l0)) with 255%nat; lia|].
    split; [exact Hnext|exact Hlen]. }
  destruct (cycle_effect fuel env l0 w2 _ Hr Hc)
    as (l1 & w3 & Hrun & Hr1 & Hcnt & Herr & _).
  assert (Hadv : advances env l0 semtstBLOCKING_EXPECTED_VALUE = false).
  { unfold advances, fault_in_cycle, pre_mismatch. simpl.
    by rewrite andb_false_r. }
  rewrite Hadv in Hcnt.
  assert (Hset1 : l_sError l1 <> pdFALSE).
  { rewrite Herr, Htake. change (pdPASS =? pdPASS) with true. cbv iota.
    intros Hclr. apply Z.eqb_eq in Hclr. rewrite sError_after_clear in Hclr.
    unfold fault_in_cycle, pre_mismatch in Hclr. simpl in Hclr. discriminate. }
  destruct (latched_run fuel envs l1 w3 Hr1 Hset1) as (l' & w' & Hrun' & Hcnt' & Herr').
  exists w1, l0, w2, l', w'.
  split; [exact Hstart|]. split; [exact Hp2|]. split; [exact Hl0|].
  split; [reflexivity|]. split; [exact Hc|].
  split.
  - unfold run_cycles in *. simpl. by rewrite (bind_ok _ _ _ _ _ Hrun).
  - split; [congruence|exact Herr'].
Qed.

Lemma slow_tick_blocking_pair_never_counts_witness :
  exists w1 l w2 l' w',
    vStartSemaphoreTasks 200 128 2 (boot (repeat true 10 ++ [])) = Ok tt w1 /\
    params w1 !! (1 + 3) = Some (mkParams (1 + 4) (1 + 5) 0) /\
    prvSemaphoreTest_start (1 + 3) w1 = Ok l w2 /\
    l_ulExpectedValue l = semtstNON_BLOCKING_EXPECTED_VALUE /\
    cells w2 !! l_pulSharedVariable l = Some semtstBLOCKING_EXPECTED_VALUE /\
    run_cycles 300 [clean; clean] l w2 = Ok l' w' /\
    sCheckVariables w' = sCheckVariables w2 /\
    l_sError l' <> pdFALSE.
Proof.
  apply (slow_tick_blocking_pair_never_counts 200 128 2
           (boot (repeat true 10 ++ [])) [] 300 clean [clean]).
  - reflexivity.
  - reflexivity.
  - lia.
  - reflexivity.
  - discriminate.
  - lia.
  - reflexivity.
Defined.

(* ===================================================================== *)
(** * led.c and main.c *)
(* ===================================================================== *)

Lemma to_int_small (z : Z) : -2147483648 <= z <= 2147483647 -> Led.to_int z = z.
Proof.
  intros Hz. unfold Led.to_int.
  rewrite Z.mod_small by lia. lia.
Qed.

(** X13.  ledSet, for an LED number from 0 to INT_MAX, never fails and
    leaves both init flags alone.  For LED_GREEN it makes exactly one
    register write on pin 13 of port C: to BRR to switch the LED on (the LED
    is active low), to BSRR to switch it off.  For any other number in that
    range it does nothing at all. *)
Theorem ledSet_one_write_or_none
        (b : Led.Board) (led : Z) (value : bool) (st : Led.State) :
  0 <= led <= 2147483647 ->
  exists st',
    Led.ledSet b led value st = Some st' /\
    Led.led_isInit st' = Led.led_isInit st /\
    Led.system_isInit st' = Led.system_isInit st /\
    Led.calls st' =
      Led.calls st ++
      (if led =? Led.LED_GREEN
       then [if value
             then Led.WriteBRR (Led.GPIOC b) (Led.u16 (Led.GPIO_Pin_13 b))
             else Led.WriteBSRR (Led.GPIOC b) (Led.u16 (Led.GPIO_Pin_13 b))]
       else []).
Proof.
  intros Hled. unfold Led.ledSet, Led.LED_NUM, Led.LED_GREEN.
  rewrite to_int_small by lia.
  destruct (1 <=? led) eqn:Hge.
  - apply Z.leb_le in Hge.
    replace (led =? 0) with false by (symmetry; apply Z.eqb_neq; lia).
    exists st. by rewrite app_nil_r.
  - apply Z.leb_gt in Hge. assert (led = 0) as -> by lia.
    destruct value; eexists; (split; [reflexivity|]); auto.
Qed.

Lemma ledSet_one_write_or_none_witness :
  exists st',
    Led.ledSet (Led.mkBoard 1073811456 8192 16 16 2 1 128 5 (fun ms => ms)) 0 true Led.reset
      = Some st' /\
    Led.led_isInit st' = Led.led_isInit Led.reset /\
    Led.system_isInit st' = Led.system_isInit Led.reset /\
    Led.calls st' =
      Led.calls Led.reset ++
      (if 0 =? Led.LED_GREEN
       then [if true
             then Led.WriteBRR 1073811456 (Led.u16 8192)
             else Led.WriteBSRR 1073811456 (Led.u16 8192)]
       else []).
Proof.
  apply (ledSet_one_write_or_none
           (Led.mkBoard 1073811456 8192 16 16 2 1 128 5 (fun ms => ms)) 0 true Led.reset).
  lia.
Defined.

(** X21.  The guard of ledSet tests [(int)led] while the arrays are indexed
    with [led].  An LED number other than LED_GREEN whose cast to int is
    not positive, a negative one or one from 2^31 on, passes the guard, and
    ledPorts and ledPins, of one element each, are read outside their
    bounds. *)
Theorem ledSet_cast_lets_bad_index_through
        (b : Led.Board) (led : Z) (value : bool) (st : Led.State) :
  led <> Led.LED_GREEN ->
  Led.to_int led < Led.LED_NUM ->
  Led.ledSet b led value st = None.
Proof.
  unfold Led.LED_GREEN, Led.LED_NUM. intros Hne Hcast. unfold Led.ledSet, Led.LED_NUM.
  replace (1 <=? Led.to_int led) with false by (symmetry; apply Z.leb_gt; lia).
  unfold Led.at_index, Led.ledPorts.
  destruct (0 <=? led) eqn:Hpos; [|reflexivity].
  apply Z.leb_le in Hpos.
  destruct (Z.to_nat led) as [|n] eqn:Hn; [lia|reflexivity].
Qed.

Lemma ledSet_cast_lets_bad_index_through_witness :
  Led.ledSet (Led.mkBoard 1073811456 8192 16 16 2 1 128 5 (fun ms => ms))
             2147483648 true Led.reset = None.
Proof.
  apply (ledSet_cast_lets_bad_index_through
           (Led.mkBoard 1073811456 8192 16 16 2 1 128 5 (fun ms => ms))
           2147483648 true Led.reset).
  - discriminate.
  - vm_compute. reflexivity.
Defined.

(** At LED_GREEN the guard of ledSet is passed and both arrays are read
    at their one element. *)
Lemma ledSet_green (b : Led.Board) (value : bool) (st : Led.State) :
  Led.ledSet b Led.LED_GREEN value st =
  Some (if value then Led.GPIO_ResetBits (Led.GPIOC b) (Led.GPIO_Pin_13 b) st
        else Led.GPIO_SetBits (Led.GPIOC b) (Led.GPIO_Pin_13 b) st).
Proof. reflexivity. Qed.

Lemma ledInit_closed (b : Led.Board) (st : Led.State) :
  Led.ledInit b st =
  Some (if Led.led_isInit st then st
        else Led.mkState true (Led.system_isInit st) (Led.calls st ++ Led.init_calls b)).
Proof.
  unfold Led.ledInit. destruct (Led.led_isInit st); [reflexivity|].
  change (seqZ 0 Led.LED_NUM) with [0].
  unfold Led.ledInit_loop, Led.at_index, Led.ledPins, Led.ledPorts.
  change (0 <=? 0) with true. change (Z.to_nat 0) with 0%nat.
  cbn [lookup list_lookup]. rewrite ledSet_green.
  unfold Led.init_calls, Led.GPIO_SetBits, Led.call,
    Led.LED_GPIO_GREEN, Led.LED_GPIO_GREEN_PORT, Led.LED_GPIO_PERIF.
  cbn [Led.calls Led.led_isInit Led.system_isInit].
  by rewrite <- !app_assoc.
Qed.

(** X14.  ledInit never fails and is idempotent.  The first call enables the
    port clock, configures pin 13 of port C as a 2 MHz push-pull output,
    switches the LED off, creates the ledBlink task at priority 1 and sets
    the flag ledTest reports; with the flag set, a call changes nothing. *)
Theorem ledInit_runs_once (b : Led.Board) (st : Led.State) :
  exists st',
    Led.ledInit b st = Some st' /\
    Led.ledTest st' = true /\
    Led.system_isInit st' = Led.system_isInit st /\
    Led.calls st' =
      Led.calls st ++ (if Led.ledTest st then [] else Led.init_calls b) /\
    Led.ledInit b st' = Some st'.
Proof.
  rewrite ledInit_closed. eexists. split; [reflexivity|].
  unfold Led.ledTest. destruct (Led.led_isInit st) eqn:Hinit.
  - rewrite Hinit, app_nil_r, ledInit_closed, Hinit. auto.
  - simpl. rewrite ledInit_closed. simpl. auto.
Qed.

Lemma systemInit_closed (b : Led.Board) (st : Led.State) :
  Led.systemInit b st =
  Some (if Led.system_isInit st then st
        else Led.mkState true true
               (Led.calls st ++ (if Led.led_isInit st then [] else Led.init_calls b))).
Proof.
  unfold Led.systemInit. destruct (Led.system_isInit st) eqn:Hsys; [reflexivity|].
  rewrite ledInit_closed. destruct (Led.led_isInit st) eqn:Hled; simpl.
  - by rewrite Hled, app_nil_r.
  - reflexivity.
Qed.

Lemma run_inits_initialised (b : Led.Board) (cs : list Led.InitCall) :
  forall st,
    Led.led_isInit st = true ->
    exists st',
      Led.run_inits b cs st = Some st' /\
      Led.led_isInit st' = true /\
      Led.calls st' = Led.calls st.
Proof.
  induction cs as [|c cs IH]; intros st Hinit.
  - exists st. auto.
  - simpl. destruct c; simpl.
    + rewrite ledInit_closed, Hinit. simpl. by apply IH.
    + rewrite systemInit_closed. simpl.
      destruct (Led.system_isInit st); [by apply IH|].
      rewrite Hinit, app_nil_r.
      destruct (IH (Led.mkState true true (Led.calls st)) eq_refl) as (st' & H1 & H2 & H3).
      exists st'. auto.
Qed.

(** X15.  However calls of ledInit and systemInit are mixed, starting from
    the reset state, the LED is set up exactly once, by the first call: the
    calls made are those of one ledInit, and the ledBlink task is created
    once.  The two files keep separate flags; it is the flag of led.c that
    prevents the second set-up. *)
Theorem led_set_up_once (b : Led.Board) (cs : list Led.InitCall) :
  exists st,
    Led.run_inits b cs Led.reset = Some st /\
    Led.calls st = (if cs is [] then [] else Led.init_calls b) /\
    Led.blink_tasks (Led.calls st) = (if cs is [] then 0 else 1)%nat /\
    Led.ledTest st = (if cs is [] then false else true).
Proof.
  destruct cs as [|c cs].
  - exists Led.reset. auto.
  - simpl. destruct c; simpl.
    + destruct (run_inits_initialised b cs
                  (Led.mkState true false (Led.init_calls b)) eq_refl)
        as (st' & Hrun & Hinit & Hcalls).
      exists st'. split; [exact Hrun|]. rewrite Hcalls. auto.
    + destruct (run_inits_initialised b cs
                  (Led.mkState true true (Led.init_calls b)) eq_refl)
        as (st' & Hrun & Hinit & Hcalls).
      exists st'. split; [exact Hrun|]. rewrite Hcalls. auto.
Qed.

Lemma blinks_closed (b : Led.Board) (ms : Z) (n : nat) :
  forall st,
    Led.blinks b ms n st =
    Some (Led.mkState (Led.led_isInit st) (Led.system_isInit st)
            (Led.calls st ++ concat (replicate n (Led.blink_calls b ms)))).
Proof.
  induction n as [|n IH]; intros st.
  - simpl. rewrite app_nil_r. by destruct st.
  - simpl. rewrite IH. simpl. by rewrite <- !app_assoc.
Qed.

Lemma green_only_blinks (b : Led.Board) (ms : Z) (n : nat) :
  Forall (Led.green_only b) (concat (replicate n (Led.blink_calls b ms))).
Proof.
  induction n as [|n IH]; [constructor|].
  simpl. repeat (constructor; [by simpl|]). exact IH.
Qed.

Lemma green_only_init (b : Led.Board) : Forall (Led.green_only b) (Led.init_calls b).
Proof. repeat (constructor; [by simpl|]). constructor. Qed.

(** X16.  ledTask never fails and touches neither init flag.  [n] turns of
    its loop are [n] times: pin low (LED on), wait M2T(100), pin high (LED
    off), wait M2T(100); every register write it makes is to pin 13 of
    port C. *)
Theorem ledTask_blinks (b : Led.Board) (n : nat) (st : Led.State) :
  exists st',
    Led.ledTask b n st = Some st' /\
    Led.led_isInit st' = Led.led_isInit st /\
    Led.system_isInit st' = Led.system_isInit st /\
    Led.calls st' =
      Led.calls st ++ concat (replicate n (Led.blink_calls b Led.INTERVAL)) /\
    Forall (Led.green_only b) (concat (replicate n (Led.blink_calls b Led.INTERVAL))).
Proof.
  unfold Led.ledTask. rewrite blinks_closed. eexists. split; [reflexivity|].
  simpl. split; [done|]. split; [done|]. split; [done|]. apply green_only_blinks.
Qed.

(** X17.  systemTask never fails.  It sets the LED up unless either init
    flag was already set, leaves both flags set if the system flag was clear,
    and then blinks with waits of M2T(20); every register write it makes is
    to pin 13 of port C. *)
Theorem systemTask_calls (b : Led.Board) (n : nat) (st : Led.State) :
  exists st',
    Led.systemTask b n st = Some st' /\
    Led.calls st' =
      Led.calls st ++
      (if Led.system_isInit st || Led.led_isInit st then [] else Led.init_calls b) ++
      concat (replicate n (Led.blink_calls b 20)) /\
    Led.system_isInit st' = true /\
    Led.led_isInit st' = negb (Led.system_isInit st) || Led.led_isInit st /\
    Forall (Led.green_only b)
           ((if Led.system_isInit st || Led.led_isInit st then [] else Led.init_calls b) ++
            concat (replicate n (Led.blink_calls b 20))).
Proof.
  assert (Hgreen : Forall (Led.green_only b)
            ((if Led.system_isInit st || Led.led_isInit st then [] else Led.init_calls b) ++
             concat (replicate n (Led.blink_calls b 20)))).
  { apply Forall_app. split; [|apply green_only_blinks].
    destruct (_ || _); [constructor|apply green_only_init]. }
  unfold Led.systemTask. rewrite systemInit_closed.
  cbn [mbind option_bind]. rewrite blinks_closed.
  eexists. split; [reflexivity|].
  destruct (Led.system_isInit st) eqn:Hsys, (Led.led_isInit st) eqn:Hled;
    cbn [Led.calls Led.system_isInit Led.led_isInit orb negb];
    rewrite ?Hsys, ?Hled, ?app_nil_r, <- ?app_assoc; auto.
Qed.

(** X18.  From reset, main followed by [n] turns of systemTask: the SYSTEM
    task is created with twice the minimal stack at the top priority, the
    scheduler is started, and only then is the LED set up and blinked.  Two
    tasks are created in all, SYSTEM and then ledBlink. *)
Theorem boot_sequence (b : Led.Board) (n : nat) :
  exists st,
    Led.systemTask b n (Led.main b Led.reset) = Some st /\
    Led.calls st =
      [Led.xTaskCreate "SYSTEM" (Z.shiftl (Led.configMINIMAL_STACK_SIZE b) 1)
                       (Led.configMAX_PRIORITIES b - 1);
       Led.vTaskStartScheduler] ++
      Led.init_calls b ++ concat (replicate n (Led.blink_calls b 20)) /\
    Led.blink_tasks (Led.calls st) = 1%nat /\
    Led.ledTest st = true.
Proof.
  unfold Led.systemTask. rewrite systemInit_closed. simpl.
  rewrite blinks_closed. eexists. split; [reflexivity|]. simpl.
  split; [reflexivity|]. split; [|reflexivity].
  induction n as [|n IH]; [reflexivity|]. exact IH.
Qed.

(* ===================================================================== *)
(** ** Waiting and pacing *)
(* ===================================================================== *)

Lemma yields_app t1 t2 : yields (t1 ++ t2) = (yields t1 + yields t2)%nat.
Proof.
  induction t1 as [|e t1 IH]; [reflexivity|].
  destruct e; simpl; rewrite IH; reflexivity.
Qed.

Lemma loop_events_yields p env ks e : yields (loop_events p env ks e) = 0%nat.
Proof.
  revert e. induction ks as [|k ks IH]; intros e; [reflexivity|].
  simpl. rewrite yields_app, IH.
  destruct (reread env k =? k); [reflexivity|]. by destruct (e =? pdFALSE).
Qed.

(** X19.  A task that is refused the semaphore again and again changes
    nothing: its locals, the cells, the check variables stay as they are.  A
    polling task (block time 0) yields exactly once per attempt, so it never
    spins without giving up the processor; a blocking task never yields, its
    waiting is done inside xSemaphoreTake. *)
Theorem starved_task_yields_every_attempt
        (fuel : nat) (envs : list CycleEnv) (l : Locals) (w : World)
        (s : xSemaphoreParameters) :
  params w !! l_pxParameters l = Some s ->
  Forall (fun env => take_result env <> pdPASS) envs ->
  exists w',
    run_cycles fuel envs l w = Ok l w' /\
    cells w' = cells w /\
    sCheckVariables w' = sCheckVariables w /\
    emissions (trace w') = emissions (trace w) /\
    yields (trace w') =
      (yields (trace w) + (if Z.eqb (xBlockTime s) 0 then length envs else 0))%nat.
Proof.
  intros Hs Hall. revert w Hs.
  induction envs as [|env envs IH]; intros w Hs.
  - exists w. split; [reflexivity|].
    split; [reflexivity|]. split; [reflexivity|]. split; [reflexivity|].
    destruct (xBlockTime s =? 0); simpl; lia.
  - apply Forall_cons in Hall as [Ht Hall].
    unfold run_cycles. simpl.
    rewrite (bind_ok _ _ _ _ _ (cycle_not_taken fuel env l w s Hs Ht)).
    destruct (IH Hall (touch (sems w) (cells w)
                         (EvTake (xSemaphore s) (xBlockTime s) (take_result env) ::
                          (if xBlockTime s =? 0 then [EvYield] else [])) w) Hs)
      as (w' & Hrun & Hcells & Hcnt & Hem & Hy).
    exists w'. split; [exact Hrun|].
    split; [exact Hcells|]. split; [exact Hcnt|].
    simpl trace in Hem, Hy. rewrite emissions_app in Hem. rewrite yields_app in Hy.
    destruct (xBlockTime s =? 0); simpl in *; split; lia.
Qed.

Lemma starved_task_yields_every_attempt_witness :
  exists w',
    run_cycles 0 (repeat (mkEnv pdFALSE (fun _ => None) pdTRUE) 3)
               (fst pol_started) (snd pol_started) = Ok (fst pol_started) w' /\
    cells w' = cells (snd pol_started) /\
    sCheckVariables w' = sCheckVariables (snd pol_started) /\
    emissions (trace w') = emissions (trace (snd pol_started)) /\
    yields (trace w') =
      (yields (trace (snd pol_started)) +
       (if Z.eqb (xBlockTime (mkParams 2 3 0)) 0
        then length (repeat (mkEnv pdFALSE (fun _ => None) pdTRUE) 3) else 0))%nat.
Proof.
  apply (starved_task_yields_every_attempt
           0 (repeat (mkEnv pdFALSE (fun _ => None) pdTRUE) 3)
           (fst pol_started) (snd pol_started) (mkParams 2 3 0)).
  - vm_compute. reflexivity.
  - repeat constructor; discriminate.
Defined.

(** X20.  A pass that took the semaphore never yields; the last thing it
    does is vTaskDelay with ten times the block time of its pair, modulo
    2^32: a delay of 0 ticks for the polling pair. *)
Theorem taken_pass_ends_with_delay
        (fuel : nat) (env : CycleEnv) (l : Locals) (w : World)
        (s : xSemaphoreParameters) :
  ready fuel l w ->
  params w !! l_pxParameters l = Some s ->
  take_result env = pdPASS ->
  exists l' w' before,
    prvSemaphoreTest_cycle fuel env l w = Ok l' w' /\
    trace w' =
      trace w ++ before ++ [EvDelay (wrap32 (xBlockTime s * semtstDELAY_FACTOR))] /\
    yields before = 0%nat.
Proof.
  intros Hr Hs Ht.
  destruct (cycle_pass fuel env l w Hr Ht) as (s' & v0 & Hs' & Hv0 & Hrun).
  rewrite Hs in Hs'. injection Hs' as <-.
  eexists _, _.
  exists ([EvTake (xSemaphore s) (xBlockTime s) (take_result env);
           EvLoad (l_pulSharedVariable l) v0] ++
          (if v0 =? l_ulExpectedValue l then [] else [EvPrint pcPollingSemaphoreTaskError]) ++
          loop_events (l_pulSharedVariable l) env (counts l) (sError_checked l v0) ++
          [EvGive (xSemaphore s) (give_result env)] ++
          (if give_result env =? pdFALSE then [EvPrint pcPollingSemaphoreTaskError] else [])).
  split; [exact Hrun|].
  split.
  - transitivity (trace w ++ pass_events env s l v0);
      [by destruct (advances env l v0)|].
    unfold pass_events. f_equal.
    rewrite <- !app_assoc. reflexivity.
  - rewrite !yields_app, loop_events_yields.
    destruct (v0 =? l_ulExpectedValue l), (give_result env =? pdFALSE); reflexivity.
Qed.

Lemma taken_pass_ends_with_delay_witness :
  exists l' w' before,
    prvSemaphoreTest_cycle 300 clean (fst pol_started) (snd pol_started) = Ok l' w' /\
    trace w' =
      trace (snd pol_started) ++ before ++
      [EvDelay (wrap32 (xBlockTime (mkParams 2 3 0) * semtstDELAY_FACTOR))] /\
    yields before = 0%nat.
Proof.
  apply (taken_pass_ends_with_delay 300 clean (fst pol_started) (snd pol_started)
                                    (mkParams 2 3 0)).
  - apply pol_started_ready.
  - vm_compute. reflexivity.
  - reflexivity.
Defined.
